(** * The half-set pipeline of cryo-et-pipeline, embedded in Rocq

    The development follows [halftomo_reconstruct.py] (metadata
    classification, job-file rendering, external step runners, the
    per-dataset driver, the transfer of the half sets, archival sync and
    the stages of the script) and the sampling step of [pyDDW.py].

    Python values are modelled as follows.
    - [str] is [string]; [int] is [Z]; list positions and lengths are [nat].
    - A [Path] is its POSIX text.  The file system is an association
      list from paths to nodes, in directory-listing order (the order in
      which [iterdir], [glob] and [rglob] yield).
    - Side effects (logging, file writes, subprocess calls) are threaded
      through a state-and-exception monad [M]; every effect is also
      recorded, in program order, in the [trace] of the world.
    - What an external command prints is an input of the model
      ([stdout_of]); the volumes those tools create are not modelled.
      The steps that run the tools do not read those volumes back;
      [subtransfer] and [sync_db] are described on whatever file system
      they start from.
    - The three job files of a dataset are regular text files whenever
      they exist, and writing them does not fail. *)

From Stdlib Require Import String Ascii List ZArith Lia Bool Arith Sorted.
From Stdlib Require Import Numbers.DecimalString.
Import ListNotations.

Open Scope list_scope.
Open Scope string_scope.

(** ** Python string operations *)

Module Py.

(** [needle in hay] *)
Fixpoint contains (needle hay : string) : bool :=
  prefix needle hay ||
  match hay with
  | EmptyString => false
  | String _ rest => contains needle rest
  end.

(** [s.split(sep)[0]] for a non-empty [sep]: the text before the first
    occurrence of [sep], all of [s] when there is none. *)
Fixpoint before (sep s : string) : string :=
  if prefix sep s then EmptyString
  else match s with
       | EmptyString => EmptyString
       | String c rest => String c (before sep rest)
       end.

(** [s.split(c)] for a one-character separator; never empty. *)
Fixpoint split (c : ascii) (s : string) : list string :=
  match s with
  | EmptyString => [EmptyString]
  | String a rest =>
      if Ascii.eqb a c then EmptyString :: split c rest
      else match split c rest with
           | [] => [String a EmptyString]
           | x :: xs => String a x :: xs
           end
  end.

(** [l[-1]] and [l[-2]] *)
Definition last_item (l : list string) : option string := nth_error (rev l) 0.
Definition penultimate (l : list string) : option string := nth_error (rev l) 1.

(** [sep.join(l)] *)
Fixpoint join (sep : string) (l : list string) : string :=
  match l with
  | [] => EmptyString
  | [x] => x
  | x :: xs => x ++ sep ++ join sep xs
  end.

(** [str(n)] for an integer *)
Definition str (n : Z) : string := NilZero.string_of_int (Z.to_int n).

Definition newline : ascii := "010"%char.
Definition tab : ascii := "009"%char.
Definition NL : string := String newline EmptyString.
Definition TAB : string := String tab EmptyString.

(** Iterating over a text file: each line keeps its terminator. *)
Fixpoint lines (s : string) : list string :=
  match s with
  | EmptyString => []
  | String c rest =>
      if Ascii.eqb c newline then String c EmptyString :: lines rest
      else match lines rest with
           | [] => [String c EmptyString]
           | l :: ls => String c l :: ls
           end
  end.

(** [fnmatch] restricted to literal characters, [*] and [?]
    (bracket classes do not occur in the patterns of this program as
    long as file names carry no '['). *)
Fixpoint fnmatch (pat s : string) : bool :=
  match pat with
  | EmptyString => match s with EmptyString => true | _ => false end
  | String p pat' =>
      if Ascii.eqb p "*"%char then
        (fix star (t : string) : bool :=
           fnmatch pat' t ||
           match t with
           | EmptyString => false
           | String _ t' => star t'
           end) s
      else
        match s with
        | EmptyString => false
        | String a s' =>
            (Ascii.eqb p "?"%char || Ascii.eqb p a) && fnmatch pat' s'
        end
  end.

(** truthiness of a list *)
Definition truthy {A : Type} (l : list A) : bool :=
  match l with [] => false | _ => true end.

End Py.

(** ** Paths and the file system *)

Definition path := string.

(** [d / name] *)
Definition joinpath (d : path) (name : string) : path := d ++ "/" ++ name.

(** [p.name]: the final component *)
Definition name_of (p : path) : string :=
  match Py.last_item (Py.split "/"%char p) with
  | Some n => n
  | None => EmptyString
  end.

(** The text left of [p] once the prefix [pre] is removed. *)
Fixpoint strip_prefix (pre p : string) : option string :=
  match pre with
  | EmptyString => Some p
  | String a pre' =>
      match p with
      | EmptyString => None
      | String b p' => if Ascii.eqb a b then strip_prefix pre' p' else None
      end
  end.

(** [q] lies somewhere below directory [d]: the relative path. *)
Definition below (d q : path) : option string :=
  match strip_prefix (d ++ "/") q with
  | Some EmptyString => None
  | r => r
  end.

(** [q] is an entry of directory [d]: its name. *)
Definition child_name (d q : path) : option string :=
  match below d q with
  | Some rel => if Py.contains "/" rel then None else Some rel
  | None => None
  end.

Inductive node : Type :=
| Directory
| TextFile (content : string)
| Volume (nx ny nz : Z).   (* an MRC volume: the header's dimensions *)

Definition filesystem := list (path * node).

Fixpoint lookup (p : path) (fs : filesystem) : option node :=
  match fs with
  | [] => None
  | (q, n) :: rest => if String.eqb q p then Some n else lookup p rest
  end.

(** Create or replace the file at [p]; a replaced file keeps its place
    in the listing. *)
Fixpoint store (p : path) (n : node) (fs : filesystem) : filesystem :=
  match fs with
  | [] => [(p, n)]
  | (q, m) :: rest =>
      if String.eqb q p then (q, n) :: rest else (q, m) :: store p n rest
  end.

Fixpoint remove (p : path) (fs : filesystem) : filesystem :=
  match fs with
  | [] => []
  | (q, m) :: rest =>
      if String.eqb q p then remove p rest else (q, m) :: remove p rest
  end.

Definition is_dir (p : path) (fs : filesystem) : bool :=
  match lookup p fs with Some Directory => true | _ => false end.

Definition path_exists (p : path) (fs : filesystem) : bool :=
  match lookup p fs with Some _ => true | None => false end.

(** [d.iterdir()] *)
Definition iterdir (d : path) (fs : filesystem) : list path :=
  map fst (filter (fun e => match child_name d (fst e) with
                            | Some _ => true
                            | None => false
                            end) fs).

(** [d.glob(pat)] for a pattern without a directory part *)
Definition glob (d : path) (pat : string) (fs : filesystem) : list path :=
  map fst (filter (fun e => match child_name d (fst e) with
                            | Some n => Py.fnmatch pat n
                            | None => false
                            end) fs).

(** [d.rglob(pat)]: entries at any depth below [d] whose name matches *)
Definition rglob (d : path) (pat : string) (fs : filesystem) : list path :=
  map fst (filter (fun e => match below d (fst e) with
                            | Some _ => Py.fnmatch pat (name_of (fst e))
                            | None => false
                            end) fs).

(** ** The world: file system, subprocess output, trace of effects *)

Inductive level : Type := INFO | WARNING | ERROR.

Inductive event : Type :=
| Log (lvl : level) (msg : string)
| Wrote (p : path) (text : string)      (* text written or appended to [p] *)
| Unlinked (p : path)
| Ran (cwd : path) (cmd : string).      (* [subprocess.run(cmd, shell=True)] *)

Record World : Type := mkWorld {
  fs : filesystem;
  stdout_of : path -> string -> string; (* captured output of a command *)
  trace : list event
}.

Inductive exn : Type :=
| IndexError
| ValueError
| FileNotFoundError
| ZeroDivisionError
| OSError
| Exception (msg : string).

Inductive result (A : Type) : Type :=
| Ok (a : A)
| Raise (e : exn).
Arguments Ok {A} a.
Arguments Raise {A} e.

Definition M (A : Type) : Type := World -> result A * World.

Definition ret {A : Type} (a : A) : M A := fun w => (Ok a, w).

Definition raise {A : Type} (e : exn) : M A := fun w => (Raise e, w).

Definition bind {A B : Type} (c : M A) (k : A -> M B) : M B :=
  fun w => match c w with
           | (Ok a, w') => k a w'
           | (Raise e, w') => (Raise e, w')
           end.

Declare Scope py_scope.
Delimit Scope py_scope with py.
Notation "x <- c ;; k" := (bind c (fun x => k))
  (at level 61, c at next level, right associativity) : py_scope.
Notation "c ;;; k" := (bind c (fun _ => k))
  (at level 61, right associativity) : py_scope.
Open Scope py_scope.

Definition emit (e : event) : M unit :=
  fun w => (Ok tt, mkWorld (fs w) (stdout_of w) (trace w ++ [e])%list).

Definition log (lvl : level) (msg : string) : M unit := emit (Log lvl msg).

Definition get_fs : M filesystem := fun w => (Ok (fs w), w).

Definition set_fs (f : filesystem) : M unit :=
  fun w => (Ok tt, mkWorld f (stdout_of w) (trace w)).

(** [Path.write_text(text)] *)
Definition write_text (p : path) (text : string) : M unit :=
  f <- get_fs ;;
  set_fs (store p (TextFile text) f) ;;;
  emit (Wrote p text).

(** [with p.open('a') as t: t.write(text)] *)
Definition append_text (p : path) (text : string) : M unit :=
  f <- get_fs ;;
  match lookup p f with
  | Some (TextFile old) => set_fs (store p (TextFile (old ++ text)) f)
  | _ => set_fs (store p (TextFile text) f)
  end ;;;
  emit (Wrote p text).

(** [Path.unlink()] *)
Definition unlink (p : path) : M unit :=
  f <- get_fs ;;
  set_fs (remove p f) ;;;
  emit (Unlinked p).

(** [for line in f] over [p.open('r')]; the content of a text file is
    its text as Python decodes it, line ends being newline characters. *)
Definition read_lines (p : path) : M (list string) :=
  f <- get_fs ;;
  match lookup p f with
  | Some (TextFile text) => ret (Py.lines text)
  | Some (Volume _ _ _) => raise ValueError        (* UnicodeDecodeError *)
  | Some Directory => raise OSError                (* IsADirectoryError *)
  | None => raise FileNotFoundError
  end.

(** [mrcfile.open(p)]: the header's [nx, ny, nz], read as integers *)
Definition mrc_header (p : path) : M (Z * Z * Z) :=
  f <- get_fs ;;
  match lookup p f with
  | Some (Volume nx ny nz) => ret (nx, ny, nz)
  | Some (TextFile _) => raise ValueError          (* not an MRC file *)
  | Some Directory => raise OSError
  | None => raise FileNotFoundError
  end.

(** [subprocess.run(cmd, shell=True, capture_output=True).stdout] inside
    [with chdir(cwd)] *)
Definition run_captured (cwd : path) (cmd : string) : M string :=
  emit (Ran cwd cmd) ;;;
  (fun w => (Ok (stdout_of w cwd cmd), w)).

(** A [for] loop whose body may raise; [continue] is the body returning. *)
Fixpoint for_each {A : Type} (body : A -> M unit) (l : list A) : M unit :=
  match l with
  | [] => ret tt
  | x :: rest => body x ;;; for_each body rest
  end.

(** The commands run so far, oldest first. *)
Fixpoint commands (t : list event) : list (path * string) :=
  match t with
  | [] => []
  | Ran cwd cmd :: rest => (cwd, cmd) :: commands rest
  | _ :: rest => commands rest
  end.

(** The paths written so far, oldest first. *)
Fixpoint writes (t : list event) : list path :=
  match t with
  | [] => []
  | Wrote p _ :: rest => p :: writes rest
  | _ :: rest => writes rest
  end.

(** ** halftomo_reconstruct.py *)

Definition DB_DIR : string :=
  "/root/cloud-data/its-cmo-darwin-magellan-workspaces-folders/WS_Cryoem/CX_LMR/Project_directories/cryo-et-data".
Definition EXT : string := "*_rec.mrc".
Definition BIN : Z := 6.
Definition GPU : Z := 0.

(** [[x for x in p.iterdir() if x.is_dir() and list(x.glob(EXT))]] *)
Definition get_datasets (p : path) : M (list path) :=
  f <- get_fs ;;
  ret (filter (fun x => is_dir x f && Py.truthy (glob x EXT f)) (iterdir p f)).

(** [[x for x in dataset.glob('*_rec.mrc') if 'full' not in x.name]] *)
Definition rec_volumes (dataset : path) (f : filesystem) : list path :=
  filter (fun x => negb (Py.contains "full" (name_of x)))
         (glob dataset "*_rec.mrc" f).

(** [rec_volumes[0].name.split('_rec')[0]], when there is such a volume *)
Definition find_name (dataset : path) (f : filesystem) : option string :=
  match rec_volumes dataset f with
  | [] => None
  | x :: _ => Some (Py.before "_rec" (name_of x))
  end.

Definition basename (dataset : path) : M string :=
  f <- get_fs ;;
  match find_name dataset f with
  | Some name => ret name
  | None => raise IndexError
  end.

(** [dataset.name.split('/')[0]] *)
Definition db_set_of (dataset : path) : string :=
  hd EmptyString (Py.split "/"%char (name_of dataset)).

Definition check_metadata (dataset : path) : M Z :=
  let db_set := db_set_of dataset in
  name <- basename dataset ;;
  f <- get_fs ;;
  let xf := Py.truthy (glob dataset (name ++ ".xf") f) in
  let ali := Py.truthy (glob dataset (name ++ "_ali.mrc") f) in
  let tlt := Py.truthy (glob dataset (name ++ ".tlt") f) in
  let xtilt := Py.truthy (glob dataset (name ++ ".xtilt") f) in
  if (negb xf && negb ali) || negb tlt || negb xtilt then
    log INFO ("Not enough metadata for dataset " ++ db_set ++ " - " ++ name) ;;;
    ret 0%Z
  else if ali && tlt && xtilt then
    log INFO ("Dataset " ++ db_set ++ " - " ++ name
              ++ " -- Procede with halfset generation via tilt") ;;;
    ret 1%Z
  else if xf && tlt && xtilt && negb ali then
    log INFO (Py.NL ++ "Dataset " ++ db_set ++ " - " ++ name
              ++ " -- Procede with halfset generation via newstack") ;;;
    ret 2%Z
  else ret 0%Z.

(** [[i+1 for i in range(nz) if i % 2 == r]] as Python integers *)
Definition frames (r : nat) (nz : Z) : list Z :=
  map (fun i => Z.of_nat i + 1)%Z
      (filter (fun i => Nat.eqb (i mod 2) r) (seq 0 (Z.to_nat nz))).

(** [f'INCLUDE {",".join(str(i+1) for i in range(nz) if i % 2 == r)}'] *)
Definition include_line (r : nat) (nz : Z) : string :=
  "INCLUDE " ++ Py.join "," (map Py.str (frames r nz)).

Definition newst_text (name : string) : string :=
  "$setenv IMOD_OUTPUT_FORMAT MRC" ++ Py.NL ++
  "$newstack -StandardInput" ++ Py.NL ++
  "AntialiasFilter" ++ Py.TAB ++ "4" ++ Py.NL ++
  "InputFile" ++ Py.TAB ++ name ++ ".mrc" ++ Py.NL ++
  "OutputFile" ++ Py.TAB ++ name ++ "_ali.mrc" ++ Py.NL ++
  "TransformFile" ++ Py.TAB ++ name ++ ".xf" ++ Py.NL ++
  "LinearInterpolation" ++ Py.TAB ++ "0" ++ Py.NL ++
  "BinByFactor" ++ Py.TAB ++ Py.str BIN ++ Py.NL ++
  "TaperAtFill" ++ Py.TAB ++ "1,1" ++ Py.NL ++
  "AdjustOrigin" ++ Py.NL ++
  "OffsetsInXandY" ++ Py.TAB ++ "0,0" ++ Py.NL ++
  "#DistortionField" ++ Py.TAB ++ ".idf" ++ Py.NL ++
  "ImagesAreBinned" ++ Py.TAB ++ "1" ++ Py.NL ++
  "#GradientFile" ++ Py.TAB ++ name ++ ".maggrad" ++ Py.NL ++
  "$if (-e ./savework) ./savework".

(** The job file synthesized when no [tilt.com] exists; [half] is
    ["evens"] or ["odds"] and [include] the matching INCLUDE line. *)
Definition fresh_tilt_text (name half : string) (thickness fx fy : Z)
    (include : string) : string :=
  "$setenv IMOD_OUTPUT_FORMAT MRC" ++ Py.NL ++
  "$tilt -StandardInput" ++ Py.NL ++
  "FakeSIRTiterations" ++ Py.TAB ++ "10" ++ Py.NL ++
  "InputProjections " ++ name ++ "_ali.mrc" ++ Py.NL ++
  "OutputFile" ++ Py.TAB ++ name ++ "_full_rec_" ++ half ++ ".mrc" ++ Py.NL ++
  "IMAGEBINNED" ++ Py.TAB ++ Py.str BIN ++ Py.NL ++
  "TILTFILE " ++ name ++ ".tlt" ++ Py.NL ++
  "XTILTFILE " ++ name ++ ".xtilt" ++ Py.NL ++
  "UseGPU" ++ Py.TAB ++ Py.str GPU ++ Py.NL ++
  "THICKNESS" ++ Py.TAB ++ Py.str thickness ++ Py.NL ++
  "RADIAL .35 .035" ++ Py.NL ++
  "FalloffIsTrueSigma 1" ++ Py.NL ++
  "SCALE 0 0.00144" ++ Py.NL ++
  "PERPENDICULAR" ++ Py.NL ++
  "MODE 1" ++ Py.NL ++
  "FULLIMAGE" ++ Py.TAB ++ " " ++ Py.str fx ++ " " ++ Py.str fy ++ Py.NL ++
  "SUBSETSTART" ++ Py.TAB ++ "0 0" ++ Py.NL ++
  "AdjustOrigin 1" ++ Py.NL ++
  include ++ Py.NL ++
  "$if (-e ./savework) ./savework".

(** One turn of the loop over the lines of an existing [tilt.com]: the
    text appended to [tilt_evens.com] and to [tilt_odds.com]. *)
Definition rewrite_line (name line : string) : string * string :=
  let line :=
    if Py.contains "InputProjections" line
    then "InputProjections " ++ name ++ "_ali.mrc" ++ Py.NL else line in
  if Py.contains "OutputFile" line then
    ("OutputFile" ++ Py.TAB ++ name ++ "_full_rec_evens.mrc" ++ Py.NL,
     "OutputFile" ++ Py.TAB ++ name ++ "_full_rec_odds.mrc" ++ Py.NL)
  else
    let line :=
      if Py.contains "IMAGEBINNED" line
      then "IMAGEBINNED" ++ Py.TAB ++ Py.str BIN ++ Py.NL else line in
    let line :=
      if Py.contains "TILTFILE" line
      then "TILTFILE " ++ name ++ ".tlt" ++ Py.NL else line in
    let line :=
      if Py.contains "XTILTFILE" line
      then "XTILTFILE " ++ name ++ ".xtilt" ++ Py.NL else line in
    let line :=
      if Py.contains "useGPU" line
      then "UseGPU" ++ Py.TAB ++ "    " ++ Py.str GPU ++ Py.NL else line in
    (line, line).

(** [a // b] on integers *)
Definition floordiv (a b : Z) : M Z :=
  if Z.eqb b 0 then raise ZeroDivisionError else ret (a / b)%Z.

(** The voxel-size comparison of the source only assigns two locals
    that are never read; it has no effect and is left out. *)
Definition construct_coms (dataset : path) (status : Z) : M unit :=
  name <- basename dataset ;;
  f <- get_fs ;;
  mdoc <- match glob dataset (name ++ "*.mdoc") f with
          | [] => raise IndexError
          | x :: _ => ret x
          end ;;
  log INFO ("Identified MDOC file " ++ name_of mdoc) ;;;
  (if Z.eqb status 2 then
     log INFO "Constructing com file for newstack -> newst.com" ;;;
     write_text (joinpath dataset "newst.com") (newst_text name)
   else ret tt) ;;;
  log INFO "Constructing com files for tilt -> tilt_evens.com and tilt_odds.com" ;;;
  let tilt_com := joinpath dataset "tilt.com" in
  let tilt_evens := joinpath dataset "tilt_evens.com" in
  let tilt_odds := joinpath dataset "tilt_odds.com" in
  f <- get_fs ;;
  (if path_exists tilt_evens f then unlink tilt_evens else ret tt) ;;;
  f <- get_fs ;;
  (if path_exists tilt_odds f then unlink tilt_odds else ret tt) ;;;
  full_mage_size <- mrc_header (joinpath dataset (name ++ ".mrc")) ;;
  rec_image_size <- mrc_header (joinpath dataset (name ++ "_rec.mrc")) ;;
  let '(fx, fy, fz) := full_mage_size in
  let '(rx, ry, rz) := rec_image_size in
  let evens := include_line 0 fz in
  let odds := include_line 1 fz in
  f <- get_fs ;;
  if path_exists tilt_com f then
    log INFO "Creating tilt coms based off of existing com files." ;;;
    ls <- read_lines tilt_com ;;
    for_each (fun line =>
                let '(e, o) := rewrite_line name line in
                append_text tilt_evens e ;;;
                append_text tilt_odds o) ls ;;;
    append_text tilt_evens evens ;;;
    append_text tilt_odds odds
  else
    log INFO "Creating brand new tilt com files." ;;;
    rec_bin <- floordiv fx rx ;;
    let rec_thickness := (rec_bin * rz)%Z in
    write_text tilt_evens (fresh_tilt_text name "evens" rec_thickness fx fy evens) ;;;
    write_text tilt_odds (fresh_tilt_text name "odds" rec_thickness fx fy odds).

(** The [if 'finished successfully' in out.stdout: ... elif 'ERROR' in
    out.stdout: ...] block that follows every captured call: whether the
    success branch was taken. *)
Definition outcome (out ok_msg err_msg : string) : M bool :=
  if Py.contains "finished successfully" out then
    log INFO ok_msg ;;; ret true
  else if Py.contains "ERROR" out then
    log ERROR err_msg ;;; ret false
  else ret false.

(** [with chdir(dataset)] is carried by the working directory of the
    commands: a dataset whose basename was found has an entry, so the
    directory exists and [os.chdir] does not fail. *)
Definition newstack (dataset : path) : M bool :=
  let db_set := db_set_of dataset in
  name <- basename dataset ;;
  let cmd := "subm newst.com" in
  log INFO ("Beginning newstack to generate aligned stack for dataset "
            ++ db_set ++ " -- " ++ name) ;;;
  out <- run_captured dataset cmd ;;
  outcome out
    (db_set ++ " -- Successfully generated aligned stack " ++ name ++ "_ali.mrc")
    (db_set ++ " -- Error in generating aligned stack").

Definition count (b : bool) : Z := if b then 1%Z else 0%Z.

Definition tilt (dataset : path) : M bool :=
  let db_set := db_set_of dataset in
  name <- basename dataset ;;
  log INFO ("tilt - Begining generation of tomogram from even tilts for dataset "
            ++ db_set ++ " -- " ++ name) ;;;
  out <- run_captured dataset "subm tilt_evens.com" ;;
  ok_evens <- outcome out
    (db_set ++ " -- Successfully generated even tilt tomogram")
    (db_set ++ " -- Error in generating even tilt tomogram") ;;
  let success := (0 + count ok_evens)%Z in
  log INFO ("tilt - Begining generation of tomogram from odd tilts for dataset "
            ++ db_set ++ " -- " ++ name) ;;;
  out <- run_captured dataset "subm tilt_odds.com" ;;
  ok_odds <- outcome out
    (db_set ++ " -- Successfully generated odd tilt tomogram")
    (db_set ++ " -- Error in generating odd tilt tomogram") ;;
  let success := (success + count ok_odds)%Z in
  ret (Z.eqb success 2).

Definition trimvol (dataset : path) : M bool :=
  let db_set := db_set_of dataset in
  name <- basename dataset ;;
  let full_rec_evens := name ++ "_full_rec_evens.mrc" in
  let rec_evens := name ++ "_rec_evens.mrc" in
  let full_rec_odds := name ++ "_full_rec_odds.mrc" in
  let rec_odds := name ++ "_rec_odds.mrc" in
  log INFO ("trimvol - rotating evens tilt dataset "
            ++ db_set ++ " -- " ++ name ++ " around the X axis") ;;;
  out <- run_captured dataset ("trimvol -rx " ++ full_rec_evens ++ " " ++ rec_evens) ;;
  ok_evens <- outcome out
    (db_set ++ " -- Successfully rotated even tilt tomogram")
    (db_set ++ " -- Error in rotating even tilt tomogram") ;;
  let success := (0 + count ok_evens)%Z in
  log INFO ("trimvol - rotating odds tilt dataset "
            ++ db_set ++ " -- " ++ name ++ " around the X axis") ;;;
  out <- run_captured dataset ("trimvol -rx " ++ full_rec_odds ++ " " ++ rec_odds) ;;
  ok_odds <- outcome out
    (db_set ++ " -- Successfully rotated odd tilt tomogram")
    (db_set ++ " -- Error in rotating odd tilt tomogram") ;;
  let success := (success + count ok_odds)%Z in
  ret (Z.eqb success 2).

(** The body of the loop of [generate_halfsets]; each [continue] ends it. *)
Definition process_dataset (d : path) : M unit :=
  prog <- check_metadata d ;;
  if Z.eqb prog 0 then
    raise (Exception "Must first transfer data from database and try again")
  else
    construct_coms d prog ;;;
    proceed <-
      (if Z.eqb prog 2 then
         ok <- newstack d ;;
         if negb ok then
           log ERROR (name_of d ++ " -- Error in newstack. Terminating this dataset...") ;;;
           ret false
         else ret true
       else ret true) ;;
    if proceed then
      ok <- tilt d ;;
      if negb ok then
        log ERROR (name_of d ++ " -- Error in tilt. Terminating this dataset...")
      else
        ok <- trimvol d ;;
        if negb ok then
          log ERROR (name_of d ++ " -- error in trimvol. Terminating this dataset...")
        else ret tt
    else ret tt.

Definition generate_halfsets (p : path) : M unit :=
  datasets <- get_datasets p ;;
  for_each process_dataset datasets.

(** [p.parent]: the path without its final component *)
Definition parent_of (p : path) : path :=
  match rev (Py.split "/"%char p) with
  | [] => "."
  | [_] => "."
  | _ :: rest =>
      let s := Py.join "/" (rev rest) in
      if String.eqb s EmptyString then "/" else s
  end.

(** [Path.mkdir(p, exist_ok=True)]; the parent, the directory of a file
    that was just listed, exists. *)
Definition mkdir_exist_ok (p : path) : M unit :=
  f <- get_fs ;;
  match lookup p f with
  | Some Directory => ret tt
  | Some _ => raise OSError                         (* FileExistsError *)
  | None => set_fs (store p Directory f)
  end.

(** [src.rename(dst)] for a file [src]: [dst] is replaced if it is
    there.  A move leaves no record in the trace; it shows in the file
    system. *)
Definition rename (src dst : path) : M unit :=
  f <- get_fs ;;
  match lookup src f with
  | None => raise FileNotFoundError
  | Some n =>
      match lookup dst f with
      | Some Directory => raise OSError             (* IsADirectoryError *)
      | _ => set_fs (store dst n (remove src f))
      end
  end.

(** [l[i]] *)
Definition at_index {A : Type} (l : list A) (i : nat) : M A :=
  match nth_error l i with
  | Some x => ret x
  | None => raise IndexError
  end.

(** [for i, x in enumerate(l)], counting from [i] *)
Fixpoint for_enumerate {A : Type} (body : nat -> A -> M unit) (i : nat)
    (l : list A) : M unit :=
  match l with
  | [] => ret tt
  | x :: rest => body i x ;;; for_enumerate body (S i) rest
  end.

(** The double quote character, as a text *)
Definition DQUOTE : string := String "034"%char EmptyString.

Definition subtransfer (p : path) : M unit :=
  f <- get_fs ;;
  let files_evens := filter (fun x => negb (Py.contains "full" (name_of x)))
                            (rglob p "*_rec_evens.mrc" f) in
  let files_odds := filter (fun x => negb (Py.contains "full" (name_of x)))
                           (rglob p "*_rec_odds.mrc" f) in
  log INFO (Py.NL ++ "Transferring halfset reconstructions into subdirectory "
            ++ DQUOTE ++ "halfsets" ++ DQUOTE) ;;;
  for_enumerate (fun i f =>
    let subdir := joinpath (parent_of f) "halfsets" in
    mkdir_exist_ok subdir ;;;
    rename f (joinpath subdir (name_of f)) ;;;
    odd <- at_index files_odds i ;;
    rename odd (joinpath subdir (name_of odd))) 0 files_evens ;;;
  log INFO ("Completed transfer of halfset reconstructions into "
            ++ DQUOTE ++ "halfsets" ++ DQUOTE ++ " subdirectory").

(** [subprocess.run(cmd, shell=True)] without capture, in the current
    directory of the script *)
Definition run_plain (cmd : string) : M unit := emit (Ran "." cmd).

Definition sync_db (p : path) : M unit :=
  f <- get_fs ;;
  let subdirs := rglob p "halfsets" f in
  log INFO (Py.NL ++ name_of p
            ++ " -- Synching the halfset reconstructions to the database") ;;;
  for_each (fun d =>
    let src := d in
    subdir <- match Py.penultimate (Py.split "/"%char src) with
              | Some s => ret s
              | None => raise IndexError
              end ;;
    let dest := DB_DIR ++ "/" ++ subdir in
    f <- get_fs ;;
    if path_exists dest f then
      let cmd := "rsync --progress -avhr " ++ src ++ " " ++ dest in
      run_plain cmd ;;;
      log INFO (name_of p
                ++ " -- Finished synching halfset reconstructions to the database")
    else
      log WARNING (name_of p
                   ++ " -- Does not yet exist in database. Skipping sync to database"))
    subdirs.



(** ** pyDDW.py: locating and sampling half-set pairs *)

Module DDW.

(** [zip(a, b, strict=True)] *)
Definition zip_strict {A B : Type} (a : list A) (b : list B) : M (list (A * B)) :=
  if Nat.eqb (length a) (length b) then ret (combine a b) else raise ValueError.

Definition locate_halfsets (p : path) (evens_ext odds_ext ext : string)
  : M (list (path * path)) :=
  f <- get_fs ;;
  let evens := filter (fun x => negb (Py.contains "full" (name_of x)))
                      (rglob p ("*" ++ evens_ext ++ "." ++ ext) f) in
  let odds := filter (fun x => negb (Py.contains "full" (name_of x)))
                     (rglob p ("*" ++ odds_ext ++ "." ++ ext) f) in
  log INFO ("Found " ++ Py.str (Z.of_nat (length evens)) ++ " evens and "
            ++ Py.str (Z.of_nat (length odds)) ++ " odds") ;;;
  if Nat.eqb (length evens) 0 && Nat.eqb (length odds) 0 then
    log ERROR ("HALFSETS NOT FOUND WITHIN PATH " ++ name_of p) ;;;
    raise FileNotFoundError
  else zip_strict evens odds.

(** [[f(x) for x in l]] where [f] may raise *)
Fixpoint comprehension {A B : Type} (f : A -> M B) (l : list A) : M (list B) :=
  match l with
  | [] => ret []
  | x :: rest => y <- f x ;; ys <- comprehension f rest ;; ret (y :: ys)
  end.

(** [l[i]] *)
Definition item {A : Type} (l : list A) (i : nat) : M A :=
  match nth_error l i with
  | Some x => ret x
  | None => raise IndexError
  end.

Definition lift {A : Type} (r : result A) : M A := fun w => (r, w).

Section Sampling.

(** [random.sample(range(0, N), k)]: the generator is outside the
    program; only the library's contract is assumed of it. *)
Variable random_sample : nat -> nat -> result (list nat).

Definition sample_contract : Prop :=
  forall N k,
    (N < k -> random_sample N k = Raise ValueError) /\
    (k <= N -> exists l, random_sample N k = Ok l /\ length l = k /\
                         NoDup l /\ Forall (fun i => i < N) l).

Definition get_random_halfsets (halfsets : list (path * path)) (n : nat)
  : M (list (path * path)) :=
  samples <- lift (random_sample (length halfsets) n) ;;
  evens <- comprehension (fun i => h <- item halfsets i ;; ret (fst h)) samples ;;
  odds <- comprehension (fun i => h <- item halfsets i ;; ret (snd h)) samples ;;
  log INFO ("Added to the training set: " ++ Py.join ", " (map name_of evens)) ;;;
  log INFO ("Added to the training set: " ++ Py.join ", " (map name_of odds)) ;;;
  ret (combine evens odds).

(** The script up to the sampling; [and_then] stands for what follows
    ([construct_config], [fit], [get_best_model], [refine]). *)
Definition main (p : path)
    (and_then : list (path * path) -> list (path * path) -> M unit) : M unit :=
  halfsets <- locate_halfsets p "evens" "odds" "mrc" ;;
  training_sets <- get_random_halfsets halfsets 5 ;;
  and_then halfsets training_sets.

End Sampling.

End DDW.

(** * Properties *)

(** ** Auxiliary definitions *)

(** The world after some more events. *)
Definition with_events (w : World) (t : list event) : World :=
  mkWorld (fs w) (stdout_of w) (trace w ++ t)%list.

(** Whether a sidecar file of the dataset is there: the truth value of
    the list the source globs. *)
Definition present (d : path) (file : string) (f : filesystem) : bool :=
  Py.truthy (glob d file f).


(** The classifier's code as a function of the four presence tests. *)
Definition state_of (xf ali tlt xtilt : bool) : Z :=
  if (negb xf && negb ali) || negb tlt || negb xtilt then 0
  else if ali && tlt && xtilt then 1
  else if xf && tlt && xtilt && negb ali then 2
  else 0.

(** The final character of a text, used to tell paths apart by their
    extension. *)
Fixpoint last_char (s : string) : option ascii :=
  match s with
  | EmptyString => None
  | String c EmptyString => Some c
  | String _ rest => last_char rest
  end.

(** The text of a file, empty when the path holds no text file. *)
Definition text_at (p : path) (f : filesystem) : string :=
  match lookup p f with
  | Some (TextFile t) => t
  | _ => EmptyString
  end.

(** The listing of the paths that satisfy [P], in directory order. *)
Definition listing (P : path -> bool) (f : filesystem) : list path :=
  map fst (filter (fun e => P (fst e)) f).

(** What the renderer reads of a dataset: a reconstructed volume that
    gives the basename, an mdoc, and the headers of the raw and the
    reconstructed volume. *)
Record renderable (d : path) (f : filesystem) (name : string)
    (fx fy fz rx ry rz : Z) : Prop := {
  has_name : find_name d f = Some name;
  has_mdoc : glob d (name ++ "*.mdoc") f <> [];
  has_raw : lookup (joinpath d (name ++ ".mrc")) f = Some (Volume fx fy fz);
  has_rec : lookup (joinpath d (name ++ "_rec.mrc")) f = Some (Volume rx ry rz)
}.

(** The file system once [p] has been unlinked if it was there. *)
Definition cleared (p : path) (f : filesystem) : filesystem :=
  if path_exists p f then remove p f else f.

(** The file system when the renderer has written [newst.com] (state 2
    only) and cleared the two half-set job files. *)
Definition prepared (d name : string) (status : Z) (f : filesystem)
  : filesystem :=
  cleared (joinpath d "tilt_odds.com")
    (cleared (joinpath d "tilt_evens.com")
       (if Z.eqb status 2
        then store (joinpath d "newst.com") (TextFile (newst_text name)) f
        else f)).

(** The three job files of a dataset. *)
Definition job_file (d q : path) : bool :=
  String.eqb q (joinpath d "newst.com") ||
  String.eqb q (joinpath d "tilt_evens.com") ||
  String.eqb q (joinpath d "tilt_odds.com").

(** Texts joined end to end. *)
Fixpoint cat (l : list string) : string :=
  match l with
  | [] => EmptyString
  | x :: rest => x ++ cat rest
  end.

(** The world after the loop over the template's lines. *)
Fixpoint after_lines (d name : string) (ls : list string) (w : World) : World :=
  match ls with
  | [] => w
  | line :: rest =>
      let e := fst (rewrite_line name line) in
      let o := snd (rewrite_line name line) in
      let f1 := store (joinpath d "tilt_evens.com")
                  (TextFile (text_at (joinpath d "tilt_evens.com") (fs w) ++ e))
                  (fs w) in
      let f2 := store (joinpath d "tilt_odds.com")
                  (TextFile (text_at (joinpath d "tilt_odds.com") f1 ++ o)) f1 in
      after_lines d name rest
        (mkWorld f2 (stdout_of w)
           (trace w ++ [Wrote (joinpath d "tilt_evens.com") e;
                        Wrote (joinpath d "tilt_odds.com") o])%list)
  end.

(** The messages logged at ERROR level, oldest first. *)
Fixpoint errors (t : list event) : list string :=
  match t with
  | [] => []
  | Log ERROR msg :: rest => msg :: errors rest
  | _ :: rest => errors rest
  end.

(** What one run of the renderer on world [w] leaves in world [w']:
    only the three job files changed, [newst.com] was written in state
    2 only, the two half-set job files hold the given texts, no command
    was run, nothing was logged as an error, and the files were written in the order [newst.com] (if at
    all), then the half-set job files. *)
Record rendering (d name : string) (status : Z) (w w' : World)
    (evens_text odds_text : string) : Prop := {
  r_stdout : stdout_of w' = stdout_of w;
  r_other : forall q, job_file d q = false ->
                      lookup q (fs w') = lookup q (fs w);
  r_listing : forall P, (forall q, job_file d q = true -> P q = false) ->
                        listing P (fs w') = listing P (fs w);
  r_newst : lookup (joinpath d "newst.com") (fs w') =
            if Z.eqb status 2 then Some (TextFile (newst_text name))
            else lookup (joinpath d "newst.com") (fs w);
  r_evens : lookup (joinpath d "tilt_evens.com") (fs w') =
            Some (TextFile evens_text);
  r_odds : lookup (joinpath d "tilt_odds.com") (fs w') =
           Some (TextFile odds_text);
  r_events : exists evs tail,
      trace w' = (trace w ++ evs)%list /\
      commands evs = [] /\
      errors evs = [] /\
      writes evs =
      ((if Z.eqb status 2 then [joinpath d "newst.com"] else []) ++ tail)%list /\
      Forall (fun p => p = joinpath d "tilt_evens.com" \/
                       p = joinpath d "tilt_odds.com") tail /\
      In (joinpath d "tilt_evens.com") tail /\
      In (joinpath d "tilt_odds.com") tail
}.

(** The renderer can produce the half-set job files: [tilt.com] is a
    text file to transform, or it is missing and the reconstructed
    volume has a non-zero X size to divide by. *)
Definition tilt_source_ok (d : path) (f : filesystem) (rx : Z) : Prop :=
  match lookup (joinpath d "tilt.com") f with
  | Some (TextFile _) => True
  | Some _ => False
  | None => rx <> 0%Z
  end.

(** The substitution keys of the loop over an existing [tilt.com]. *)
Definition substitution_keys : list string :=
  ["InputProjections"; "OutputFile"; "IMAGEBINNED"; "TILTFILE"; "XTILTFILE";
   "useGPU"].

Definition matches_key (line : string) : bool :=
  existsb (fun k => Py.contains k line) substitution_keys.

(** ** Example worlds *)

Definition example_template : string :=
  "$tilt -StandardInput" ++ Py.NL ++
  "InputProjections old_ali.mrc" ++ Py.NL ++
  "OutputFile old_full_rec.mrc" ++ Py.NL ++
  "IMAGEBINNED 4" ++ Py.NL ++
  "TILTFILE old.tlt" ++ Py.NL ++
  "THICKNESS 1200" ++ Py.NL ++
  "$if (-e ./savework) ./savework" ++ Py.NL.

(** [/data] holds a dataset that needs realignment and has no
    [tilt.com], and one that is ready for direct reconstruction and has
    one; [/bad] holds a dataset without metadata followed by a complete
    one. *)
Definition example_fs : filesystem :=
  [("/data", Directory);
   ("/data/ds1", Directory);
   ("/data/ds1/a_rec.mrc", Volume 1024 1024 512);
   ("/data/ds1/a.mrc", Volume 4096 4096 10);
   ("/data/ds1/a.xf", TextFile "");
   ("/data/ds1/a.tlt", TextFile "");
   ("/data/ds1/a.xtilt", TextFile "");
   ("/data/ds1/a.mrc.mdoc", TextFile "");
   ("/data/ds2", Directory);
   ("/data/ds2/b_rec.mrc", Volume 960 928 300);
   ("/data/ds2/b.mrc", Volume 5760 4092 41);
   ("/data/ds2/b_ali.mrc", Volume 960 928 41);
   ("/data/ds2/b.tlt", TextFile "");
   ("/data/ds2/b.xtilt", TextFile "");
   ("/data/ds2/b.mrc.mdoc", TextFile "");
   ("/data/ds2/tilt.com", TextFile example_template);
   ("/bad", Directory);
   ("/bad/ds3", Directory);
   ("/bad/ds3/c_rec.mrc", Volume 960 928 300);
   ("/bad/ds4", Directory);
   ("/bad/ds4/e_rec.mrc", Volume 960 928 300);
   ("/bad/ds4/e.mrc", Volume 5760 4092 41);
   ("/bad/ds4/e_ali.mrc", Volume 960 928 41);
   ("/bad/ds4/e.tlt", TextFile "");
   ("/bad/ds4/e.xtilt", TextFile "");
   ("/bad/ds4/e.mrc.mdoc", TextFile "")].

(** Every command succeeds, except the odd-tilt reconstruction of
    [ds1], which reports an error. *)
Definition example_stdout (cwd : path) (cmd : string) : string :=
  if String.eqb cwd "/data/ds1" && String.eqb cmd "subm tilt_odds.com"
  then "ERROR: tilt - reconstruction failed"
  else "COM FILE finished successfully".

Definition example_world : World := mkWorld example_fs example_stdout [].

(** ** External steps *)

(** The success marker is in the captured output. *)
Definition succeeded (out : string) : bool :=
  Py.contains "finished successfully" out.

(** The events of the block that judges a captured output. *)
Definition outcome_events (out ok_msg err_msg : string) : list event :=
  if succeeded out then [Log INFO ok_msg]
  else if Py.contains "ERROR" out then [Log ERROR err_msg]
  else [].

(** The events of one external call: announcement, command, verdict. *)
Definition call_events (cwd : path) (begin_msg cmd out ok_msg err_msg : string)
  : list event :=
  ([Log INFO begin_msg; Ran cwd cmd] ++ outcome_events out ok_msg err_msg)%list.

(** How many ERROR records a step leaves for one captured output:
    one when the output lacks the success marker and contains "ERROR". *)
Definition error_records (out : string) : nat :=
  if negb (succeeded out) && Py.contains "ERROR" out then 1 else 0.

Definition trimvol_evens_cmd (name : string) : string :=
  "trimvol -rx " ++ (name ++ "_full_rec_evens.mrc") ++ " " ++ (name ++ "_rec_evens.mrc").
Definition trimvol_odds_cmd (name : string) : string :=
  "trimvol -rx " ++ (name ++ "_full_rec_odds.mrc") ++ " " ++ (name ++ "_rec_odds.mrc").

(** ** The driver (section 4.4) *)

(** The commands the driver runs for one dataset whose state is
    [prog]: the alignment in state 2 only, then the two
    reconstructions, then the two rotations; a step that fails ends the
    list.  [ok cmd] tells whether the output of [cmd] carries the
    success marker. *)
Definition pipeline (name : string) (prog : Z) (ok : string -> bool)
  : list string :=
  let align := if Z.eqb prog 2 then ["subm newst.com"] else [] in
  let reconstruct := ["subm tilt_evens.com"; "subm tilt_odds.com"] in
  let rotate := [trimvol_evens_cmd name; trimvol_odds_cmd name] in
  if negb (forallb ok align) then align
  else if negb (forallb ok reconstruct) then (align ++ reconstruct)%list
  else (align ++ reconstruct ++ rotate)%list.

(** The error the driver logs for the step that failed, if any; the
    text follows the dataset's name. *)
Definition failure_message (name : string) (prog : Z) (ok : string -> bool)
  : option string :=
  if Z.eqb prog 2 && negb (ok "subm newst.com") then
    Some " -- Error in newstack. Terminating this dataset..."
  else if negb (ok "subm tilt_evens.com" && ok "subm tilt_odds.com") then
    Some " -- Error in tilt. Terminating this dataset..."
  else if negb (ok (trimvol_evens_cmd name) && ok (trimvol_odds_cmd name)) then
    Some " -- error in trimvol. Terminating this dataset..."
  else None.

(** The datasets of a batch directory, as [get_datasets] lists them. *)
Definition datasets_of (p : path) (f : filesystem) : list path :=
  filter (fun x => is_dir x f && Py.truthy (glob x EXT f)) (iterdir p f).

(** ** Example: a batch ready for the archival sync *)

(** Three datasets with a [halfsets] directory each; the archive knows
    only the third. *)
Definition sync_fs : filesystem :=
  [("/data/batch", Directory);
   ("/data/batch/ds1", Directory);
   ("/data/batch/ds1/halfsets", Directory);
   ("/data/batch/ds2", Directory);
   ("/data/batch/ds2/halfsets", Directory);
   ("/data/batch/ds3", Directory);
   ("/data/batch/ds3/halfsets", Directory);
   (DB_DIR ++ "/ds3", Directory)].

Definition sync_world : World := mkWorld sync_fs (fun _ _ => "") [].

(** The warnings logged so far, oldest first. *)
Fixpoint warnings (t : list event) : list string :=
  match t with
  | [] => []
  | Log WARNING msg :: rest => msg :: warnings rest
  | _ :: rest => warnings rest
  end.

(** ** Example: sampling *)

(** A sampler that meets the contract of [random.sample]: the first
    [k] positions. *)
Definition first_k (N k : nat) : result (list nat) :=
  if Nat.leb k N then Ok (seq 0 k) else Raise ValueError.

Definition six_pairs : list (path * path) :=
  [("/d/t1_rec_evens.mrc", "/d/t1_rec_odds.mrc");
   ("/d/t2_rec_evens.mrc", "/d/t2_rec_odds.mrc");
   ("/d/t3_rec_evens.mrc", "/d/t3_rec_odds.mrc");
   ("/d/t4_rec_evens.mrc", "/d/t4_rec_odds.mrc");
   ("/d/t5_rec_evens.mrc", "/d/t5_rec_odds.mrc");
   ("/d/t6_rec_evens.mrc", "/d/t6_rec_odds.mrc")].

(** ** Further examples *)

(** A batch whose second dataset holds a reconstructed volume, but
    only one with "full" in its name. *)
Definition full_only_fs : filesystem :=
  [("/run", Directory);
   ("/run/ds1", Directory);
   ("/run/ds1/a_rec.mrc", Volume 960 928 300);
   ("/run/ds1/a.mrc", Volume 5760 4092 41);
   ("/run/ds1/a_ali.mrc", Volume 960 928 41);
   ("/run/ds1/a.tlt", TextFile "");
   ("/run/ds1/a.xtilt", TextFile "");
   ("/run/ds1/a.mrc.mdoc", TextFile "");
   ("/run/ds2", Directory);
   ("/run/ds2/b_full_rec.mrc", Volume 960 928 300);
   ("/run/ds3", Directory);
   ("/run/ds3/c_rec.mrc", Volume 960 928 300);
   ("/run/ds3/c.mrc", Volume 5760 4092 41);
   ("/run/ds3/c.xf", TextFile "");
   ("/run/ds3/c.tlt", TextFile "");
   ("/run/ds3/c.xtilt", TextFile "");
   ("/run/ds3/tilt_evens.com", TextFile "stale");
   ("/run/ds4", Directory);
   ("/run/ds4/e_rec.mrc", Volume 960 928 300);
   ("/run/ds4/e.xf", TextFile "");
   ("/run/ds4/e.tlt", TextFile "");
   ("/run/ds4/e.xtilt", TextFile "");
   ("/run/ds4/e.mrc.mdoc", TextFile "");
   ("/run/ds4/tilt_evens.com", TextFile "stale");
   ("/run/ds4/tilt_odds.com", TextFile "stale")].

Definition full_only_world : World :=
  mkWorld full_only_fs (fun _ _ => "COM FILE finished successfully") [].

(** The texts the renderer gives the two half-set job files of a
    dataset: the transformed template when [tilt.com] is a text file,
    the synthesized job file otherwise. *)
Definition evens_text (d name : string) (f : filesystem) (fx fy fz rx rz : Z)
  : string :=
  match lookup (joinpath d "tilt.com") f with
  | Some (TextFile tpl) =>
      cat (map (fun l => fst (rewrite_line name l)) (Py.lines tpl))
      ++ include_line 0 fz
  | _ => fresh_tilt_text name "evens" (fx / rx * rz) fx fy (include_line 0 fz)
  end.

Definition odds_text (d name : string) (f : filesystem) (fx fy fz rx rz : Z)
  : string :=
  match lookup (joinpath d "tilt.com") f with
  | Some (TextFile tpl) =>
      cat (map (fun l => snd (rewrite_line name l)) (Py.lines tpl))
      ++ include_line 1 fz
  | _ => fresh_tilt_text name "odds" (fx / rx * rz) fx fy (include_line 1 fz)
  end.




(** ** Example: a batch after reconstruction *)

(** Two datasets with both half-set volumes, and one, in between, whose
    odd half failed. *)
Definition halves_fs : filesystem :=
  [("/out", Directory);
   ("/out/ds1", Directory);
   ("/out/ds1/a_rec.mrc", Volume 960 928 300);
   ("/out/ds1/a_rec_evens.mrc", Volume 960 928 301);
   ("/out/ds1/a_rec_odds.mrc", Volume 960 928 302);
   ("/out/ds1/a_full_rec_evens.mrc", Volume 960 300 928);
   ("/out/ds2", Directory);
   ("/out/ds2/b_rec_evens.mrc", Volume 960 928 303);
   ("/out/ds2/b_rec_odds.mrc", Volume 960 928 304)].

Definition halves_world : World := mkWorld halves_fs (fun _ _ => "") [].

Definition lone_even_fs : filesystem :=
  [("/out", Directory);
   ("/out/ds1", Directory);
   ("/out/ds1/a_rec_evens.mrc", Volume 960 928 301);
   ("/out/ds2", Directory);
   ("/out/ds2/b_rec_evens.mrc", Volume 960 928 303);
   ("/out/ds2/b_rec_odds.mrc", Volume 960 928 304)].

Definition lone_even_world : World := mkWorld lone_even_fs (fun _ _ => "") [].

(** The moves [subtransfer] makes for the listed even and odd files,
    as (source, target) in program order: the i-th odd file goes next
    to the i-th even file. *)
Fixpoint transfer_moves (evens odds : list path) : list (path * path) :=
  match evens, odds with
  | e :: es, o :: os =>
      let subdir := joinpath (parent_of e) "halfsets" in
      (e, joinpath subdir (name_of e))
        :: (o, joinpath subdir (name_of o))
        :: transfer_moves es os
  | _, _ => []
  end.

(** The directories it makes sure of. *)
Definition transfer_dirs (evens : list path) : list path :=
  map (fun e => joinpath (parent_of e) "halfsets") evens.

(** Every path a list of moves reads or writes. *)
Definition touched (moves : list (path * path)) : list path :=
  flat_map (fun m => [fst m; snd m]) moves.

(** The moves do not get in each other's way: there is an odd file for
    every even file, sources and targets are pairwise distinct, the
    sources exist, no target is a directory, and each [halfsets] path
    is free or a directory and is neither a source nor a target. *)
Record transferable (f : filesystem) (evens odds : list path) : Prop := {
  enough_odds : length evens <= length odds;
  moves_apart : NoDup (touched (transfer_moves evens odds));
  sources_exist : forall s t, In (s, t) (transfer_moves evens odds) ->
                              lookup s f <> None;
  targets_free : forall s t, In (s, t) (transfer_moves evens odds) ->
                             lookup t f <> Some Directory;
  dirs_apart : forall d, In d (transfer_dirs evens) ->
                         ~ In d (touched (transfer_moves evens odds));
  dirs_free : forall d, In d (transfer_dirs evens) ->
                        lookup d f = None \/ lookup d f = Some Directory
}.

(** ** A whole batch *)

(** The basename the steps find for a dataset, and the state the
    classifier gives it. *)
Definition name_in (d : path) (f : filesystem) : string :=
  match find_name d f with
  | Some name => name
  | None => EmptyString
  end.

Definition state_in (d : path) (f : filesystem) : Z :=
  let name := name_in d f in
  state_of (present d (name ++ ".xf") f) (present d (name ++ "_ali.mrc") f)
           (present d (name ++ ".tlt") f) (present d (name ++ ".xtilt") f).

(** A dataset the loop body can take to its end: the renderer finds
    what it reads, and the classifier's state is 1 or 2. *)
Definition ready (d : path) (f : filesystem) : Prop :=
  exists fx fy fz rx ry rz,
    renderable d f (name_in d f) fx fy fz rx ry rz /\
    tilt_source_ok d f rx /\
    state_in d f <> 0%Z.

(** [f'] differs from [f] in job files of the datasets [ds] at most. *)
Definition changed_only (ds : list path) (f f' : filesystem) : Prop :=
  (forall q, (forall d, In d ds -> job_file d q = false) ->
             lookup q f' = lookup q f) /\
  (forall P, (forall d q, In d ds -> job_file d q = true -> P q = false) ->
             listing P f' = listing P f).

(** Whether a path holds a text file. *)
Definition is_text (q : path) (f : filesystem) : bool :=
  match lookup q f with
  | Some (TextFile _) => true
  | _ => false
  end.

(** The commands of a batch: those of each dataset, in listing order,
    judged by the outputs of world [w]. *)
Definition dataset_commands (w : World) (d : path) : list (path * string) :=
  map (pair d)
      (pipeline (name_in d (fs w)) (state_in d (fs w))
                (fun cmd => succeeded (stdout_of w d cmd))).

Definition dataset_failure (w : World) (d : path) : option string :=
  failure_message (name_in d (fs w)) (state_in d (fs w))
                  (fun cmd => succeeded (stdout_of w d cmd)).


(** ** Running the monad *)

Lemma with_events_nil w : with_events w [] = w.
Proof. destruct w; unfold with_events; simpl. now rewrite app_nil_r. Qed.

Lemma with_events_app w t u :
  with_events (with_events w t) u = with_events w (t ++ u)%list.
Proof. unfold with_events; simpl. now rewrite app_assoc. Qed.

Lemma log_run lvl msg w : log lvl msg w = (Ok tt, with_events w [Log lvl msg]).
Proof. reflexivity. Qed.

Lemma basename_run d w name :
  find_name d (fs w) = Some name -> basename d w = (Ok name, w).
Proof. intros H. unfold basename, bind, get_fs. now rewrite H. Qed.

(** ** Metadata classification (section 4.1 of the specification) *)

Lemma check_metadata_run d w name :
  find_name d (fs w) = Some name ->
  exists msg,
    check_metadata d w =
    (Ok (state_of (present d (name ++ ".xf") (fs w))
                  (present d (name ++ "_ali.mrc") (fs w))
                  (present d (name ++ ".tlt") (fs w))
                  (present d (name ++ ".xtilt") (fs w))),
     with_events w [Log INFO msg]).
Proof.
  intros H. unfold check_metadata, bind. rewrite (basename_run _ _ _ H).
  unfold get_fs, state_of, present.
  destruct (Py.truthy (glob d (name ++ ".xf") (fs w)));
    destruct (Py.truthy (glob d (name ++ "_ali.mrc") (fs w)));
    destruct (Py.truthy (glob d (name ++ ".tlt") (fs w)));
    destruct (Py.truthy (glob d (name ++ ".xtilt") (fs w)));
    cbn [negb andb orb]; rewrite log_run; eexists; reflexivity.
Qed.


(** ** Inclusion lists (section 4.2) *)

Lemma in_frames (r : nat) (nz k : Z) :
  In k (frames r nz) <->
  exists i : nat, (Z.of_nat i < nz)%Z /\ i mod 2 = r /\ k = (Z.of_nat i + 1)%Z.
Proof.
  unfold frames. rewrite in_map_iff. split.
  - intros [i [Hk Hi]]. apply filter_In in Hi. destruct Hi as [Hs Hp].
    apply in_seq in Hs. apply Nat.eqb_eq in Hp.
    exists i. repeat split; [lia | exact Hp | now symmetry].
  - intros [i [Hlt [Hp Hk]]]. exists i. split; [now symmetry|].
    apply filter_In. split; [apply in_seq; lia | now apply Nat.eqb_eq].
Qed.

Lemma frames_ascending_from (r s n : nat) :
  StronglySorted Z.lt
    (map (fun i => Z.of_nat i + 1)%Z
         (filter (fun i => Nat.eqb (i mod 2) r) (seq s n))) /\
  Forall (fun k => Z.of_nat s < k)%Z
    (map (fun i => Z.of_nat i + 1)%Z
         (filter (fun i => Nat.eqb (i mod 2) r) (seq s n))).
Proof.
  revert s. induction n as [|n IH]; intros s; cbn [seq filter map].
  - split; constructor.
  - destruct (IH (S s)) as [Hs Hf].
    assert (Hf' : Forall (fun k => Z.of_nat s < k)%Z
              (map (fun i => Z.of_nat i + 1)%Z
                 (filter (fun i => Nat.eqb (i mod 2) r) (seq (S s) n)))).
    { eapply Forall_impl; [|exact Hf]. cbn beta. intros; lia. }
    destruct (Nat.eqb (s mod 2) r); cbn [map].
    + split.
      * constructor; [exact Hs|].
        eapply Forall_impl; [|exact Hf]. cbn beta. intros; lia.
      * constructor; [lia | exact Hf'].
    + split; assumption.
Qed.

Lemma frames_ascending (r : nat) (nz : Z) : StronglySorted Z.lt (frames r nz).
Proof. unfold frames. apply frames_ascending_from. Qed.

Lemma parity_cases (i : nat) : i mod 2 = 0 \/ i mod 2 = 1.
Proof. pose proof (Nat.mod_upper_bound i 2). lia. Qed.

Lemma even_of_nat (i : nat) : Z.even (Z.of_nat i) = true <-> i mod 2 = 0.
Proof.
  rewrite Z.even_spec. split.
  - intros [m Hm]. assert (i = 2 * Z.to_nat m) by lia. subst i.
    rewrite Nat.mul_comm. apply Nat.Div0.mod_mul.
  - intros Hm. exists (Z.of_nat (i / 2)).
    pose proof (Nat.div_mod_eq i 2). lia.
Qed.

Lemma frames_even_spec (nz k : Z) :
  In k (frames 0 nz) <->
  exists i, (0 <= i < nz)%Z /\ Z.even i = true /\ k = (i + 1)%Z.
Proof.
  rewrite in_frames. split.
  - intros [i [Hlt [Hp Hk]]]. exists (Z.of_nat i).
    repeat split; try lia. now apply even_of_nat.
  - intros [i [Hr [He Hk]]]. exists (Z.to_nat i).
    repeat split; try lia. apply even_of_nat. now rewrite Z2Nat.id by lia.
Qed.

Lemma frames_odd_spec (nz k : Z) :
  In k (frames 1 nz) <-> (1 <= k <= nz)%Z /\ ~ In k (frames 0 nz).
Proof.
  rewrite !in_frames. split.
  - intros [i [Hlt [Hp Hk]]]. split; [lia|].
    intros [j [_ [Hq Hj]]]. assert (i = j) by lia. subst j. congruence.
  - intros [Hr Hn]. exists (Z.to_nat (k - 1)).
    repeat split; try lia.
    destruct (parity_cases (Z.to_nat (k - 1))) as [E|E]; [|exact E].
    exfalso. apply Hn. exists (Z.to_nat (k - 1)).
    repeat split; first [lia | exact E].
Qed.

(** C6. For a stack of [nz] slices the even list holds exactly the
    numbers i+1 with i even and 0 <= i < nz, the odd list exactly the
    numbers of 1..nz that the even list leaves out, both in ascending
    order; each is rendered as ["INCLUDE "] followed by the numbers
    joined by commas, and for nz = 10 the two lines read
    [INCLUDE 1,3,5,7,9] and [INCLUDE 2,4,6,8,10]. *)
Theorem include_lists_even_odd :
  forall nz : Z,
    (forall k, In k (frames 0 nz) <->
               exists i, (0 <= i < nz)%Z /\ Z.even i = true /\ k = (i + 1)%Z) /\
    (forall k, In k (frames 1 nz) <->
               (1 <= k <= nz)%Z /\ ~ In k (frames 0 nz)) /\
    StronglySorted Z.lt (frames 0 nz) /\
    StronglySorted Z.lt (frames 1 nz) /\
    include_line 0 nz = "INCLUDE " ++ Py.join "," (map Py.str (frames 0 nz)) /\
    include_line 1 nz = "INCLUDE " ++ Py.join "," (map Py.str (frames 1 nz)) /\
    include_line 0 10 = "INCLUDE 1,3,5,7,9" /\
    include_line 1 10 = "INCLUDE 2,4,6,8,10".
Proof.
  intros nz.
  split; [intros k; apply frames_even_spec|].
  split; [intros k; apply frames_odd_spec|].
  split; [apply frames_ascending|].
  split; [apply frames_ascending|].
  repeat split.
Qed.

(** ** The file system *)

Lemma lookup_store_same p n f : lookup p (store p n f) = Some n.
Proof.
  induction f as [|[q m] f IH]; cbn.
  - now rewrite String.eqb_refl.
  - destruct (String.eqb q p) eqn:E; cbn; rewrite E; [reflexivity | exact IH].
Qed.

Lemma lookup_store_other p q n f :
  p <> q -> lookup q (store p n f) = lookup q f.
Proof.
  intros Hne. induction f as [|[r m] f IH]; cbn.
  - apply String.eqb_neq in Hne. now rewrite Hne.
  - destruct (String.eqb r p) eqn:E; cbn.
    + apply String.eqb_eq in E. subst r.
      apply String.eqb_neq in Hne. now rewrite Hne.
    + destruct (String.eqb r q); [reflexivity | exact IH].
Qed.

Lemma lookup_remove_same p f : lookup p (remove p f) = None.
Proof.
  induction f as [|[q m] f IH]; cbn; [reflexivity|].
  destruct (String.eqb q p) eqn:E; cbn; [exact IH | now rewrite E].
Qed.

Lemma lookup_remove_other p q f :
  p <> q -> lookup q (remove p f) = lookup q f.
Proof.
  intros Hne. induction f as [|[r m] f IH]; cbn; [reflexivity|].
  destruct (String.eqb r p) eqn:E; cbn.
  - apply String.eqb_eq in E. subst r.
    apply String.eqb_neq in Hne. now rewrite Hne.
  - destruct (String.eqb r q); [reflexivity | exact IH].
Qed.

Lemma listing_store P p n f :
  P p = false -> listing P (store p n f) = listing P f.
Proof.
  intros HP. unfold listing. induction f as [|[q m] f IH]; cbn.
  - now rewrite HP.
  - destruct (String.eqb q p) eqn:E; cbn.
    + destruct (P q); reflexivity.
    + destruct (P q); cbn; now rewrite IH.
Qed.

Lemma listing_remove P p f :
  P p = false -> listing P (remove p f) = listing P f.
Proof.
  intros HP. unfold listing. induction f as [|[q m] f IH]; cbn; [reflexivity|].
  destruct (String.eqb q p) eqn:E; cbn.
  - apply String.eqb_eq in E. subst q. now rewrite HP.
  - destruct (P q); cbn; now rewrite IH.
Qed.

Lemma glob_listing d pat f :
  glob d pat f = listing (fun q => match child_name d q with
                                   | Some n => Py.fnmatch pat n
                                   | None => false
                                   end) f.
Proof. reflexivity. Qed.

(** ** Paths *)

Lemma append_assoc (a b c : string) : (a ++ b) ++ c = a ++ (b ++ c).
Proof. induction a as [|x a IH]; cbn; [reflexivity | now rewrite IH]. Qed.

Lemma append_nil_r (a : string) : a ++ EmptyString = a.
Proof. induction a as [|x a IH]; cbn; [reflexivity | now rewrite IH]. Qed.

Lemma append_inj_l (a b c : string) : a ++ b = a ++ c -> b = c.
Proof.
  induction a as [|x a IH]; cbn; intros H; [exact H|].
  injection H as H. now apply IH.
Qed.

Lemma joinpath_inj d x y : joinpath d x = joinpath d y -> x = y.
Proof.
  unfold joinpath. intros H. apply append_inj_l in H. now injection H.
Qed.

Lemma last_char_app (a b : string) :
  b <> EmptyString -> last_char (a ++ b) = last_char b.
Proof.
  intros Hb. induction a as [|x a IH]; cbn; [reflexivity|].
  destruct (a ++ b) eqn:E.
  - destruct a; [cbn in E; contradiction | discriminate].
  - exact IH.
Qed.

Lemma strip_prefix_app (a b : string) : strip_prefix a (a ++ b) = Some b.
Proof.
  induction a as [|x a IH]; cbn; [reflexivity|].
  now rewrite Ascii.eqb_refl.
Qed.

Lemma child_name_joinpath d x :
  x <> EmptyString -> Py.contains "/" x = false ->
  child_name d (joinpath d x) = Some x.
Proof.
  intros Hx Hs. unfold child_name, below, joinpath.
  replace (d ++ "/" ++ x) with ((d ++ "/") ++ x)
    by apply append_assoc.
  rewrite strip_prefix_app. destruct x; [contradiction|]. now rewrite Hs.
Qed.

(** ** Stepping through monadic code *)

Lemma bind_ok {A B} (c : M A) (k : A -> M B) w a w' :
  c w = (Ok a, w') -> bind c k w = k a w'.
Proof. intros H. unfold bind. now rewrite H. Qed.

Lemma bind_raise {A B} (c : M A) (k : A -> M B) w e w' :
  c w = (Raise e, w') -> bind c k w = (Raise e, w').
Proof. intros H. unfold bind. now rewrite H. Qed.

Lemma ret_run {A} (a : A) w : ret a w = (Ok a, w).
Proof. reflexivity. Qed.

Lemma get_fs_run w : get_fs w = (Ok (fs w), w).
Proof. reflexivity. Qed.

Lemma emit_run e w :
  emit e w = (Ok tt, mkWorld (fs w) (stdout_of w) (trace w ++ [e])%list).
Proof. reflexivity. Qed.

Lemma write_text_run p t w :
  write_text p t w =
  (Ok tt, mkWorld (store p (TextFile t) (fs w)) (stdout_of w)
                  (trace w ++ [Wrote p t])%list).
Proof. reflexivity. Qed.

Lemma append_text_run p t w :
  append_text p t w =
  (Ok tt, mkWorld (store p (TextFile (text_at p (fs w) ++ t)) (fs w))
                  (stdout_of w) (trace w ++ [Wrote p t])%list).
Proof.
  unfold append_text, bind, get_fs, text_at.
  destruct (lookup p (fs w)) as [[| |]|]; reflexivity.
Qed.

Lemma unlink_run p w :
  unlink p w =
  (Ok tt, mkWorld (remove p (fs w)) (stdout_of w) (trace w ++ [Unlinked p])%list).
Proof. reflexivity. Qed.

Lemma mrc_header_run p w nx ny nz :
  lookup p (fs w) = Some (Volume nx ny nz) ->
  mrc_header p w = (Ok (nx, ny, nz), w).
Proof. intros H. unfold mrc_header, bind, get_fs. now rewrite H. Qed.

Lemma read_lines_run p w text :
  lookup p (fs w) = Some (TextFile text) ->
  read_lines p w = (Ok (Py.lines text), w).
Proof. intros H. unfold read_lines, bind, get_fs. now rewrite H. Qed.

Lemma run_captured_run cwd cmd w :
  run_captured cwd cmd w =
  (Ok (stdout_of w cwd cmd),
   mkWorld (fs w) (stdout_of w) (trace w ++ [Ran cwd cmd])%list).
Proof. reflexivity. Qed.

Lemma floordiv_run a b w : b <> 0%Z -> floordiv a b w = (Ok (a / b)%Z, w).
Proof.
  intros H. unfold floordiv. apply Z.eqb_neq in H. now rewrite H.
Qed.

(** One step of execution at the head of the goal. *)
Ltac run_step :=
  match goal with
  | |- context [bind get_fs ?k ?w] =>
      rewrite (bind_ok get_fs k w _ _ (get_fs_run w))
  | |- context [bind (ret ?a) ?k ?w] =>
      rewrite (bind_ok (ret a) k w _ _ (ret_run a w))
  | |- context [bind (log ?l ?m) ?k ?w] =>
      rewrite (bind_ok (log l m) k w _ _ (emit_run (Log l m) w))
  | |- context [bind (write_text ?p ?t) ?k ?w] =>
      rewrite (bind_ok (write_text p t) k w _ _ (write_text_run p t w))
  | |- context [bind (append_text ?p ?t) ?k ?w] =>
      rewrite (bind_ok (append_text p t) k w _ _ (append_text_run p t w))
  | |- context [bind (unlink ?p) ?k ?w] =>
      rewrite (bind_ok (unlink p) k w _ _ (unlink_run p w))
  | |- context [bind (run_captured ?c ?m) ?k ?w] =>
      rewrite (bind_ok (run_captured c m) k w _ _ (run_captured_run c m w))
  end; cbn [fs stdout_of trace].

(** ** The job-file renderer *)

Lemma lookup_cleared_same p f : lookup p (cleared p f) = None.
Proof.
  unfold cleared, path_exists.
  destruct (lookup p f) eqn:E; [apply lookup_remove_same | exact E].
Qed.

Lemma lookup_cleared_other p q f : p <> q -> lookup q (cleared p f) = lookup q f.
Proof.
  intros H. unfold cleared.
  destruct (path_exists p f); [now apply lookup_remove_other | reflexivity].
Qed.

Lemma listing_cleared P p f : P p = false -> listing P (cleared p f) = listing P f.
Proof.
  intros H. unfold cleared.
  destruct (path_exists p f); [now apply listing_remove | reflexivity].
Qed.

Lemma job_file_false d q :
  job_file d q = false ->
  joinpath d "newst.com" <> q /\ joinpath d "tilt_evens.com" <> q /\
  joinpath d "tilt_odds.com" <> q.
Proof.
  unfold job_file. intros H.
  apply orb_false_iff in H. destruct H as [H H3].
  apply orb_false_iff in H. destruct H as [H1 H2].
  apply String.eqb_neq in H1, H2, H3. repeat split; congruence.
Qed.

Lemma evens_odds_distinct d :
  joinpath d "tilt_evens.com" <> joinpath d "tilt_odds.com".
Proof. intros H. apply joinpath_inj in H. discriminate. Qed.

Lemma newst_evens_distinct d :
  joinpath d "newst.com" <> joinpath d "tilt_evens.com".
Proof. intros H. apply joinpath_inj in H. discriminate. Qed.

Lemma newst_odds_distinct d :
  joinpath d "newst.com" <> joinpath d "tilt_odds.com".
Proof. intros H. apply joinpath_inj in H. discriminate. Qed.

Lemma not_job_file_by_extension d x c :
  last_char x = Some c -> c <> "m"%char -> job_file d (joinpath d x) = false.
Proof.
  intros Hl Hc. unfold job_file.
  repeat (apply orb_false_iff; split); apply String.eqb_neq;
    intros H; apply joinpath_inj in H; subst x; cbn in Hl; congruence.
Qed.

Lemma last_char_suffix (name suffix : string) c :
  suffix <> EmptyString -> last_char suffix = Some c ->
  last_char (name ++ suffix) = Some c.
Proof. intros Hs Hl. now rewrite last_char_app. Qed.

Lemma raw_volume_not_job_file d name :
  job_file d (joinpath d (name ++ ".mrc")) = false.
Proof.
  apply (not_job_file_by_extension d _ "c"%char); [|discriminate].
  apply last_char_suffix; [discriminate | reflexivity].
Qed.

Lemma rec_volume_not_job_file d name :
  job_file d (joinpath d (name ++ "_rec.mrc")) = false.
Proof.
  apply (not_job_file_by_extension d _ "c"%char); [|discriminate].
  apply last_char_suffix; [discriminate | reflexivity].
Qed.

Lemma template_not_job_file d : job_file d (joinpath d "tilt.com") = false.
Proof.
  unfold job_file.
  repeat (apply orb_false_iff; split); apply String.eqb_neq;
    intros H; apply joinpath_inj in H; discriminate.
Qed.

Lemma lookup_prepared d name status f q :
  job_file d q = false -> lookup q (prepared d name status f) = lookup q f.
Proof.
  intros H. apply job_file_false in H. destruct H as [H1 [H2 H3]].
  unfold prepared. rewrite !lookup_cleared_other by assumption.
  destruct (Z.eqb status 2); [now apply lookup_store_other | reflexivity].
Qed.

Lemma lookup_prepared_evens d name status f :
  lookup (joinpath d "tilt_evens.com") (prepared d name status f) = None.
Proof.
  unfold prepared.
  rewrite lookup_cleared_other by (apply not_eq_sym, evens_odds_distinct).
  apply lookup_cleared_same.
Qed.

Lemma lookup_prepared_odds d name status f :
  lookup (joinpath d "tilt_odds.com") (prepared d name status f) = None.
Proof. unfold prepared. apply lookup_cleared_same. Qed.

Lemma lookup_prepared_newst d name status f :
  lookup (joinpath d "newst.com") (prepared d name status f) =
  if Z.eqb status 2 then Some (TextFile (newst_text name))
  else lookup (joinpath d "newst.com") f.
Proof.
  unfold prepared.
  rewrite !lookup_cleared_other
    by (apply not_eq_sym; first [apply newst_evens_distinct | apply newst_odds_distinct]).
  destruct (Z.eqb status 2); [apply lookup_store_same | reflexivity].
Qed.

Lemma listing_prepared P d name status f :
  (forall q, job_file d q = true -> P q = false) ->
  listing P (prepared d name status f) = listing P f.
Proof.
  intros HP.
  assert (Hn : P (joinpath d "newst.com") = false).
  { apply HP. unfold job_file. now rewrite String.eqb_refl. }
  assert (He : P (joinpath d "tilt_evens.com") = false).
  { apply HP. unfold job_file. rewrite (String.eqb_refl (joinpath d "tilt_evens.com")).
    now rewrite orb_true_r. }
  assert (Ho : P (joinpath d "tilt_odds.com") = false).
  { apply HP. unfold job_file. rewrite (String.eqb_refl (joinpath d "tilt_odds.com")).
    now rewrite orb_true_r. }
  unfold prepared. rewrite !listing_cleared by assumption.
  destruct (Z.eqb status 2); [now apply listing_store | reflexivity].
Qed.

Lemma bind_assoc {A B C} (c : M A) (k1 : A -> M B) (k2 : B -> M C) w :
  bind (bind c k1) k2 w = bind c (fun a => bind (k1 a) k2) w.
Proof. unfold bind. destruct (c w) as [[a|e] w']; reflexivity. Qed.

Lemma unlink_block_run {B} p (k : unit -> M B) w f :
  f = fs w ->
  bind (if path_exists p f then unlink p else ret tt) k w =
  k tt (mkWorld (cleared p f) (stdout_of w)
          (trace w ++ (if path_exists p f then [Unlinked p] else []))%list).
Proof.
  intros ->. unfold cleared. destruct (path_exists p (fs w)).
  - now rewrite (bind_ok _ _ _ _ _ (unlink_run p w)).
  - rewrite (bind_ok _ _ _ _ _ (ret_run tt w)). destruct w; cbn.
    now rewrite app_nil_r.
Qed.

Lemma newst_block_run {B} (s : bool) msg p t (k : unit -> M B) w :
  bind (if s then log INFO msg ;;; write_text p t else ret tt) k w =
  k tt (mkWorld (if s then store p (TextFile t) (fs w) else fs w) (stdout_of w)
          (trace w ++ (if s then [Log INFO msg; Wrote p t] else []))%list).
Proof.
  destruct s.
  - rewrite bind_assoc. repeat run_step. now rewrite <- app_assoc.
  - rewrite (bind_ok _ _ _ _ _ (ret_run tt w)). destruct w; cbn.
    now rewrite app_nil_r.
Qed.

(** The renderer up to the point where the headers have been read. *)
Ltac run_prefix Hn Hm Hraw Hrec :=
  unfold construct_coms;
  rewrite (bind_ok _ _ _ _ _ (basename_run _ _ _ Hn));
  run_step;
  match goal with
  | |- context [glob ?d ?pat (fs ?w)] =>
      destruct (glob d pat (fs w)) as [|?mdoc ?ms] eqn:?Eg; [contradiction|]
  end;
  repeat run_step;
  rewrite newst_block_run; cbn [fs stdout_of trace];
  repeat run_step;
  rewrite unlink_block_run by reflexivity; cbn [fs stdout_of trace];
  run_step;
  rewrite unlink_block_run by reflexivity; cbn [fs stdout_of trace];
  match goal with
  | |- context [cleared ?o (cleared ?e (if Z.eqb ?s 2 then store (joinpath ?d ?n) (TextFile (newst_text ?nm)) ?f else ?f))] =>
      change (cleared o (cleared e (if Z.eqb s 2 then store (joinpath d n) (TextFile (newst_text nm)) f else f)))
        with (prepared d nm s f)
  end.

Ltac header_step nx ny nz Hnot H :=
  match goal with
  | |- context [bind (mrc_header ?p) ?k ?w] =>
      rewrite (bind_ok (mrc_header p) k w (nx, ny, nz) w)
        by (apply mrc_header_run; cbn [fs];
            rewrite lookup_prepared by apply Hnot; exact H)
  end.

Lemma path_exists_prepared d name status f q :
  job_file d q = false ->
  path_exists q (prepared d name status f) = path_exists q f.
Proof. intros H. unfold path_exists. now rewrite lookup_prepared. Qed.

Lemma construct_coms_fresh d status w name fx fy fz rx ry rz :
  renderable d (fs w) name fx fy fz rx ry rz ->
  lookup (joinpath d "tilt.com") (fs w) = None -> rx <> 0%Z ->
  exists evs,
    construct_coms d status w =
    (Ok tt,
     mkWorld
       (store (joinpath d "tilt_odds.com")
          (TextFile (fresh_tilt_text name "odds" (fx / rx * rz) fx fy
                       (include_line 1 fz)))
          (store (joinpath d "tilt_evens.com")
             (TextFile (fresh_tilt_text name "evens" (fx / rx * rz) fx fy
                          (include_line 0 fz)))
             (prepared d name status (fs w))))
       (stdout_of w) (trace w ++ evs)%list) /\
    commands evs = [] /\
    errors evs = [] /\
    writes evs =
    ((if Z.eqb status 2 then [joinpath d "newst.com"] else []) ++
     [joinpath d "tilt_evens.com"; joinpath d "tilt_odds.com"])%list.
Proof.
  intros [Hn Hm Hraw Hrec] Htpl Hrx.
  run_prefix Hn Hm Hraw Hrec.
  header_step fx fy fz raw_volume_not_job_file Hraw.
  header_step rx ry rz rec_volume_not_job_file Hrec.
  cbv iota beta. run_step.
  rewrite path_exists_prepared by apply template_not_job_file.
  unfold path_exists at 1. rewrite Htpl.
  run_step.
  rewrite (bind_ok _ _ _ _ _ (floordiv_run fx rx _ Hrx)).
  run_step. rewrite write_text_run. cbn [fs stdout_of trace].
  eexists. split; [rewrite <- !app_assoc; reflexivity|].
  destruct (Z.eqb status 2);
    destruct (path_exists (joinpath d "tilt_evens.com") _);
    destruct (path_exists (joinpath d "tilt_odds.com") _);
    repeat split; reflexivity.
Qed.

Lemma commands_app t u : commands (t ++ u) = (commands t ++ commands u)%list.
Proof.
  induction t as [|e t IH]; cbn; [reflexivity|].
  destruct e; cbn; now rewrite IH.
Qed.

Lemma writes_app t u : writes (t ++ u) = (writes t ++ writes u)%list.
Proof.
  induction t as [|e t IH]; cbn; [reflexivity|].
  destruct e; cbn; now rewrite IH.
Qed.

Lemma job_file_cases d q :
  job_file d q = true ->
  q = joinpath d "newst.com" \/ q = joinpath d "tilt_evens.com" \/
  q = joinpath d "tilt_odds.com".
Proof.
  unfold job_file. intros H.
  apply orb_true_iff in H. destruct H as [H|H].
  - apply orb_true_iff in H. destruct H as [H|H]; apply String.eqb_eq in H; auto.
  - apply String.eqb_eq in H. auto.
Qed.

Lemma job_file_evens d : job_file d (joinpath d "tilt_evens.com") = true.
Proof.
  unfold job_file. rewrite (String.eqb_refl (joinpath d "tilt_evens.com")).
  now rewrite orb_true_r.
Qed.

Lemma job_file_odds d : job_file d (joinpath d "tilt_odds.com") = true.
Proof.
  unfold job_file. rewrite (String.eqb_refl (joinpath d "tilt_odds.com")).
  now rewrite orb_true_r.
Qed.

Lemma rendering_fresh d status w name fx fy fz rx ry rz :
  renderable d (fs w) name fx fy fz rx ry rz ->
  lookup (joinpath d "tilt.com") (fs w) = None -> rx <> 0%Z ->
  exists w',
    construct_coms d status w = (Ok tt, w') /\
    rendering d name status w w'
      (fresh_tilt_text name "evens" (fx / rx * rz) fx fy (include_line 0 fz))
      (fresh_tilt_text name "odds" (fx / rx * rz) fx fy (include_line 1 fz)).
Proof.
  intros Hr Htpl Hrx.
  destruct (construct_coms_fresh d status w name fx fy fz rx ry rz Hr Htpl Hrx)
    as [evs [E [Hc [He Hw]]]].
  eexists. split; [exact E|].
  constructor; cbn [fs stdout_of trace].
  - reflexivity.
  - intros q Hq. destruct (job_file_false d q Hq) as [H1 [H2 H3]].
    rewrite !lookup_store_other by assumption. now apply lookup_prepared.
  - intros P HP. rewrite !listing_store.
    + now apply listing_prepared.
    + apply HP, job_file_evens.
    + apply HP, job_file_odds.
  - rewrite !lookup_store_other
      by (apply not_eq_sym; first [apply newst_evens_distinct | apply newst_odds_distinct]).
    apply lookup_prepared_newst.
  - rewrite lookup_store_other by (apply not_eq_sym, evens_odds_distinct).
    apply lookup_store_same.
  - apply lookup_store_same.
  - exists evs, [joinpath d "tilt_evens.com"; joinpath d "tilt_odds.com"].
    split; [reflexivity|]. split; [exact Hc|]. split; [exact He|].
    split; [exact Hw|].
    split; [constructor; [now left | constructor; [now right | constructor]]|].
    cbn; auto.
Qed.

Lemma lines_loop_run d name ls w :
  for_each (fun line =>
              let '(e, o) := rewrite_line name line in
              append_text (joinpath d "tilt_evens.com") e ;;;
              append_text (joinpath d "tilt_odds.com") o) ls w =
  (Ok tt, after_lines d name ls w).
Proof.
  revert w. induction ls as [|line ls IH]; intros w; [reflexivity|].
  cbn [for_each after_lines].
  destruct (rewrite_line name line) as [e o]. cbn [fst snd].
  rewrite bind_assoc. repeat run_step. rewrite <- app_assoc. apply IH.
Qed.

Lemma text_at_store_same p t f : text_at p (store p (TextFile t) f) = t.
Proof. unfold text_at. now rewrite lookup_store_same. Qed.

Lemma text_at_store_other p q n f : p <> q -> text_at q (store p n f) = text_at q f.
Proof. intros H. unfold text_at. now rewrite lookup_store_other. Qed.

Lemma after_lines_facts d name ls :
  forall w,
    stdout_of (after_lines d name ls w) = stdout_of w /\
    (forall q, joinpath d "tilt_evens.com" <> q -> joinpath d "tilt_odds.com" <> q ->
               lookup q (fs (after_lines d name ls w)) = lookup q (fs w)) /\
    (forall P, P (joinpath d "tilt_evens.com") = false ->
               P (joinpath d "tilt_odds.com") = false ->
               listing P (fs (after_lines d name ls w)) = listing P (fs w)) /\
    text_at (joinpath d "tilt_evens.com") (fs (after_lines d name ls w)) =
      text_at (joinpath d "tilt_evens.com") (fs w)
      ++ cat (map (fun l => fst (rewrite_line name l)) ls) /\
    text_at (joinpath d "tilt_odds.com") (fs (after_lines d name ls w)) =
      text_at (joinpath d "tilt_odds.com") (fs w)
      ++ cat (map (fun l => snd (rewrite_line name l)) ls) /\
    trace (after_lines d name ls w) =
      (trace w
       ++ flat_map (fun l => [Wrote (joinpath d "tilt_evens.com")
                                (fst (rewrite_line name l));
                              Wrote (joinpath d "tilt_odds.com")
                                (snd (rewrite_line name l))]) ls)%list.
Proof.
  induction ls as [|line ls IH]; intros w; cbn [after_lines map cat flat_map].
  - rewrite !append_nil_r, app_nil_r. repeat split; reflexivity.
  - match goal with |- context [after_lines d name ls ?w1] =>
      destruct (IH w1) as [Hs [Hl [Hp [He [Ho Ht]]]]]
    end.
    cbn [fs stdout_of trace] in *.
    pose proof (evens_odds_distinct d) as Hd.
    split; [exact Hs|].
    split.
    { intros q H1 H2. rewrite Hl by assumption.
      now rewrite !lookup_store_other by assumption. }
    split.
    { intros P H1 H2. rewrite Hp by assumption.
      now rewrite !listing_store by assumption. }
    split.
    { rewrite He.
      rewrite text_at_store_other by (now apply not_eq_sym).
      rewrite text_at_store_same. apply append_assoc. }
    split.
    { rewrite Ho. rewrite text_at_store_same.
      rewrite text_at_store_other by assumption. apply append_assoc. }
    rewrite Ht. now rewrite <- app_assoc.
Qed.

Lemma writes_lines_loop d name ls :
  writes (flat_map (fun l => [Wrote (joinpath d "tilt_evens.com")
                                (fst (rewrite_line name l));
                              Wrote (joinpath d "tilt_odds.com")
                                (snd (rewrite_line name l))]) ls) =
  flat_map (fun _ => [joinpath d "tilt_evens.com"; joinpath d "tilt_odds.com"]) ls.
Proof. induction ls as [|l ls IH]; cbn; [reflexivity | now rewrite IH]. Qed.

Lemma commands_lines_loop d name ls :
  commands (flat_map (fun l => [Wrote (joinpath d "tilt_evens.com")
                                  (fst (rewrite_line name l));
                                Wrote (joinpath d "tilt_odds.com")
                                  (snd (rewrite_line name l))]) ls) = [].
Proof. induction ls as [|l ls IH]; cbn; [reflexivity | exact IH]. Qed.

Lemma errors_app t u : errors (t ++ u) = (errors t ++ errors u)%list.
Proof.
  induction t as [|e t IH]; cbn; [reflexivity|].
  destruct e as [[| |] msg| | |]; cbn; now rewrite IH.
Qed.

Lemma errors_lines_loop d name ls :
  errors (flat_map (fun l => [Wrote (joinpath d "tilt_evens.com")
                                (fst (rewrite_line name l));
                              Wrote (joinpath d "tilt_odds.com")
                                (snd (rewrite_line name l))]) ls) = [].
Proof. induction ls as [|l ls IH]; cbn; [reflexivity | exact IH]. Qed.

Lemma Forall_alternating {A} (ls : list A) (a b : path) :
  Forall (fun p => p = a \/ p = b) (flat_map (fun _ => [a; b]) ls).
Proof.
  induction ls as [|l ls IH]; cbn; [constructor|].
  constructor; [now left|]. constructor; [now right | exact IH].
Qed.

Lemma text_at_none p f : lookup p f = None -> text_at p f = EmptyString.
Proof. intros H. unfold text_at. now rewrite H. Qed.

Lemma rendering_template d status w name fx fy fz rx ry rz tpl :
  renderable d (fs w) name fx fy fz rx ry rz ->
  lookup (joinpath d "tilt.com") (fs w) = Some (TextFile tpl) ->
  exists w',
    construct_coms d status w = (Ok tt, w') /\
    rendering d name status w w'
      (cat (map (fun l => fst (rewrite_line name l)) (Py.lines tpl))
       ++ include_line 0 fz)
      (cat (map (fun l => snd (rewrite_line name l)) (Py.lines tpl))
       ++ include_line 1 fz).
Proof.
  intros [Hn Hm Hraw Hrec] Htpl.
  run_prefix Hn Hm Hraw Hrec.
  header_step fx fy fz raw_volume_not_job_file Hraw.
  header_step rx ry rz rec_volume_not_job_file Hrec.
  cbv iota beta. run_step.
  rewrite path_exists_prepared by apply template_not_job_file.
  unfold path_exists at 1. rewrite Htpl.
  run_step.
  match goal with
  | |- context [bind (read_lines ?p) ?k ?w0] =>
      rewrite (bind_ok (read_lines p) k w0 (Py.lines tpl) w0)
        by (apply read_lines_run; cbn [fs];
            rewrite lookup_prepared by apply template_not_job_file; exact Htpl)
  end.
  rewrite (bind_ok _ _ _ _ _ (lines_loop_run d name (Py.lines tpl) _)).
  run_step. rewrite append_text_run. cbn [fs stdout_of trace].
  match goal with
  | |- context [after_lines d name (Py.lines tpl) ?w0] =>
      destruct (after_lines_facts d name (Py.lines tpl) w0)
        as [Hs [Hl [Hp [He [Ho Ht]]]]];
      set (A := after_lines d name (Py.lines tpl) w0) in *
  end.
  cbn [fs stdout_of trace] in Hs, Hl, Hp, He, Ho, Ht.
  pose proof (evens_odds_distinct d) as Hd.
  eexists. split; [reflexivity|].
  constructor; cbn [fs stdout_of trace].
  - exact Hs.
  - intros q Hq. destruct (job_file_false d q Hq) as [H1 [H2 H3]].
    rewrite !lookup_store_other by assumption.
    rewrite Hl by assumption. now apply lookup_prepared.
  - intros P HP.
    pose proof (HP _ (job_file_evens d)) as Pe.
    pose proof (HP _ (job_file_odds d)) as Po.
    rewrite !listing_store by assumption.
    rewrite Hp by assumption. now apply listing_prepared.
  - rewrite !lookup_store_other
      by (apply not_eq_sym; first [apply newst_evens_distinct | apply newst_odds_distinct]).
    rewrite Hl
      by (apply not_eq_sym; first [apply newst_evens_distinct | apply newst_odds_distinct]).
    apply lookup_prepared_newst.
  - rewrite lookup_store_other by (now apply not_eq_sym).
    rewrite lookup_store_same, He.
    now rewrite (text_at_none _ _ (lookup_prepared_evens d name status (fs w))).
  - rewrite lookup_store_same.
    rewrite text_at_store_other by assumption. rewrite Ho.
    now rewrite (text_at_none _ _ (lookup_prepared_odds d name status (fs w))).
  - eexists.
    exists (flat_map (fun _ => [joinpath d "tilt_evens.com"; joinpath d "tilt_odds.com"])
              (Py.lines tpl)
            ++ [joinpath d "tilt_evens.com"; joinpath d "tilt_odds.com"])%list.
    split; [rewrite Ht; rewrite <- !app_assoc; reflexivity|].
    split.
    { rewrite !commands_app. rewrite commands_lines_loop.
      destruct (Z.eqb status 2);
        destruct (path_exists (joinpath d "tilt_evens.com") _);
        destruct (path_exists (joinpath d "tilt_odds.com") _);
        reflexivity. }
    split.
    { rewrite !errors_app. rewrite errors_lines_loop.
      destruct (Z.eqb status 2);
        destruct (path_exists (joinpath d "tilt_evens.com") _);
        destruct (path_exists (joinpath d "tilt_odds.com") _);
        reflexivity. }
    split.
    { rewrite !writes_app. rewrite writes_lines_loop.
      destruct (Z.eqb status 2);
        destruct (path_exists (joinpath d "tilt_evens.com") _);
        destruct (path_exists (joinpath d "tilt_odds.com") _);
        reflexivity. }
    split; [|split; apply in_or_app; right; cbn; auto].
    apply Forall_app. split.
    + apply Forall_alternating.
    + constructor; [now left | constructor; [now right | constructor]].
Qed.

Lemma rendering_exists d status w name fx fy fz rx ry rz :
  renderable d (fs w) name fx fy fz rx ry rz ->
  tilt_source_ok d (fs w) rx ->
  exists w' evens_text odds_text,
    construct_coms d status w = (Ok tt, w') /\
    rendering d name status w w' evens_text odds_text.
Proof.
  intros Hr Hs. unfold tilt_source_ok in Hs.
  destruct (lookup (joinpath d "tilt.com") (fs w)) as [[|tpl|]|] eqn:E;
    try contradiction.
  - destruct (rendering_template d status w name fx fy fz rx ry rz tpl Hr E)
      as [w' [Hc Hw]]. eauto.
  - destruct (rendering_fresh d status w name fx fy fz rx ry rz Hr E Hs)
      as [w' [Hc Hw]]. eauto.
Qed.






(** ** Transforming an existing job file *)

Lemma cat_lines (s : string) : cat (Py.lines s) = s.
Proof.
  induction s as [|c s IH]; cbn [Py.lines]; [reflexivity|].
  destruct (Ascii.eqb c Py.newline).
  - cbn. now rewrite IH.
  - destruct (Py.lines s) as [|l ls]; cbn in *; now rewrite <- IH.
Qed.

Lemma rewrite_line_verbatim name line :
  matches_key line = false -> rewrite_line name line = (line, line).
Proof.
  unfold matches_key, substitution_keys. cbn [existsb]. intros H.
  repeat (apply orb_false_iff in H; destruct H as [?H H]).
  unfold rewrite_line.
  repeat match goal with
         | E : Py.contains _ line = false |- _ => rewrite E; clear E
         end.
  reflexivity.
Qed.

Lemma map_ext_Forall {A B} (f g : A -> B) l :
  Forall (fun x => f x = g x) l -> map f l = map g l.
Proof. induction 1; cbn; congruence. Qed.

(** C8. When [tilt.com] exists, each half-set job file is the
    concatenation of what the loop makes of the template's lines, one
    piece per line and in order, followed by that half's INCLUDE list and
    nothing else.  A line that contains none of the substitution keys is
    carried over verbatim into both files, so a line that comes out
    changed contains a key; a template without any key is reproduced
    whole. *)
Theorem template_lines_preserved :
  forall (d : path) (status : Z) (w : World) (name : string)
         (fx fy fz rx ry rz : Z) (tpl : string),
    renderable d (fs w) name fx fy fz rx ry rz ->
    lookup (joinpath d "tilt.com") (fs w) = Some (TextFile tpl) ->
    exists w' : World,
      construct_coms d status w = (Ok tt, w') /\
      cat (Py.lines tpl) = tpl /\
      lookup (joinpath d "tilt_evens.com") (fs w') =
        Some (TextFile (cat (map (fun l => fst (rewrite_line name l)) (Py.lines tpl))
                        ++ include_line 0 fz)) /\
      lookup (joinpath d "tilt_odds.com") (fs w') =
        Some (TextFile (cat (map (fun l => snd (rewrite_line name l)) (Py.lines tpl))
                        ++ include_line 1 fz)) /\
      (forall line, matches_key line = false ->
                    rewrite_line name line = (line, line)) /\
      (forall line, rewrite_line name line <> (line, line) ->
                    matches_key line = true) /\
      (Forall (fun line => matches_key line = false) (Py.lines tpl) ->
       lookup (joinpath d "tilt_evens.com") (fs w') =
         Some (TextFile (tpl ++ include_line 0 fz)) /\
       lookup (joinpath d "tilt_odds.com") (fs w') =
         Some (TextFile (tpl ++ include_line 1 fz))).
Proof.
  intros d status w name fx fy fz rx ry rz tpl Hr Htpl.
  destruct (rendering_template d status w name fx fy fz rx ry rz tpl Hr Htpl)
    as [w' [Hc R]].
  exists w'.
  split; [exact Hc|]. split; [apply cat_lines|].
  split; [apply (r_evens _ _ _ _ _ _ _ R)|].
  split; [apply (r_odds _ _ _ _ _ _ _ R)|].
  split; [intros line; apply rewrite_line_verbatim|].
  split.
  { intros line Hne. destruct (matches_key line) eqn:E; [reflexivity|].
    exfalso. apply Hne. now apply rewrite_line_verbatim. }
  intros Hall.
  rewrite (r_evens _ _ _ _ _ _ _ R), (r_odds _ _ _ _ _ _ _ R).
  assert (He : map (fun l => fst (rewrite_line name l)) (Py.lines tpl)
               = map (fun l => l) (Py.lines tpl)).
  { apply map_ext_Forall. eapply Forall_impl; [|exact Hall].
    cbn beta. intros l Hl. now rewrite rewrite_line_verbatim. }
  assert (Ho : map (fun l => snd (rewrite_line name l)) (Py.lines tpl)
               = map (fun l => l) (Py.lines tpl)).
  { apply map_ext_Forall. eapply Forall_impl; [|exact Hall].
    cbn beta. intros l Hl. now rewrite rewrite_line_verbatim. }
  rewrite He, Ho, map_id, cat_lines. split; reflexivity.
Qed.

Lemma template_lines_preserved_witness :
  exists w' : World,
    construct_coms "/data/ds2" 1 example_world = (Ok tt, w') /\
    cat (Py.lines example_template) = example_template /\
    lookup (joinpath "/data/ds2" "tilt_evens.com") (fs w') =
      Some (TextFile (cat (map (fun l => fst (rewrite_line "b" l))
                             (Py.lines example_template))
                      ++ include_line 0 41)) /\
    lookup (joinpath "/data/ds2" "tilt_odds.com") (fs w') =
      Some (TextFile (cat (map (fun l => snd (rewrite_line "b" l))
                             (Py.lines example_template))
                      ++ include_line 1 41)) /\
    (forall line, matches_key line = false ->
                  rewrite_line "b" line = (line, line)) /\
    (forall line, rewrite_line "b" line <> (line, line) ->
                  matches_key line = true) /\
    (Forall (fun line => matches_key line = false) (Py.lines example_template) ->
     lookup (joinpath "/data/ds2" "tilt_evens.com") (fs w') =
       Some (TextFile (example_template ++ include_line 0 41)) /\
     lookup (joinpath "/data/ds2" "tilt_odds.com") (fs w') =
       Some (TextFile (example_template ++ include_line 1 41))).
Proof.
  apply (template_lines_preserved "/data/ds2" 1 example_world "b"
           5760 4092 41 960 928 300 example_template).
  - constructor; vm_compute; [reflexivity | discriminate | reflexivity | reflexivity].
  - vm_compute. reflexivity.
Defined.

(** ** External step runners (section 4.3) *)

Lemma outcome_run out ok_msg err_msg w :
  outcome out ok_msg err_msg w =
  (Ok (succeeded out), with_events w (outcome_events out ok_msg err_msg)).
Proof.
  unfold outcome, outcome_events, succeeded.
  destruct (Py.contains "finished successfully" out).
  - now rewrite (bind_ok _ _ _ _ _ (log_run _ _ w)).
  - destruct (Py.contains "ERROR" out).
    + now rewrite (bind_ok _ _ _ _ _ (log_run _ _ w)).
    + unfold ret. now rewrite with_events_nil.
Qed.

Lemma call_run {B} cwd begin_msg cmd ok_msg err_msg (k : bool -> M B) w :
  bind (log INFO begin_msg)
       (fun _ => bind (run_captured cwd cmd)
                      (fun out => bind (outcome out ok_msg err_msg) k)) w =
  k (succeeded (stdout_of w cwd cmd))
    (with_events w (call_events cwd begin_msg cmd (stdout_of w cwd cmd)
                      ok_msg err_msg)).
Proof.
  repeat run_step.
  rewrite (bind_ok _ _ _ _ _ (outcome_run _ _ _ _)).
  unfold with_events, call_events. cbn [fs stdout_of trace].
  now rewrite <- !app_assoc.
Qed.

Lemma commands_call_events cwd begin_msg cmd out ok_msg err_msg :
  commands (call_events cwd begin_msg cmd out ok_msg err_msg) = [(cwd, cmd)].
Proof.
  unfold call_events, outcome_events. cbn.
  destruct (succeeded out); [reflexivity|].
  destruct (Py.contains "ERROR" out); reflexivity.
Qed.

Lemma errors_call_events cwd begin_msg cmd out ok_msg err_msg :
  length (errors (call_events cwd begin_msg cmd out ok_msg err_msg)) =
  error_records out.
Proof.
  unfold call_events, outcome_events, error_records. cbn.
  destruct (succeeded out); [reflexivity|].
  destruct (Py.contains "ERROR" out); reflexivity.
Qed.


Lemma both_parts (a b : bool) : Z.eqb (0 + count a + count b) 2 = a && b.
Proof. destruct a, b; reflexivity. Qed.

Lemma newstack_run d w name :
  find_name d (fs w) = Some name ->
  exists begin_msg ok_msg err_msg,
    newstack d w =
    (Ok (succeeded (stdout_of w d "subm newst.com")),
     with_events w (call_events d begin_msg "subm newst.com"
                      (stdout_of w d "subm newst.com") ok_msg err_msg)).
Proof.
  intros Hn. unfold newstack.
  rewrite (bind_ok _ _ _ _ _ (basename_run _ _ _ Hn)).
  do 3 eexists. repeat run_step. rewrite outcome_run.
  unfold with_events, call_events. cbn [fs stdout_of trace].
  rewrite <- !app_assoc. reflexivity.
Qed.

Lemma tilt_run d w name :
  find_name d (fs w) = Some name ->
  exists b1 o1 e1 b2 o2 e2,
    tilt d w =
    (Ok (succeeded (stdout_of w d "subm tilt_evens.com") &&
         succeeded (stdout_of w d "subm tilt_odds.com")),
     with_events w
       (call_events d b1 "subm tilt_evens.com"
          (stdout_of w d "subm tilt_evens.com") o1 e1 ++
        call_events d b2 "subm tilt_odds.com"
          (stdout_of w d "subm tilt_odds.com") o2 e2)).
Proof.
  intros Hn. unfold tilt.
  rewrite (bind_ok _ _ _ _ _ (basename_run _ _ _ Hn)).
  do 6 eexists. rewrite call_run. rewrite call_run.
  cbn [stdout_of with_events]. rewrite with_events_app.
  unfold ret. rewrite both_parts. reflexivity.
Qed.

Lemma trimvol_run d w name :
  find_name d (fs w) = Some name ->
  exists b1 o1 e1 b2 o2 e2,
    trimvol d w =
    (Ok (succeeded (stdout_of w d (trimvol_evens_cmd name)) &&
         succeeded (stdout_of w d (trimvol_odds_cmd name))),
     with_events w
       (call_events d b1 (trimvol_evens_cmd name)
          (stdout_of w d (trimvol_evens_cmd name)) o1 e1 ++
        call_events d b2 (trimvol_odds_cmd name)
          (stdout_of w d (trimvol_odds_cmd name)) o2 e2)).
Proof.
  intros Hn. unfold trimvol.
  rewrite (bind_ok _ _ _ _ _ (basename_run _ _ _ Hn)).
  do 6 eexists. cbv zeta. rewrite call_run. rewrite call_run.
  cbn [stdout_of with_events]. rewrite with_events_app.
  unfold ret. rewrite both_parts. reflexivity.
Qed.

(** C5. For a dataset whose basename is found, each step function
    returns a boolean without raising and runs each of its commands
    once.  [newstack] returns whether its captured output contains
    "finished successfully"; [tilt] and [trimvol] return true exactly
    when the outputs of both of their commands contain it.  An output
    without that marker is a failure whether or not it contains "ERROR";
    one ERROR record is logged for each such output that does contain
    "ERROR", none otherwise.  The files are not touched. *)
Theorem step_outcome_by_markers :
  forall (d : path) (w : World) (name : string),
    find_name d (fs w) = Some name ->
    let ok := fun cmd => Py.contains "finished successfully" (stdout_of w d cmd) in
    let err := fun cmd =>
      if negb (ok cmd) && Py.contains "ERROR" (stdout_of w d cmd) then 1 else 0 in
    (exists evs,
        newstack d w = (Ok (ok "subm newst.com"), with_events w evs) /\
        commands evs = [(d, "subm newst.com")] /\
        length (errors evs) = err "subm newst.com") /\
    (exists evs,
        tilt d w = (Ok (ok "subm tilt_evens.com" && ok "subm tilt_odds.com"),
                    with_events w evs) /\
        commands evs = [(d, "subm tilt_evens.com"); (d, "subm tilt_odds.com")] /\
        length (errors evs) = err "subm tilt_evens.com" + err "subm tilt_odds.com") /\
    (exists evs,
        trimvol d w = (Ok (ok (trimvol_evens_cmd name) && ok (trimvol_odds_cmd name)),
                       with_events w evs) /\
        commands evs = [(d, trimvol_evens_cmd name); (d, trimvol_odds_cmd name)] /\
        length (errors evs) =
          err (trimvol_evens_cmd name) + err (trimvol_odds_cmd name)).
Proof.
  intros d w name Hn ok err.
  split; [|split].
  - destruct (newstack_run d w name Hn) as [b [o [e E]]].
    eexists. split; [exact E|].
    split; [apply commands_call_events | apply errors_call_events].
  - destruct (tilt_run d w name Hn) as [b1 [o1 [e1 [b2 [o2 [e2 E]]]]]].
    eexists. split; [exact E|]. split.
    + now rewrite commands_app, !commands_call_events.
    + now rewrite errors_app, length_app, !errors_call_events.
  - destruct (trimvol_run d w name Hn) as [b1 [o1 [e1 [b2 [o2 [e2 E]]]]]].
    eexists. split; [exact E|]. split.
    + now rewrite commands_app, !commands_call_events.
    + now rewrite errors_app, length_app, !errors_call_events.
Qed.

Lemma step_outcome_by_markers_witness :
  let d := "/data/ds1" in
  let w := example_world in
  let ok := fun cmd => Py.contains "finished successfully" (stdout_of w d cmd) in
  let err := fun cmd =>
    if negb (ok cmd) && Py.contains "ERROR" (stdout_of w d cmd) then 1 else 0 in
  (exists evs,
      newstack d w = (Ok (ok "subm newst.com"), with_events w evs) /\
      commands evs = [(d, "subm newst.com")] /\
      length (errors evs) = err "subm newst.com") /\
  (exists evs,
      tilt d w = (Ok (ok "subm tilt_evens.com" && ok "subm tilt_odds.com"),
                  with_events w evs) /\
      commands evs = [(d, "subm tilt_evens.com"); (d, "subm tilt_odds.com")] /\
      length (errors evs) = err "subm tilt_evens.com" + err "subm tilt_odds.com") /\
  (exists evs,
      trimvol d w = (Ok (ok (trimvol_evens_cmd "a") && ok (trimvol_odds_cmd "a")),
                     with_events w evs) /\
      commands evs = [(d, trimvol_evens_cmd "a"); (d, trimvol_odds_cmd "a")] /\
      length (errors evs) =
        err (trimvol_evens_cmd "a") + err (trimvol_odds_cmd "a")).
Proof.
  apply (step_outcome_by_markers "/data/ds1" example_world "a").
  vm_compute. reflexivity.
Defined.

(** ** The driver (section 4.4) *)

Lemma job_files_are_not_rec_volumes d q :
  job_file d q = true ->
  match child_name d q with
  | Some n => Py.fnmatch "*_rec.mrc" n
  | None => false
  end = false.
Proof.
  intros H. destruct (job_file_cases d q H) as [E|[E|E]]; subst q;
    rewrite child_name_joinpath by (discriminate || reflexivity); reflexivity.
Qed.

Lemma find_name_rendering d name status w w' te to :
  rendering d name status w w' te to ->
  find_name d (fs w') = find_name d (fs w).
Proof.
  intros R. unfold find_name, rec_volumes. rewrite !glob_listing.
  rewrite (r_listing _ _ _ _ _ _ _ R); [reflexivity|].
  apply job_files_are_not_rec_volumes.
Qed.

Lemma errors_call_events_ok cwd b cmd out o e :
  succeeded out = true -> errors (call_events cwd b cmd out o e) = [].
Proof. intros H. unfold call_events, outcome_events. now rewrite H. Qed.

(** Reconstruction and rotation, as the driver chains them. *)
Lemma reconstruct_and_rotate_run d w name :
  find_name d (fs w) = Some name ->
  let ok := fun cmd => succeeded (stdout_of w d cmd) in
  exists evs,
    bind (tilt d)
      (fun ok =>
         if negb ok then
           log ERROR (name_of d ++ " -- Error in tilt. Terminating this dataset...")
         else
           bind (trimvol d)
             (fun ok =>
                if negb ok then
                  log ERROR (name_of d ++ " -- error in trimvol. Terminating this dataset...")
                else ret tt)) w =
    (Ok tt, with_events w evs) /\
    commands evs =
      map (pair d)
        (if negb (ok "subm tilt_evens.com" && ok "subm tilt_odds.com")
         then ["subm tilt_evens.com"; "subm tilt_odds.com"]
         else ["subm tilt_evens.com"; "subm tilt_odds.com";
               trimvol_evens_cmd name; trimvol_odds_cmd name]) /\
    (if negb (ok "subm tilt_evens.com" && ok "subm tilt_odds.com") then
       exists pre, evs = (pre ++ [Log ERROR (name_of d ++ " -- Error in tilt. Terminating this dataset...")])%list
     else if negb (ok (trimvol_evens_cmd name) && ok (trimvol_odds_cmd name)) then
       exists pre, evs = (pre ++ [Log ERROR (name_of d ++ " -- error in trimvol. Terminating this dataset...")])%list
     else errors evs = []).
Proof.
  intros Hn ok.
  destruct (tilt_run d w name Hn) as [b1 [o1 [e1 [b2 [o2 [e2 Et]]]]]].
  rewrite (bind_ok _ _ _ _ _ Et). fold (ok "subm tilt_evens.com") (ok "subm tilt_odds.com").
  destruct (ok "subm tilt_evens.com" && ok "subm tilt_odds.com") eqn:Ht; cbn [negb].
  - destruct (trimvol_run d (with_events w
               (call_events d b1 "subm tilt_evens.com"
                  (stdout_of w d "subm tilt_evens.com") o1 e1 ++
                call_events d b2 "subm tilt_odds.com"
                  (stdout_of w d "subm tilt_odds.com") o2 e2)) name Hn)
      as [b3 [o3 [e3 [b4 [o4 [e4 Er]]]]]].
    rewrite (bind_ok _ _ _ _ _ Er). cbn [stdout_of with_events].
    fold (ok (trimvol_evens_cmd name)) (ok (trimvol_odds_cmd name)).
    apply andb_true_iff in Ht. destruct Ht as [Ht1 Ht2].
    destruct (ok (trimvol_evens_cmd name) && ok (trimvol_odds_cmd name)) eqn:Hr;
      cbn [negb].
    + unfold ret. rewrite with_events_app. eexists. split; [reflexivity|].
      split; [now rewrite !commands_app, !commands_call_events|].
      apply andb_true_iff in Hr. destruct Hr as [Hr1 Hr2].
      rewrite !errors_app.
      now rewrite !errors_call_events_ok by assumption.
    + rewrite log_run, !with_events_app. eexists. split; [reflexivity|].
      split.
      * rewrite !commands_app, !commands_call_events. reflexivity.
      * eexists. repeat rewrite app_assoc. reflexivity.
  - rewrite log_run, with_events_app. eexists. split; [reflexivity|].
    split.
    + rewrite !commands_app, !commands_call_events. reflexivity.
    + eexists. repeat rewrite app_assoc. reflexivity.
Qed.

Lemma process_dataset_run d w name fx fy fz rx ry rz :
  renderable d (fs w) name fx fy fz rx ry rz ->
  tilt_source_ok d (fs w) rx ->
  let prog := state_of (present d (name ++ ".xf") (fs w))
                       (present d (name ++ "_ali.mrc") (fs w))
                       (present d (name ++ ".tlt") (fs w))
                       (present d (name ++ ".xtilt") (fs w)) in
  prog <> 0%Z ->
  let ok := fun cmd => succeeded (stdout_of w d cmd) in
  exists w' evs,
    process_dataset d w = (Ok tt, w') /\
    trace w' = (trace w ++ evs)%list /\
    stdout_of w' = stdout_of w /\
    commands evs = map (pair d) (pipeline name prog ok) /\
    match failure_message name prog ok with
    | Some m => exists pre, evs = (pre ++ [Log ERROR (name_of d ++ m)])%list
    | None => errors evs = []
    end.
Proof.
  intros Hr Hs prog Hprog ok.
  destruct (check_metadata_run d w name (has_name _ _ _ _ _ _ _ _ _ Hr)) as [msg E1].
  fold prog in E1.
  set (w1 := with_events w [Log INFO msg]) in *.
  destruct (rendering_exists d prog w1 name fx fy fz rx ry rz Hr Hs)
    as [w2 [te [to [Hc R]]]].
  destruct (r_events _ _ _ _ _ _ _ R) as [evs2 [tail [Ht2 [Hc2 [He2 _]]]]].
  pose proof (r_stdout _ _ _ _ _ _ _ R) as Hso. cbn [stdout_of w1 with_events] in Hso.
  assert (Hn2 : find_name d (fs w2) = Some name).
  { rewrite (find_name_rendering _ _ _ _ _ _ _ R). apply (has_name _ _ _ _ _ _ _ _ _ Hr). }
  cbn [trace w1 with_events] in Ht2.
  unfold process_dataset.
  rewrite (bind_ok _ _ _ _ _ E1).
  apply Z.eqb_neq in Hprog. rewrite Hprog.
  rewrite (bind_ok _ _ _ _ _ Hc).
  unfold pipeline, failure_message.
  destruct (Z.eqb prog 2) eqn:E2.
  - rewrite bind_assoc.
    destruct (newstack_run d w2 name Hn2) as [b [o [e E3]]].
    rewrite (bind_ok _ _ _ _ _ E3). rewrite Hso.
    cbn [forallb andb]. rewrite ?andb_true_r. fold (ok "subm newst.com").
    destruct (ok "subm newst.com") eqn:Hok; cbn [negb andb].
    + run_step.
      match goal with
      | |- context [bind (tilt d) ?k ?w3] =>
          destruct (reconstruct_and_rotate_run d w3 name Hn2) as [evs3 [E4 [Hc4 He4]]]
      end.
      cbn [stdout_of with_events] in E4, Hc4, He4. rewrite Hso in Hc4, He4.
      fold (ok "subm tilt_evens.com") (ok "subm tilt_odds.com")
           (ok (trimvol_evens_cmd name)) (ok (trimvol_odds_cmd name)) in Hc4, He4.
      rewrite E4.
      eexists. exists ([Log INFO msg] ++ evs2 ++ call_events d b "subm newst.com"
                         (stdout_of w d "subm newst.com") o e ++ evs3)%list.
      split; [reflexivity|].
      split; [cbn [trace with_events]; rewrite Ht2; now rewrite <- !app_assoc|].
      split; [exact Hso|].
      split.
      * cbn [app commands]. rewrite !commands_app, Hc2, commands_call_events, Hc4.
        destruct (ok "subm tilt_evens.com" && ok "subm tilt_odds.com"); reflexivity.
      * destruct (ok "subm tilt_evens.com" && ok "subm tilt_odds.com"); cbn [negb] in *.
        -- destruct (ok (trimvol_evens_cmd name) && ok (trimvol_odds_cmd name));
             cbn [negb] in *.
           ++ cbn [app errors]. rewrite !errors_app, He2, He4.
              now rewrite errors_call_events_ok by exact Hok.
           ++ destruct He4 as [pre ->]. eexists. repeat rewrite app_assoc. reflexivity.
        -- destruct He4 as [pre ->]. eexists. repeat rewrite app_assoc. reflexivity.
    + rewrite bind_assoc. run_step. run_step. unfold ret.
      eexists. exists ([Log INFO msg] ++ evs2 ++ call_events d b "subm newst.com"
                         (stdout_of w d "subm newst.com") o e
                       ++ [Log ERROR (name_of d ++ " -- Error in newstack. Terminating this dataset...")])%list.
      split; [reflexivity|].
      split; [cbn [trace with_events]; rewrite Ht2; now rewrite <- !app_assoc|].
      split; [exact Hso|].
      split.
      * cbn [app commands]. rewrite !commands_app, Hc2, commands_call_events.
        reflexivity.
      * eexists. repeat rewrite app_assoc. reflexivity.
  - run_step. cbn [forallb negb andb]. rewrite ?andb_true_r.
    destruct (reconstruct_and_rotate_run d w2 name Hn2) as [evs3 [E4 [Hc4 He4]]].
    cbn [stdout_of with_events] in E4, Hc4, He4. rewrite Hso in Hc4, He4.
    fold (ok "subm tilt_evens.com") (ok "subm tilt_odds.com")
         (ok (trimvol_evens_cmd name)) (ok (trimvol_odds_cmd name)) in Hc4, He4.
    rewrite E4.
    eexists. exists ([Log INFO msg] ++ evs2 ++ evs3)%list.
    split; [reflexivity|].
    split; [cbn [trace with_events]; rewrite Ht2; now rewrite <- !app_assoc|].
    split; [exact Hso|].
    split.
    + cbn [app commands]. rewrite !commands_app, Hc2, Hc4.
      destruct (ok "subm tilt_evens.com" && ok "subm tilt_odds.com"); reflexivity.
    + destruct (ok "subm tilt_evens.com" && ok "subm tilt_odds.com"); cbn [negb] in *.
      * destruct (ok (trimvol_evens_cmd name) && ok (trimvol_odds_cmd name));
          cbn [negb] in *.
        -- cbn [app errors]. now rewrite !errors_app, He2, He4.
        -- destruct He4 as [pre ->]. eexists. repeat rewrite app_assoc. reflexivity.
      * destruct He4 as [pre ->]. eexists. repeat rewrite app_assoc. reflexivity.
Qed.



Lemma for_each_app {A} (body : A -> M unit) (l1 l2 : list A) w :
  for_each body (l1 ++ l2) w =
  match for_each body l1 w with
  | (Ok _, w1) => for_each body l2 w1
  | (Raise e, w1) => (Raise e, w1)
  end.
Proof.
  revert w. induction l1 as [|x l1 IH]; intros w; cbn [for_each app].
  - reflexivity.
  - unfold bind. destruct (body x w) as [[[]|e] w1]; [apply IH | reflexivity].
Qed.

Lemma get_datasets_run p w : get_datasets p w = (Ok (datasets_of p (fs w)), w).
Proof. reflexivity. Qed.

Lemma check_metadata_ok_inv d w st w' :
  check_metadata d w = (Ok st, w') ->
  exists msg, w' = with_events w [Log INFO msg].
Proof.
  intros E. destruct (find_name d (fs w)) as [name|] eqn:Hn.
  - destruct (check_metadata_run d w name Hn) as [msg E']. rewrite E' in E.
    exists msg. now injection E as _ <-.
  - assert (Hb : basename d w = (Raise IndexError, w)).
    { unfold basename, bind, get_fs. now rewrite Hn. }
    unfold check_metadata in E. rewrite (bind_raise _ _ _ _ _ Hb) in E.
    discriminate.
Qed.

(** C3. When the classifier returns 0 for a dataset of the batch, the
    halfset generator ends by raising "Must first transfer data from
    database and try again"; the world it ends in is the one reached by
    the datasets before, plus the single INFO record of that
    classification: the datasets that follow are never looked at. *)
Theorem absent_dataset_aborts_batch :
  forall (p d : path) (before after : list path) (w w1 w2 : World),
    datasets_of p (fs w) = (before ++ d :: after)%list ->
    for_each process_dataset before w = (Ok tt, w1) ->
    check_metadata d w1 = (Ok 0%Z, w2) ->
    generate_halfsets p w =
      (Raise (Exception "Must first transfer data from database and try again"), w2) /\
    process_dataset d w1 =
      (Raise (Exception "Must first transfer data from database and try again"), w2) /\
    (exists msg, w2 = with_events w1 [Log INFO msg]) /\
    forall others,
      for_each process_dataset (before ++ d :: others)%list w =
      (Raise (Exception "Must first transfer data from database and try again"), w2).
Proof.
  intros p d before after w w1 w2 Hd Hb Hc.
  assert (Hp : process_dataset d w1 =
               (Raise (Exception "Must first transfer data from database and try again"), w2)).
  { unfold process_dataset. now rewrite (bind_ok _ _ _ _ _ Hc). }
  assert (Hall : forall others,
             for_each process_dataset (before ++ d :: others)%list w =
             (Raise (Exception "Must first transfer data from database and try again"), w2)).
  { intros others. rewrite for_each_app, Hb. cbn [for_each].
    now rewrite (bind_raise _ _ _ _ _ Hp). }
  split.
  - unfold generate_halfsets.
    rewrite (bind_ok _ _ _ _ _ (get_datasets_run p w)). rewrite Hd. apply Hall.
  - split; [exact Hp|]. split; [|exact Hall].
    eapply check_metadata_ok_inv; exact Hc.
Qed.

Lemma absent_dataset_aborts_batch_witness :
  let w2 := with_events example_world
              [Log INFO "Not enough metadata for dataset ds3 - c"] in
  generate_halfsets "/bad" example_world =
    (Raise (Exception "Must first transfer data from database and try again"), w2) /\
  process_dataset "/bad/ds3" example_world =
    (Raise (Exception "Must first transfer data from database and try again"), w2) /\
  (exists msg, w2 = with_events example_world [Log INFO msg]) /\
  forall others,
    for_each process_dataset ([] ++ "/bad/ds3" :: others)%list example_world =
    (Raise (Exception "Must first transfer data from database and try again"), w2).
Proof.
  apply (absent_dataset_aborts_batch "/bad" "/bad/ds3" [] ["/bad/ds4"]
           example_world example_world).
  - vm_compute. reflexivity.
  - reflexivity.
  - vm_compute. reflexivity.
Defined.


(** ** Archival sync (section 4.5) *)

(** C9 (defect in the code). On a batch with three [halfsets]
    directories of which only [ds3] has a place in the archive, the sync
    returns normally, mirrors [ds3] alone and logs one warning for each
    of [ds1] and [ds2]; but the two warnings are the same text, built
    from the name of the batch directory, and neither contains the name
    of the dataset that was skipped. *)
Theorem sync_db_warning_omits_dataset :
  exists w',
    sync_db "/data/batch" sync_world = (Ok tt, w') /\
    fs w' = sync_fs /\
    commands (trace w') =
      [(".", "rsync --progress -avhr /data/batch/ds3/halfsets " ++ DB_DIR ++ "/ds3")] /\
    errors (trace w') = [] /\
    warnings (trace w') =
      ["batch -- Does not yet exist in database. Skipping sync to database";
       "batch -- Does not yet exist in database. Skipping sync to database"] /\
    Forall (fun msg => Py.contains "ds1" msg = false /\ Py.contains "ds2" msg = false)
           (warnings (trace w')).
Proof.
  eexists. split; [vm_compute; reflexivity|].
  repeat split; repeat constructor.
Qed.

(** ** Sampling half-set pairs (pyDDW.py) *)

Lemma combine_fst_snd {A B} (l : list (A * B)) :
  combine (map fst l) (map snd l) = l.
Proof. induction l as [|[a b] l IH]; cbn; [reflexivity | now rewrite IH]. Qed.

Lemma comprehension_items {A B} (f : A -> B) (hs : list A) (l : list nat) w :
  Forall (fun i => i < length hs) l ->
  exists picked,
    Forall2 (fun i x => nth_error hs i = Some x) l picked /\
    DDW.comprehension (fun i => h <- DDW.item hs i ;; ret (f h)) l w =
    (Ok (map f picked), w).
Proof.
  induction 1 as [|i l Hi Hl IH]; cbn [DDW.comprehension].
  - exists []. split; [constructor | reflexivity].
  - destruct IH as [picked [HF E]].
    destruct (nth_error hs i) as [x|] eqn:Ex.
    + exists (x :: picked). split; [now constructor|].
      assert (Hx : bind (DDW.item hs i) (fun h => ret (f h)) w = (Ok (f x), w)).
      { unfold bind, DDW.item. now rewrite Ex. }
      rewrite (bind_ok _ _ _ _ _ Hx). rewrite (bind_ok _ _ _ _ _ E). reflexivity.
    + apply nth_error_None in Ex. lia.
Qed.

Lemma Forall2_picked_unique {A} (hs : list A) l picked picked' :
  Forall2 (fun i x => nth_error hs i = Some x) l picked ->
  Forall2 (fun i x => nth_error hs i = Some x) l picked' ->
  picked = picked'.
Proof.
  intros H. revert picked'. induction H; intros picked' H'; inversion H'; subst.
  - reflexivity.
  - f_equal; [congruence | now apply IHForall2].
Qed.

Lemma picked_in {A} (hs : list A) l picked :
  Forall2 (fun i x => nth_error hs i = Some x) l picked ->
  forall x, In x picked -> exists i, In i l /\ nth_error hs i = Some x.
Proof.
  induction 1 as [|i x l picked Hx HF IH]; intros y Hy; [contradiction|].
  destruct Hy as [<-|Hy].
  - exists i. split; [now left | exact Hx].
  - destruct (IH y Hy) as [j [Hj Hn]]. exists j. split; [now right | exact Hn].
Qed.

Lemma picked_NoDup {A} (hs : list A) l picked :
  NoDup hs -> NoDup l ->
  Forall2 (fun i x => nth_error hs i = Some x) l picked ->
  NoDup picked.
Proof.
  intros Hhs Hl HF. induction HF as [|i x l picked Hx HF IH]; [constructor|].
  inversion Hl as [|? ? Hni Hl']; subst. constructor; [|now apply IH].
  intros Hin. destruct (picked_in _ _ _ HF x Hin) as [j [Hj Hn]].
  assert (i = j).
  { apply (proj1 (NoDup_nth_error hs) Hhs).
    - apply nth_error_Some. congruence.
    - congruence. }
  subst j. contradiction.
Qed.

Lemma get_random_halfsets_ok random_sample halfsets w samples :
  random_sample (length halfsets) 5 = Ok samples ->
  Forall (fun i => i < length halfsets) samples ->
  exists picked m1 m2,
    Forall2 (fun i x => nth_error halfsets i = Some x) samples picked /\
    DDW.get_random_halfsets random_sample halfsets 5 w =
    (Ok picked, with_events w [Log INFO m1; Log INFO m2]).
Proof.
  intros Hs Hf. unfold DDW.get_random_halfsets.
  destruct (comprehension_items fst halfsets samples w Hf) as [p1 [F1 E1]].
  destruct (comprehension_items snd halfsets samples w Hf) as [p2 [F2 E2]].
  pose proof (Forall2_picked_unique _ _ _ _ F1 F2) as <-.
  exists p1. do 2 eexists. split; [exact F1|].
  unfold bind at 1. unfold DDW.lift. rewrite Hs.
  rewrite (bind_ok _ _ _ _ _ E1). rewrite (bind_ok _ _ _ _ _ E2).
  repeat run_step. unfold ret. rewrite combine_fst_snd.
  unfold with_events. now rewrite <- app_assoc.
Qed.

Lemma get_random_halfsets_raises random_sample halfsets w :
  random_sample (length halfsets) 5 = Raise ValueError ->
  DDW.get_random_halfsets random_sample halfsets 5 w = (Raise ValueError, w).
Proof.
  intros Hs. unfold DDW.get_random_halfsets, bind, DDW.lift. now rewrite Hs.
Qed.

Lemma locate_halfsets_frame p a b c w r w1 :
  DDW.locate_halfsets p a b c w = (r, w1) ->
  fs w1 = fs w /\ writes (trace w1) = writes (trace w).
Proof.
  unfold DDW.locate_halfsets. run_step. run_step.
  match goal with
  | |- context [if ?c then _ else _] => destruct c
  end.
  - run_step. unfold raise. intros E. injection E as _ <-. cbn.
    rewrite !writes_app. cbn. now rewrite !app_nil_r.
  - unfold DDW.zip_strict.
    match goal with
    | |- context [if ?c then _ else _] => destruct c
    end; unfold ret, raise; intros E; injection E as _ <-; cbn;
      rewrite !writes_app; cbn; now rewrite !app_nil_r.
Qed.

(** C10. Whatever sampler meets the contract of [random.sample]: from
    a collection of at least 5 pairs [get_random_halfsets] returns 5
    pairs, read at 5 distinct positions of the collection (hence
    distinct pairs when the collection has no repetition), and touches
    no file; from a collection of fewer than 5 pairs it raises
    ValueError, and the script, having located such a collection, ends
    with that ValueError before anything that follows runs, no file
    written. *)
Theorem five_pairs_or_value_error :
  forall (random_sample : nat -> nat -> result (list nat)),
    DDW.sample_contract random_sample ->
    forall (halfsets : list (path * path)) (w : World),
      (5 <= length halfsets ->
       exists (samples : list nat) (picked : list (path * path)) (w' : World),
         DDW.get_random_halfsets random_sample halfsets 5 w = (Ok picked, w') /\
         fs w' = fs w /\
         length picked = 5 /\
         length samples = 5 /\ NoDup samples /\
         Forall2 (fun i pr => nth_error halfsets i = Some pr) samples picked /\
         (forall pr, In pr picked -> In pr halfsets) /\
         (NoDup halfsets -> NoDup picked)) /\
      (length halfsets < 5 ->
       DDW.get_random_halfsets random_sample halfsets 5 w = (Raise ValueError, w) /\
       forall (p : path) and_then (w0 : World),
         DDW.locate_halfsets p "evens" "odds" "mrc" w0 = (Ok halfsets, w) ->
         DDW.main random_sample p and_then w0 = (Raise ValueError, w) /\
         fs w = fs w0 /\
         writes (trace w) = writes (trace w0)).
Proof.
  intros random_sample Hc halfsets w.
  destruct (Hc (length halfsets) 5) as [Hlt Hge].
  split.
  - intros H5. destruct (Hge H5) as [samples [Hs [Hlen [Hnd Hf]]]].
    destruct (get_random_halfsets_ok random_sample halfsets w samples Hs Hf)
      as [picked [m1 [m2 [HF E]]]].
    exists samples, picked. eexists.
    split; [exact E|]. split; [reflexivity|].
    split; [rewrite <- (Forall2_length HF); exact Hlen|].
    split; [exact Hlen|]. split; [exact Hnd|]. split; [exact HF|].
    split.
    + intros pr Hin. destruct (picked_in _ _ _ HF pr Hin) as [i [_ Hn]].
      eapply nth_error_In; exact Hn.
    + intros Hnh. eapply picked_NoDup; eassumption.
  - intros H5.
    pose proof (get_random_halfsets_raises random_sample halfsets w (Hlt H5)) as E.
    split; [exact E|].
    intros p and_then w0 Hl. unfold DDW.main.
    rewrite (bind_ok _ _ _ _ _ Hl). rewrite (bind_raise _ _ _ _ _ E).
    split; [reflexivity|]. eapply locate_halfsets_frame; exact Hl.
Qed.

Lemma first_k_contract : DDW.sample_contract first_k.
Proof.
  intros N k. unfold first_k. split.
  - intros H. apply Nat.leb_gt in H. now rewrite H.
  - intros H. apply Nat.leb_le in H. rewrite H. exists (seq 0 k).
    split; [reflexivity|]. split; [apply length_seq|].
    split; [apply seq_NoDup|].
    apply Forall_forall. intros i Hi. apply in_seq in Hi.
    apply Nat.leb_le in H. lia.
Qed.

Lemma five_pairs_or_value_error_witness :
  (5 <= length six_pairs ->
   exists (samples : list nat) (picked : list (path * path)) (w' : World),
     DDW.get_random_halfsets first_k six_pairs 5 example_world = (Ok picked, w') /\
     fs w' = fs example_world /\
     length picked = 5 /\
     length samples = 5 /\ NoDup samples /\
     Forall2 (fun i pr => nth_error six_pairs i = Some pr) samples picked /\
     (forall pr, In pr picked -> In pr six_pairs) /\
     (NoDup six_pairs -> NoDup picked)) /\
  (length six_pairs < 5 ->
   DDW.get_random_halfsets first_k six_pairs 5 example_world =
     (Raise ValueError, example_world) /\
   forall (p : path) and_then (w0 : World),
     DDW.locate_halfsets p "evens" "odds" "mrc" w0 = (Ok six_pairs, example_world) ->
     DDW.main first_k p and_then w0 = (Raise ValueError, example_world) /\
     fs example_world = fs w0 /\
     writes (trace example_world) = writes (trace w0)).
Proof.
  apply (five_pairs_or_value_error first_k first_k_contract six_pairs example_world).
Defined.

(** * Further properties of the code *)

(** ** Datasets the steps cannot name *)

Lemma basename_raises d w :
  find_name d (fs w) = None -> basename d w = (Raise IndexError, w).
Proof. intros H. unfold basename, bind, get_fs. now rewrite H. Qed.

Lemma check_metadata_no_basename d w :
  find_name d (fs w) = None -> check_metadata d w = (Raise IndexError, w).
Proof.
  intros H. unfold check_metadata.
  now rewrite (bind_raise _ _ _ _ _ (basename_raises d w H)).
Qed.

Lemma process_dataset_no_basename d w :
  find_name d (fs w) = None -> process_dataset d w = (Raise IndexError, w).
Proof.
  intros H. unfold process_dataset.
  now rewrite (bind_raise _ _ _ _ _ (check_metadata_no_basename d w H)).
Qed.

(** X1. A dataset without a reconstructed volume whose name is free of
    "full" gives no basename: the classifier, the renderer, the three
    step runners and the loop body all raise IndexError at once, with
    nothing logged, written or run. *)
Theorem no_basename_raises_index_error :
  forall (d : path) (w : World),
    find_name d (fs w) = None ->
    check_metadata d w = (Raise IndexError, w) /\
    (forall status, construct_coms d status w = (Raise IndexError, w)) /\
    newstack d w = (Raise IndexError, w) /\
    tilt d w = (Raise IndexError, w) /\
    trimvol d w = (Raise IndexError, w) /\
    process_dataset d w = (Raise IndexError, w).
Proof.
  intros d w H. pose proof (basename_raises d w H) as Hb.
  split; [now apply check_metadata_no_basename|].
  split; [intros status; unfold construct_coms; now rewrite (bind_raise _ _ _ _ _ Hb)|].
  split; [unfold newstack; now rewrite (bind_raise _ _ _ _ _ Hb)|].
  split; [unfold tilt; now rewrite (bind_raise _ _ _ _ _ Hb)|].
  split; [unfold trimvol; now rewrite (bind_raise _ _ _ _ _ Hb)|].
  now apply process_dataset_no_basename.
Qed.

Lemma no_basename_raises_index_error_witness :
  check_metadata "/run/ds2" full_only_world = (Raise IndexError, full_only_world) /\
  (forall status,
      construct_coms "/run/ds2" status full_only_world =
      (Raise IndexError, full_only_world)) /\
  newstack "/run/ds2" full_only_world = (Raise IndexError, full_only_world) /\
  tilt "/run/ds2" full_only_world = (Raise IndexError, full_only_world) /\
  trimvol "/run/ds2" full_only_world = (Raise IndexError, full_only_world) /\
  process_dataset "/run/ds2" full_only_world = (Raise IndexError, full_only_world).
Proof.
  apply (no_basename_raises_index_error "/run/ds2" full_only_world).
  vm_compute. reflexivity.
Defined.

Lemma filter_none {A} (f : A -> bool) l :
  Forall (fun x => f x = false) l -> filter f l = [].
Proof. induction 1 as [|x l Hx _ IH]; cbn; [reflexivity | now rewrite Hx]. Qed.

(** X2. [get_datasets] asks only for some [*_rec.mrc] file, the steps
    for one without "full" in its name.  A directory of the batch whose
    reconstructed volumes all carry "full" is therefore listed as a
    dataset, and when the loop reaches it the halfset generator raises
    IndexError: the datasets after it are not processed. *)
Theorem full_only_dataset_aborts_batch :
  forall (p d : path) (before after : list path) (w w1 : World),
    datasets_of p (fs w) = (before ++ d :: after)%list ->
    for_each process_dataset before w = (Ok tt, w1) ->
    Forall (fun x => Py.contains "full" (name_of x) = true)
           (glob d "*_rec.mrc" (fs w1)) ->
    Py.truthy (glob d EXT (fs w)) = true /\
    generate_halfsets p w = (Raise IndexError, w1).
Proof.
  intros p d before after w w1 Hd Hb Hfull.
  split.
  - assert (Hin : In d (datasets_of p (fs w))).
    { rewrite Hd. apply in_or_app. right. now left. }
    unfold datasets_of in Hin. apply filter_In in Hin.
    destruct Hin as [_ Hin]. apply andb_true_iff in Hin. apply Hin.
  - assert (Hn : find_name d (fs w1) = None).
    { unfold find_name, rec_volumes. rewrite filter_none; [reflexivity|].
      eapply Forall_impl; [|exact Hfull]. cbn beta. intros x Hx. now rewrite Hx. }
    pose proof (process_dataset_no_basename d w1 Hn) as Hp.
    unfold generate_halfsets.
    rewrite (bind_ok _ _ _ _ _ (get_datasets_run p w)), Hd.
    rewrite for_each_app, Hb. cbn [for_each].
    now rewrite (bind_raise _ _ _ _ _ Hp).
Qed.

Lemma full_only_dataset_aborts_batch_witness :
  Py.truthy (glob "/run/ds2" EXT (fs full_only_world)) = true /\
  generate_halfsets "/run" full_only_world =
  (Raise IndexError,
   snd (for_each process_dataset ["/run/ds1"] full_only_world)).
Proof.
  apply (full_only_dataset_aborts_batch "/run" "/run/ds2" ["/run/ds1"]
           ["/run/ds3"; "/run/ds4"] full_only_world
           (snd (for_each process_dataset ["/run/ds1"] full_only_world))).
  - vm_compute. reflexivity.
  - vm_compute. reflexivity.
  - vm_compute. repeat constructor.
Defined.

(** ** What the renderer needs beyond the classifier's four files *)

Lemma construct_coms_no_mdoc d status w name :
  find_name d (fs w) = Some name ->
  glob d (name ++ "*.mdoc") (fs w) = [] ->
  construct_coms d status w = (Raise IndexError, w).
Proof.
  intros Hn Hm. unfold construct_coms.
  rewrite (bind_ok _ _ _ _ _ (basename_run _ _ _ Hn)). run_step.
  rewrite Hm. unfold bind, raise. reflexivity.
Qed.

(** X3. The classifier never looks for an mdoc, the renderer indexes
    the first one.  For a dataset without any, the renderer raises
    IndexError before logging or writing anything; a dataset the
    classifier accepted (state 1 or 2) then makes the loop body raise
    right after the classification record, so the loop ends there
    whatever datasets follow. *)
Theorem renderer_needs_mdoc :
  forall (d : path) (w : World) (name : string) (rest : list path),
    find_name d (fs w) = Some name ->
    glob d (name ++ "*.mdoc") (fs w) = [] ->
    (forall status, construct_coms d status w = (Raise IndexError, w)) /\
    (state_of (present d (name ++ ".xf") (fs w))
              (present d (name ++ "_ali.mrc") (fs w))
              (present d (name ++ ".tlt") (fs w))
              (present d (name ++ ".xtilt") (fs w)) <> 0%Z ->
     exists msg,
       process_dataset d w = (Raise IndexError, with_events w [Log INFO msg]) /\
       for_each process_dataset (d :: rest) w =
       (Raise IndexError, with_events w [Log INFO msg])).
Proof.
  intros d w name rest Hn Hm.
  split; [intros status; now apply (construct_coms_no_mdoc d status w name)|].
  intros Hst. destruct (check_metadata_run d w name Hn) as [msg E].
  exists msg.
  assert (Hp : process_dataset d w = (Raise IndexError, with_events w [Log INFO msg])).
  { unfold process_dataset. rewrite (bind_ok _ _ _ _ _ E).
    apply Z.eqb_neq in Hst. rewrite Hst.
    assert (Hc : construct_coms d
                   (state_of (present d (name ++ ".xf") (fs w))
                             (present d (name ++ "_ali.mrc") (fs w))
                             (present d (name ++ ".tlt") (fs w))
                             (present d (name ++ ".xtilt") (fs w)))
                   (with_events w [Log INFO msg]) =
                 (Raise IndexError, with_events w [Log INFO msg])).
    { apply (construct_coms_no_mdoc d _ _ name); [exact Hn | exact Hm]. }
    now rewrite (bind_raise _ _ _ _ _ Hc). }
  split; [exact Hp|].
  cbn [for_each]. now rewrite (bind_raise _ _ _ _ _ Hp).
Qed.

Lemma renderer_needs_mdoc_witness :
  (forall status,
      construct_coms "/run/ds3" status full_only_world =
      (Raise IndexError, full_only_world)) /\
  (state_of (present "/run/ds3" ("c" ++ ".xf") (fs full_only_world))
            (present "/run/ds3" ("c" ++ "_ali.mrc") (fs full_only_world))
            (present "/run/ds3" ("c" ++ ".tlt") (fs full_only_world))
            (present "/run/ds3" ("c" ++ ".xtilt") (fs full_only_world)) <> 0%Z ->
   exists msg,
     process_dataset "/run/ds3" full_only_world =
     (Raise IndexError, with_events full_only_world [Log INFO msg]) /\
     for_each process_dataset ("/run/ds3" :: ["/run/ds4"]) full_only_world =
     (Raise IndexError, with_events full_only_world [Log INFO msg])).
Proof.
  apply (renderer_needs_mdoc "/run/ds3" full_only_world "c" ["/run/ds4"]).
  - vm_compute. reflexivity.
  - vm_compute. reflexivity.
Defined.

(** X4. The renderer writes [newst.com] and deletes the previous
    half-set job files before it opens the raw stack.  When the raw
    stack [<name>.mrc] is missing it therefore raises FileNotFoundError
    with the old [tilt_evens.com] and [tilt_odds.com] already gone, in
    state 2 with [newst.com] already written, and every other file as
    it was. *)
Theorem missing_raw_stack_loses_job_files :
  forall (d : path) (status : Z) (w : World) (name : string),
    find_name d (fs w) = Some name ->
    glob d (name ++ "*.mdoc") (fs w) <> [] ->
    lookup (joinpath d (name ++ ".mrc")) (fs w) = None ->
    exists w' : World,
      construct_coms d status w = (Raise FileNotFoundError, w') /\
      lookup (joinpath d "tilt_evens.com") (fs w') = None /\
      lookup (joinpath d "tilt_odds.com") (fs w') = None /\
      lookup (joinpath d "newst.com") (fs w') =
        (if Z.eqb status 2 then Some (TextFile (newst_text name))
         else lookup (joinpath d "newst.com") (fs w)) /\
      (forall q, job_file d q = false -> lookup q (fs w') = lookup q (fs w)).
Proof.
  intros d status w name Hn Hm Hraw.
  assert (Hrec : True) by exact I.
  run_prefix Hn Hm Hraw Hrec.
  match goal with
  | |- context [bind (mrc_header ?p) ?k ?w0] =>
      assert (Hh : mrc_header p w0 = (Raise FileNotFoundError, w0))
  end.
  { unfold mrc_header. run_step.
    rewrite lookup_prepared by apply raw_volume_not_job_file.
    rewrite Hraw. reflexivity. }
  rewrite (bind_raise _ _ _ _ _ Hh).
  eexists. split; [reflexivity|]. cbn [fs].
  split; [apply lookup_prepared_evens|].
  split; [apply lookup_prepared_odds|].
  split; [apply lookup_prepared_newst|].
  intros q Hq. now apply lookup_prepared.
Qed.

Lemma missing_raw_stack_loses_job_files_witness :
  exists w' : World,
    construct_coms "/run/ds4" 2 full_only_world = (Raise FileNotFoundError, w') /\
    lookup (joinpath "/run/ds4" "tilt_evens.com") (fs w') = None /\
    lookup (joinpath "/run/ds4" "tilt_odds.com") (fs w') = None /\
    lookup (joinpath "/run/ds4" "newst.com") (fs w') =
      (if Z.eqb 2 2 then Some (TextFile (newst_text "e"))
       else lookup (joinpath "/run/ds4" "newst.com") (fs full_only_world)) /\
    (forall q, job_file "/run/ds4" q = false ->
               lookup q (fs w') = lookup q (fs full_only_world)).
Proof.
  apply (missing_raw_stack_loses_job_files "/run/ds4" 2 full_only_world "e").
  - vm_compute. reflexivity.
  - vm_compute. discriminate.
  - vm_compute. reflexivity.
Defined.

(** ** The substitution loop: the x-tilt key *)

Lemma contains_here needle hay :
  prefix needle hay = true -> Py.contains needle hay = true.
Proof. intros H. destruct hay; cbn [Py.contains]; now rewrite H. Qed.

Lemma contains_later needle c hay :
  Py.contains needle hay = true -> Py.contains needle (String c hay) = true.
Proof. intros H. cbn [Py.contains]. rewrite H. apply orb_true_r. Qed.

Lemma contains_drop_first c needle hay :
  Py.contains (String c needle) hay = true -> Py.contains needle hay = true.
Proof.
  induction hay as [|a hay IH]; intros H.
  - cbn in H. discriminate.
  - cbn [Py.contains] in H. apply orb_true_iff in H. destruct H as [H|H].
    + cbn [prefix] in H. destruct (ascii_dec c a); [|discriminate].
      apply contains_later. now apply contains_here.
    + apply contains_later. now apply IH.
Qed.

(** X5. Every line that contains "XTILTFILE" also contains "TILTFILE",
    and the loop tests "TILTFILE" first.  So an x-tilt line of the
    template (one that holds no other key) does not come out as
    [XTILTFILE <name>.xtilt]: both job files get [TILTFILE <name>.tlt]
    in its place, provided that replacement line does not itself
    contain "XTILTFILE" or "useGPU", which only an odd basename could
    cause. *)
Theorem xtilt_line_becomes_tilt_line :
  forall (name line : string),
    Py.contains "XTILTFILE" line = true ->
    Py.contains "InputProjections" line = false ->
    Py.contains "OutputFile" line = false ->
    Py.contains "IMAGEBINNED" line = false ->
    let tilt_line := "TILTFILE " ++ name ++ ".tlt" ++ Py.NL in
    Py.contains "XTILTFILE" tilt_line = false ->
    Py.contains "useGPU" tilt_line = false ->
    Py.contains "TILTFILE" line = true /\
    rewrite_line name line = (tilt_line, tilt_line).
Proof.
  intros name line Hx Hi Ho Hb tilt_line Hx' Hg.
  assert (Ht : Py.contains "TILTFILE" line = true)
    by (now apply (contains_drop_first "X"%char)).
  split; [exact Ht|].
  unfold rewrite_line. rewrite Hi, Ho, Hb, Ht.
  fold tilt_line. now rewrite Hx', Hg.
Qed.

Lemma xtilt_line_becomes_tilt_line_witness :
  let tilt_line := "TILTFILE " ++ "b" ++ ".tlt" ++ Py.NL in
  Py.contains "TILTFILE" ("XTILTFILE old.xtilt" ++ Py.NL) = true /\
  rewrite_line "b" ("XTILTFILE old.xtilt" ++ Py.NL) = (tilt_line, tilt_line).
Proof.
  apply (xtilt_line_becomes_tilt_line "b" ("XTILTFILE old.xtilt" ++ Py.NL));
    vm_compute; reflexivity.
Defined.

(** ** Sizes of the two halves *)

Lemma count_parity (r n : nat) :
  r < 2 ->
  length (filter (fun i => Nat.eqb (i mod 2) r) (seq 0 n)) = (n + 1 - r) / 2.
Proof.
  intros Hr. induction n as [|n IH].
  - destruct r as [|[|r]]; [reflexivity | reflexivity | lia].
  - rewrite seq_S, filter_app, length_app, IH. cbn [filter]. rewrite Nat.add_0_l.
    pose proof (Nat.div_mod_eq n 2) as Hn.
    pose proof (Nat.mod_upper_bound n 2 ltac:(lia)) as Hm.
    pose proof (Nat.div_mod_eq (n + 1 - r) 2) as H1.
    pose proof (Nat.mod_upper_bound (n + 1 - r) 2 ltac:(lia)) as H1m.
    pose proof (Nat.div_mod_eq (S n + 1 - r) 2) as H2.
    pose proof (Nat.mod_upper_bound (S n + 1 - r) 2 ltac:(lia)) as H2m.
    destruct (Nat.eqb (n mod 2) r) eqn:E; cbn [length].
    + apply Nat.eqb_eq in E. lia.
    + apply Nat.eqb_neq in E. lia.
Qed.

(** X6. Of [nz] slices the even list takes the larger half, (nz+1)/2
    numbers, and the odd list nz/2; together they are nz numbers.  With
    a single slice, or none, the odd INCLUDE line carries no number at
    all, and with none (or a negative count in the header) neither
    does the even one. *)
Theorem half_set_sizes :
  forall nz : Z,
    length (frames 0 nz) = Z.to_nat ((nz + 1) / 2) /\
    length (frames 1 nz) = Z.to_nat (nz / 2) /\
    length (frames 0 nz) + length (frames 1 nz) = Z.to_nat nz /\
    ((nz <= 1)%Z -> include_line 1 nz = "INCLUDE ") /\
    ((nz <= 0)%Z -> include_line 0 nz = "INCLUDE ").
Proof.
  intros nz.
  assert (H0 : length (frames 0 nz) = Z.to_nat ((nz + 1) / 2)).
  { unfold frames. rewrite length_map, count_parity by lia.
    destruct (Z_le_gt_dec nz 0) as [Hneg|Hpos].
    - replace (Z.to_nat nz) with 0 by lia. cbn.
      assert ((nz + 1) / 2 < 1)%Z by (apply Z.div_lt_upper_bound; lia). lia.
    - rewrite Nat.sub_0_r.
      replace (Z.to_nat nz + 1) with (Z.to_nat (nz + 1)) by lia.
      rewrite Z2Nat.inj_div by lia. reflexivity. }
  assert (H1 : length (frames 1 nz) = Z.to_nat (nz / 2)).
  { unfold frames. rewrite length_map, count_parity by lia.
    replace (Z.to_nat nz + 1 - 1) with (Z.to_nat nz) by lia.
    destruct (Z_le_gt_dec nz 0) as [Hneg|Hpos].
    - replace (Z.to_nat nz) with 0 by lia. cbn.
      assert (nz / 2 < 1)%Z by (apply Z.div_lt_upper_bound; lia). lia.
    - rewrite Z2Nat.inj_div by lia. reflexivity. }
  split; [exact H0|]. split; [exact H1|].
  split.
  { rewrite H0, H1.
    destruct (Z_le_gt_dec nz 0) as [Hneg|Hpos].
    - assert ((nz + 1) / 2 < 1)%Z by (apply Z.div_lt_upper_bound; lia).
      assert (nz / 2 < 1)%Z by (apply Z.div_lt_upper_bound; lia). lia.
    - pose proof (Z.div_mod nz 2 ltac:(lia)).
      pose proof (Z.mod_pos_bound nz 2 ltac:(lia)).
      pose proof (Z.div_mod (nz + 1) 2 ltac:(lia)).
      pose proof (Z.mod_pos_bound (nz + 1) 2 ltac:(lia)).
      lia. }
  split.
  - intros Hle.
    assert (E : frames 1 nz = []).
    { apply length_zero_iff_nil. rewrite H1.
      assert (nz / 2 < 1)%Z by (apply Z.div_lt_upper_bound; lia). lia. }
    unfold include_line. now rewrite E.
  - intros Hle.
    assert (E : frames 0 nz = []).
    { apply length_zero_iff_nil. rewrite H0.
      assert ((nz + 1) / 2 < 1)%Z by (apply Z.div_lt_upper_bound; lia). lia. }
    unfold include_line. now rewrite E.
Qed.

(** ** Rendering twice *)

Lemma last_char_cons a s c :
  last_char s = Some c -> last_char (String a s) = Some c.
Proof. intros H. destruct s; [discriminate | exact H]. Qed.

Lemma fnmatch_last_char pat c s :
  c <> "*"%char -> c <> "?"%char ->
  Py.fnmatch (pat ++ String c EmptyString) s = true ->
  last_char s = Some c.
Proof.
  intros Hs Hq. apply Ascii.eqb_neq in Hs, Hq.
  revert s. induction pat as [|p pat IH]; intros s H.
  - cbn in H. rewrite Hs, Hq in H. destruct s as [|a s]; [discriminate|].
    cbn in H. apply andb_true_iff in H. destruct H as [Ha Hn].
    apply Ascii.eqb_eq in Ha. subst a.
    destruct s; [reflexivity | discriminate].
  - cbn [append Py.fnmatch] in H.
    destruct (Ascii.eqb p "*"%char).
    + induction s as [|a s IHs].
      * apply orb_true_iff in H. destruct H as [H|H]; [now apply IH | discriminate].
      * apply orb_true_iff in H. destruct H as [H|H]; [now apply IH|].
        apply last_char_cons. now apply IHs.
    + destruct s as [|a s]; [discriminate|].
      apply andb_true_iff in H. destruct H as [_ H].
      apply last_char_cons. now apply IH.
Qed.

Lemma job_files_are_not_mdocs d name q :
  job_file d q = true ->
  match child_name d q with
  | Some n => Py.fnmatch (name ++ "*.mdoc") n
  | None => false
  end = false.
Proof.
  intros H.
  assert (Hm : forall n, last_char n = Some "m"%char ->
                         Py.fnmatch (name ++ "*.mdoc") n = false).
  { intros n Hn. destruct (Py.fnmatch (name ++ "*.mdoc") n) eqn:E; [|reflexivity].
    replace (name ++ "*.mdoc") with ((name ++ "*.mdo") ++ "c") in E
      by (now rewrite append_assoc).
    apply fnmatch_last_char in E; [congruence | discriminate | discriminate]. }
  destruct (job_file_cases d q H) as [E|[E|E]]; subst q;
    rewrite child_name_joinpath by (discriminate || reflexivity);
    apply Hm; reflexivity.
Qed.

Lemma rendering_texts d status w name fx fy fz rx ry rz :
  renderable d (fs w) name fx fy fz rx ry rz ->
  tilt_source_ok d (fs w) rx ->
  exists w',
    construct_coms d status w = (Ok tt, w') /\
    rendering d name status w w'
      (evens_text d name (fs w) fx fy fz rx rz)
      (odds_text d name (fs w) fx fy fz rx rz).
Proof.
  intros Hr Hs. unfold tilt_source_ok in Hs. unfold evens_text, odds_text.
  destruct (lookup (joinpath d "tilt.com") (fs w)) as [[|tpl|]|] eqn:E;
    try contradiction.
  - exact (rendering_template d status w name fx fy fz rx ry rz tpl Hr E).
  - exact (rendering_fresh d status w name fx fy fz rx ry rz Hr E Hs).
Qed.

Lemma renderable_after_rendering d status w w' name fx fy fz rx ry rz te to :
  renderable d (fs w) name fx fy fz rx ry rz ->
  rendering d name status w w' te to ->
  renderable d (fs w') name fx fy fz rx ry rz.
Proof.
  intros [Hn Hm Hraw Hrec] R. constructor.
  - now rewrite (find_name_rendering _ _ _ _ _ _ _ R).
  - rewrite glob_listing, (r_listing _ _ _ _ _ _ _ R).
    + now rewrite <- glob_listing.
    + intros q Hq. now apply job_files_are_not_mdocs.
  - rewrite (r_other _ _ _ _ _ _ _ R) by apply raw_volume_not_job_file. exact Hraw.
  - rewrite (r_other _ _ _ _ _ _ _ R) by apply rec_volume_not_job_file. exact Hrec.
Qed.

(** X7. The renderer deletes the half-set job files before it appends
    to them, so rendering is repeatable: on a dataset it can handle, a
    second run right after the first succeeds as well and leaves every
    path of the file system, the three job files included, with the
    content the first run gave it. *)
Theorem rendering_twice_changes_nothing :
  forall (d : path) (status : Z) (w : World) (name : string)
         (fx fy fz rx ry rz : Z),
    renderable d (fs w) name fx fy fz rx ry rz ->
    tilt_source_ok d (fs w) rx ->
    exists w1 w2 : World,
      construct_coms d status w = (Ok tt, w1) /\
      construct_coms d status w1 = (Ok tt, w2) /\
      forall q, lookup q (fs w2) = lookup q (fs w1).
Proof.
  intros d status w name fx fy fz rx ry rz Hr Hs.
  destruct (rendering_texts d status w name fx fy fz rx ry rz Hr Hs) as [w1 [E1 R1]].
  pose proof (renderable_after_rendering _ _ _ _ _ _ _ _ _ _ _ _ _ Hr R1) as Hr1.
  assert (Ht : lookup (joinpath d "tilt.com") (fs w1) =
               lookup (joinpath d "tilt.com") (fs w)).
  { apply (r_other _ _ _ _ _ _ _ R1), template_not_job_file. }
  assert (Hs1 : tilt_source_ok d (fs w1) rx).
  { unfold tilt_source_ok. now rewrite Ht. }
  destruct (rendering_texts d status w1 name fx fy fz rx ry rz Hr1 Hs1) as [w2 [E2 R2]].
  exists w1, w2. split; [exact E1|]. split; [exact E2|].
  intros q. destruct (job_file d q) eqn:Hq.
  - destruct (job_file_cases d q Hq) as [E|[E|E]]; subst q.
    + rewrite (r_newst _ _ _ _ _ _ _ R2), (r_newst _ _ _ _ _ _ _ R1).
      destruct (Z.eqb status 2); reflexivity.
    + rewrite (r_evens _ _ _ _ _ _ _ R2), (r_evens _ _ _ _ _ _ _ R1).
      unfold evens_text. now rewrite Ht.
    + rewrite (r_odds _ _ _ _ _ _ _ R2), (r_odds _ _ _ _ _ _ _ R1).
      unfold odds_text. now rewrite Ht.
  - apply (r_other _ _ _ _ _ _ _ R2), Hq.
Qed.

Lemma rendering_twice_changes_nothing_witness :
  exists w1 w2 : World,
    construct_coms "/data/ds2" 1 example_world = (Ok tt, w1) /\
    construct_coms "/data/ds2" 1 w1 = (Ok tt, w2) /\
    forall q, lookup q (fs w2) = lookup q (fs w1).
Proof.
  apply (rendering_twice_changes_nothing "/data/ds2" 1 example_world "b"
           5760 4092 41 960 928 300).
  - constructor; vm_compute; [reflexivity | discriminate | reflexivity | reflexivity].
  - vm_compute. exact I.
Defined.

(** ** Archival sync in general *)

Lemma strip_prefix_inv a q r : strip_prefix a q = Some r -> q = a ++ r.
Proof.
  revert q. induction a as [|x a IH]; intros q H; cbn in H.
  - now injection H as ->.
  - destruct q as [|y q]; [discriminate|].
    destruct (Ascii.eqb x y) eqn:E; [|discriminate].
    apply Ascii.eqb_eq in E. subst y. cbn. f_equal. now apply IH.
Qed.











(** ** Locating half-set pairs (pyDDW.py) *)

Lemma length_zero_eqb {A} (l : list A) : Nat.eqb (length l) 0 = true <-> l = [].
Proof.
  rewrite Nat.eqb_eq. split; [apply length_zero_iff_nil | intros ->; reflexivity].
Qed.

(** X9. [locate_halfsets] pairs the even and the odd files it finds by
    position.  It raises FileNotFoundError, after an ERROR record, only
    when it finds neither kind; when it finds different numbers of the
    two kinds (one of them possibly none) it raises ValueError from the
    strict zip; otherwise it returns as many pairs as there are even
    files.  It never touches a file, and when it raises the script ends
    with the same exception before sampling or anything later runs. *)
Theorem locate_halfsets_outcomes :
  forall (p : path) (w : World),
    let evens := filter (fun x => negb (Py.contains "full" (name_of x)))
                        (rglob p "*evens.mrc" (fs w)) in
    let odds := filter (fun x => negb (Py.contains "full" (name_of x)))
                       (rglob p "*odds.mrc" (fs w)) in
    exists found_msg : string,
      let w1 := with_events w [Log INFO found_msg] in
      (evens = [] /\ odds = [] ->
       exists w2,
         DDW.locate_halfsets p "evens" "odds" "mrc" w = (Raise FileNotFoundError, w2) /\
         fs w2 = fs w /\ length (errors (trace w2)) = S (length (errors (trace w))) /\
         forall sampler and_then,
           DDW.main sampler p and_then w = (Raise FileNotFoundError, w2)) /\
      (~ (evens = [] /\ odds = []) -> length evens <> length odds ->
       DDW.locate_halfsets p "evens" "odds" "mrc" w = (Raise ValueError, w1) /\
       forall sampler and_then,
         DDW.main sampler p and_then w = (Raise ValueError, w1)) /\
      (evens <> [] -> length evens = length odds ->
       DDW.locate_halfsets p "evens" "odds" "mrc" w = (Ok (combine evens odds), w1) /\
       length (combine evens odds) = length evens /\
       map fst (combine evens odds) = evens /\
       map snd (combine evens odds) = odds).
Proof.
  intros p w evens odds.
  exists ("Found " ++ Py.str (Z.of_nat (length evens)) ++ " evens and "
          ++ Py.str (Z.of_nat (length odds)) ++ " odds").
  intros w1.
  assert (Hrun : forall B (k : unit -> M B),
             DDW.locate_halfsets p "evens" "odds" "mrc" w =
             (if Nat.eqb (length evens) 0 && Nat.eqb (length odds) 0
              then log ERROR ("HALFSETS NOT FOUND WITHIN PATH " ++ name_of p) ;;;
                   raise FileNotFoundError
              else DDW.zip_strict evens odds) w1).
  { intros _ _. unfold DDW.locate_halfsets. run_step. run_step. reflexivity. }
  specialize (Hrun unit ret).
  split; [|split].
  - intros [He Ho]. rewrite Hrun. rewrite He, Ho. cbn [length Nat.eqb andb].
    eexists. split; [run_step; reflexivity|].
    split; [reflexivity|]. split.
    + cbn [trace w1 with_events]. rewrite !errors_app. cbn. rewrite !length_app.
      cbn. lia.
    + intros sampler and_then. unfold DDW.main.
      apply bind_raise. rewrite Hrun. rewrite He, Ho. cbn [length Nat.eqb andb].
      run_step. reflexivity.
  - intros Hne Hlen.
    assert (Hc : Nat.eqb (length evens) 0 && Nat.eqb (length odds) 0 = false).
    { apply not_true_is_false. intros Hc. apply andb_true_iff in Hc.
      apply Hne. split; apply length_zero_eqb; apply Hc. }
    assert (E : DDW.locate_halfsets p "evens" "odds" "mrc" w = (Raise ValueError, w1)).
    { rewrite Hrun, Hc. unfold DDW.zip_strict.
      apply Nat.eqb_neq in Hlen. now rewrite Hlen. }
    split; [exact E|].
    intros sampler and_then. unfold DDW.main. now apply bind_raise.
  - intros Hne Hlen.
    assert (Hc : Nat.eqb (length evens) 0 && Nat.eqb (length odds) 0 = false).
    { apply andb_false_iff. left. apply not_true_is_false. intros Hc.
      apply Hne. now apply length_zero_eqb. }
    split.
    + rewrite Hrun, Hc. unfold DDW.zip_strict.
      apply Nat.eqb_eq in Hlen. now rewrite Hlen.
    + split; [rewrite length_combine; lia|].
      split.
      * clear - Hlen. revert Hlen. generalize odds. induction evens as [|e es IH];
          intros [|o os] H; cbn in *; try discriminate; try reflexivity.
        f_equal. apply IH. now injection H.
      * clear - Hlen. revert Hlen. generalize odds. induction evens as [|e es IH];
          intros [|o os] H; cbn in *; try discriminate; try reflexivity.
        f_equal. apply IH. now injection H.
Qed.

(** ** Moving the half-set volumes *)

Lemma mkdir_exist_ok_run p w :
  lookup p (fs w) = None \/ lookup p (fs w) = Some Directory ->
  exists w',
    mkdir_exist_ok p w = (Ok tt, w') /\
    stdout_of w' = stdout_of w /\ trace w' = trace w /\
    lookup p (fs w') = Some Directory /\
    forall q, p <> q -> lookup q (fs w') = lookup q (fs w).
Proof.
  intros [H|H]; unfold mkdir_exist_ok; run_step; rewrite H.
  - eexists. split; [reflexivity|]. cbn [fs stdout_of trace].
    split; [reflexivity|]. split; [reflexivity|].
    split; [apply lookup_store_same|].
    intros q Hq. now apply lookup_store_other.
  - exists w. split; [reflexivity|]. split; [reflexivity|]. split; [reflexivity|].
    split; [exact H | reflexivity].
Qed.

Lemma rename_run src dst w n :
  lookup src (fs w) = Some n ->
  lookup dst (fs w) <> Some Directory ->
  exists w',
    rename src dst w = (Ok tt, w') /\
    stdout_of w' = stdout_of w /\ trace w' = trace w /\
    lookup dst (fs w') = Some n /\
    (src <> dst -> lookup src (fs w') = None) /\
    forall q, src <> q -> dst <> q -> lookup q (fs w') = lookup q (fs w).
Proof.
  intros Hs Hd. unfold rename. run_step. rewrite Hs.
  exists (mkWorld (store dst n (remove src (fs w))) (stdout_of w) (trace w)).
  split.
  - destruct (lookup dst (fs w)) as [[| |]|]; try reflexivity. now contradiction Hd.
  - cbn [fs stdout_of trace]. split; [reflexivity|]. split; [reflexivity|].
    split; [apply lookup_store_same|]. split.
    + intros Hne. rewrite lookup_store_other by (now apply not_eq_sym).
      apply lookup_remove_same.
    + intros q H1 H2. rewrite lookup_store_other by assumption.
      now apply lookup_remove_other.
Qed.

Lemma subtransfer_loop_raises (odds : list path) (evens : list path) :
  forall i w,
    i <= length odds -> length odds < i + length evens ->
    exists e w',
      for_enumerate (fun i f =>
        let subdir := joinpath (parent_of f) "halfsets" in
        mkdir_exist_ok subdir ;;;
        rename f (joinpath subdir (name_of f)) ;;;
        odd <- at_index odds i ;;
        rename odd (joinpath subdir (name_of odd))) i evens w = (Raise e, w').
Proof.
  induction evens as [|x evens IH]; intros i w Hi Hlen; cbn [length] in Hlen.
  - lia.
  - cbn [for_enumerate]. cbv zeta. unfold bind at 1.
    match goal with
    | |- context [match ?c w with _ => _ end] => destruct (c w) as [[[]|e] w1] eqn:E
    end.
    + assert (Hlt : i < length odds).
      { destruct (Nat.eq_dec i (length odds)) as [->|]; [|lia].
        exfalso. unfold bind in E.
        destruct (mkdir_exist_ok _ w) as [[[]|?] wa]; [|discriminate].
        destruct (rename x _ wa) as [[[]|?] wb]; [|discriminate].
        unfold at_index in E.
        rewrite (proj2 (nth_error_None odds (length odds)) (Nat.le_refl _)) in E.
        discriminate. }
      apply IH; lia.
    + eauto.
Qed.

Lemma bind_keeps_trace {A B} (c : M A) (k : A -> M B) :
  (forall w, trace (snd (c w)) = trace w) ->
  (forall a w, trace (snd (k a w)) = trace w) ->
  forall w, trace (snd (bind c k w)) = trace w.
Proof.
  intros Hc Hk w. unfold bind. specialize (Hc w).
  destruct (c w) as [[a|e] w1]; cbn [snd] in *; [|exact Hc].
  now rewrite Hk.
Qed.

Lemma mkdir_keeps_trace p w : trace (snd (mkdir_exist_ok p w)) = trace w.
Proof.
  unfold mkdir_exist_ok, bind, get_fs.
  destruct (lookup p (fs w)) as [[| |]|]; reflexivity.
Qed.

Lemma rename_keeps_trace src dst w : trace (snd (rename src dst w)) = trace w.
Proof.
  unfold rename, bind, get_fs.
  destruct (lookup src (fs w)) as [n|]; [|reflexivity].
  destruct (lookup dst (fs w)) as [[| |]|]; reflexivity.
Qed.

Lemma at_index_keeps_trace {A} (l : list A) i w :
  trace (snd (at_index l i w)) = trace w.
Proof. unfold at_index. destruct (nth_error l i); reflexivity. Qed.

Lemma subtransfer_loop_keeps_trace (odds evens : list path) :
  forall i w,
    trace (snd (for_enumerate (fun i f =>
      let subdir := joinpath (parent_of f) "halfsets" in
      mkdir_exist_ok subdir ;;;
      rename f (joinpath subdir (name_of f)) ;;;
      odd <- at_index odds i ;;
      rename odd (joinpath subdir (name_of odd))) i evens w)) = trace w.
Proof.
  induction evens as [|x evens IH]; intros i w; [reflexivity|].
  cbn [for_enumerate]. apply bind_keeps_trace; [|intros _ w1; apply IH].
  intros w1. cbv zeta.
  apply bind_keeps_trace; [apply mkdir_keeps_trace|]. intros _ w2.
  apply bind_keeps_trace; [apply rename_keeps_trace|]. intros _ w3.
  apply bind_keeps_trace; [apply at_index_keeps_trace|]. intros odd w4.
  apply rename_keeps_trace.
Qed.

(** X10. [subtransfer] walks the even files and takes the odd file
    with the same index.  When it lists fewer odd files than even ones
    (one dataset whose odd half was not produced is enough), it never
    returns normally: it raises, having logged its opening record and
    nothing else, so the "Completed transfer" record is missing. *)
Theorem subtransfer_raises_on_missing_odds :
  forall (p : path) (w : World),
    let evens := filter (fun x => negb (Py.contains "full" (name_of x)))
                        (rglob p "*_rec_evens.mrc" (fs w)) in
    let odds := filter (fun x => negb (Py.contains "full" (name_of x)))
                       (rglob p "*_rec_odds.mrc" (fs w)) in
    length odds < length evens ->
    exists (e : exn) (w' : World),
      subtransfer p w = (Raise e, w') /\
      trace w' =
        (trace w ++
         [Log INFO (Py.NL ++ "Transferring halfset reconstructions into subdirectory "
                    ++ DQUOTE ++ "halfsets" ++ DQUOTE)])%list.
Proof.
  intros p w evens odds Hlen.
  unfold subtransfer. run_step. run_step. fold evens odds.
  match goal with
  | |- context [bind (for_enumerate ?body 0 evens) ?k ?w0] =>
      destruct (subtransfer_loop_raises odds evens 0 w0 (Nat.le_0_l _) Hlen)
        as [e [w' E]];
      pose proof (subtransfer_loop_keeps_trace odds evens 0 w0) as Ht
  end.
  exists e, w'. rewrite (bind_raise _ _ _ _ _ E).
  split; [reflexivity|]. rewrite E in Ht. exact Ht.
Qed.

Lemma subtransfer_raises_on_missing_odds_witness :
  exists (e : exn) (w' : World),
    subtransfer "/out" lone_even_world = (Raise e, w') /\
    trace w' =
      (trace lone_even_world ++
       [Log INFO (Py.NL ++ "Transferring halfset reconstructions into subdirectory "
                  ++ DQUOTE ++ "halfsets" ++ DQUOTE)])%list.
Proof.
  apply (subtransfer_raises_on_missing_odds "/out" lone_even_world).
  vm_compute. lia.
Defined.

Lemma skipn_cons {A} (l : list A) i x rest :
  skipn i l = x :: rest -> nth_error l i = Some x /\ skipn (S i) l = rest.
Proof.
  revert l. induction i as [|i IH]; intros l H.
  - destruct l as [|y l]; [discriminate|]. cbn in H. injection H as -> ->.
    split; reflexivity.
  - destruct l as [|y l]; [discriminate|]. cbn [skipn nth_error] in *.
    now apply IH.
Qed.

Ltac neq := first [assumption | apply not_eq_sym; assumption].

Lemma subtransfer_loop_moves (all_odds : list path) (evens : list path) :
  forall i odds w,
    skipn i all_odds = odds ->
    transferable (fs w) evens odds ->
    exists w',
      for_enumerate (fun i f =>
        let subdir := joinpath (parent_of f) "halfsets" in
        mkdir_exist_ok subdir ;;;
        rename f (joinpath subdir (name_of f)) ;;;
        odd <- at_index all_odds i ;;
        rename odd (joinpath subdir (name_of odd))) i evens w = (Ok tt, w') /\
      trace w' = trace w /\
      (forall s t, In (s, t) (transfer_moves evens odds) ->
                   lookup t (fs w') = lookup s (fs w) /\ lookup s (fs w') = None) /\
      (forall d, In d (transfer_dirs evens) -> lookup d (fs w') = Some Directory) /\
      (forall q, ~ In q (touched (transfer_moves evens odds)) ->
                 ~ In q (transfer_dirs evens) ->
                 lookup q (fs w') = lookup q (fs w)).
Proof.
  induction evens as [|e es IH]; intros i odds w Hskip T.
  - exists w. split; [reflexivity|]. split; [reflexivity|].
    split; [intros s t []|]. split; [intros d []|]. reflexivity.
  - destruct T as [Hlen Hnd Hsrc Htgt Hda Hdf].
    destruct odds as [|o os]; [cbn in Hlen; lia|].
    destruct (skipn_cons _ _ _ _ Hskip) as [Hnth Hskip'].
    set (sub := joinpath (parent_of e) "halfsets") in *.
    set (te := joinpath sub (name_of e)) in *.
    set (to := joinpath sub (name_of o)) in *.
    cbn [transfer_moves] in Hnd, Hsrc, Htgt, Hda. fold sub te to in Hnd, Hsrc, Htgt, Hda.
    cbn [touched flat_map fst snd app] in Hnd, Hda.
    fold (touched (transfer_moves es os)) in Hnd, Hda.
    set (T' := touched (transfer_moves es os)) in *.
    cbn [transfer_dirs map] in Hda, Hdf. fold sub in Hda, Hdf.
    fold (transfer_dirs es) in Hda, Hdf.
    apply NoDup_cons_iff in Hnd. destruct Hnd as [He Hnd1].
    apply NoDup_cons_iff in Hnd1. destruct Hnd1 as [Hte Hnd2].
    apply NoDup_cons_iff in Hnd2. destruct Hnd2 as [Ho Hnd3].
    apply NoDup_cons_iff in Hnd3. destruct Hnd3 as [Hto Hnd4].
    assert (Hsub : ~ In sub (e :: te :: o :: to :: T')) by (apply Hda; now left).
    assert (Se : sub <> e) by (intros E; apply Hsub; rewrite E; now left).
    assert (Ste : sub <> te) by (intros E; apply Hsub; rewrite E; right; now left).
    assert (So : sub <> o) by (intros E; apply Hsub; rewrite E; right; right; now left).
    assert (Sto : sub <> to)
      by (intros E; apply Hsub; rewrite E; right; right; right; now left).
    assert (Ete : e <> te) by (intros E; apply He; rewrite <- E; now left).
    assert (Eo : e <> o) by (intros E; apply He; rewrite <- E; right; now left).
    assert (Eto : e <> to) by (intros E; apply He; rewrite <- E; right; right; now left).
    assert (Teo : te <> o) by (intros E; apply Hte; rewrite <- E; now left).
    assert (Teto : te <> to) by (intros E; apply Hte; rewrite <- E; right; now left).
    assert (Oto : o <> to) by (intros E; apply Ho; rewrite <- E; now left).
    destruct (lookup e (fs w)) as [ne|] eqn:Le;
      [|exfalso; apply (Hsrc e te); [now left | exact Le]].
    destruct (lookup o (fs w)) as [no|] eqn:Lo;
      [|exfalso; apply (Hsrc o to); [right; now left | exact Lo]].
    (* make sure of the directory *)
    destruct (mkdir_exist_ok_run sub w (Hdf sub (or_introl eq_refl)))
      as [wa [Ea [_ [Ta [Da Oa]]]]].
    (* move the even file *)
    destruct (rename_run e te wa ne) as [wb [Eb [_ [Tb [Gb [Nb Ob]]]]]].
    { rewrite Oa by exact Se. exact Le. }
    { rewrite Oa by exact Ste. apply (Htgt e te). now left. }
    (* move the odd file with the same index *)
    destruct (rename_run o to wb no) as [wc [Ec [_ [Tc [Gc [Nc Oc]]]]]].
    { rewrite Ob by neq. rewrite Oa by exact So. exact Lo. }
    { rewrite Ob by neq. rewrite Oa by exact Sto.
      apply (Htgt o to). right. now left. }
    assert (Hstep : forall q, sub <> q -> e <> q -> te <> q -> o <> q -> to <> q ->
                              lookup q (fs wc) = lookup q (fs w)).
    { intros q H1 H2 H3 H4 H5.
      rewrite Oc by neq. rewrite Ob by neq. now apply Oa. }
    assert (Hout : forall q, In q T' ->
                             sub <> q /\ e <> q /\ te <> q /\ o <> q /\ to <> q).
    { intros q Hq. repeat split; intros E; subst q.
      - apply Hsub. right; right; right; right. exact Hq.
      - apply He. right; right; right. exact Hq.
      - apply Hte. right; right. exact Hq.
      - apply Ho. right. exact Hq.
      - apply Hto. exact Hq. }
    assert (Hin : forall s t, In (s, t) (transfer_moves es os) -> In s T' /\ In t T').
    { intros s t Hst. unfold T', touched. split; apply in_flat_map;
        exists (s, t); (split; [exact Hst|]); cbn; auto. }
    assert (Hdirs : forall d, In d (transfer_dirs es) ->
                              e <> d /\ te <> d /\ o <> d /\ to <> d /\ ~ In d T').
    { intros d Hd.
      assert (Hn : ~ In d (e :: te :: o :: to :: T')) by (apply Hda; now right).
      repeat split; try (intros E; subst d; apply Hn; cbn; tauto).
      intros Hq. apply Hn. cbn. tauto. }
    assert (T1 : transferable (fs wc) es os).
    { constructor.
      - cbn in Hlen. lia.
      - exact Hnd4.
      - intros s t Hst. destruct (Hin s t Hst) as [Hs _].
        destruct (Hout s Hs) as [H1 [H2 [H3 [H4 H5]]]].
        rewrite Hstep by neq. apply (Hsrc s t). right; right. exact Hst.
      - intros s t Hst. destruct (Hin s t Hst) as [_ Ht].
        destruct (Hout t Ht) as [H1 [H2 [H3 [H4 H5]]]].
        rewrite Hstep by neq. apply (Htgt s t). right; right. exact Hst.
      - intros d Hd. apply (Hdirs d Hd).
      - intros d Hd. destruct (Hdirs d Hd) as [H2 [H3 [H4 [H5 _]]]].
        destruct (string_dec sub d) as [E|E].
        + subst d. right. rewrite Oc by neq. rewrite Ob by neq.
          exact Da.
        + rewrite Hstep by neq. apply Hdf. now right. }
    destruct (IH (S i) os wc Hskip' T1) as [w' [E' [Tr' [Hm [Hd Ho']]]]].
    exists w'. split.
    { cbn [for_enumerate]. cbv zeta. fold sub te.
      rewrite bind_assoc. rewrite (bind_ok _ _ _ _ _ Ea).
      rewrite bind_assoc. rewrite (bind_ok _ _ _ _ _ Eb).
      rewrite bind_assoc.
      assert (Hat : at_index all_odds i wb = (Ok o, wb))
        by (unfold at_index; now rewrite Hnth).
      rewrite (bind_ok _ _ _ _ _ Hat). fold to.
      rewrite (bind_ok _ _ _ _ _ Ec). exact E'. }
    split; [congruence|].
    assert (Hkeep : forall q, In q [e; te; o; to] -> lookup q (fs w') = lookup q (fs wc)).
    { intros q Hq. apply Ho'.
      - intros Hq'. destruct (Hout q Hq') as [_ [H2 [H3 [H4 H5]]]].
        cbn in Hq. intuition congruence.
      - intros Hq'. destruct (Hdirs q Hq') as [H2 [H3 [H4 [H5 _]]]].
        cbn in Hq. intuition congruence. }
    split; [|split].
    + intros s t Hst. cbn [transfer_moves] in Hst. fold sub te to in Hst.
      destruct Hst as [Hst|[Hst|Hst]].
      * injection Hst as <- <-.
        rewrite !Hkeep by (cbn; tauto).
        split.
        -- rewrite Oc by neq. rewrite Gb. now rewrite Le.
        -- rewrite Oc by neq. now apply Nb.
      * injection Hst as <- <-.
        rewrite !Hkeep by (cbn; tauto).
        split; [rewrite Gc; now rewrite Lo | now apply Nc].
      * destruct (Hm s t Hst) as [H1 H2]. split; [|exact H2].
        rewrite H1. destruct (Hin s t Hst) as [Hs _].
        destruct (Hout s Hs) as [A1 [A2 [A3 [A4 A5]]]]. now apply Hstep.
    + intros d Hd0. cbn [transfer_dirs map] in Hd0. fold sub in Hd0.
      fold (transfer_dirs es) in Hd0.
      destruct (in_dec string_dec d (transfer_dirs es)) as [Hi|Hni];
        [now apply Hd|].
      destruct Hd0 as [<-|Hd0]; [|contradiction].
      rewrite Ho'.
      * rewrite Oc by neq. rewrite Ob by neq. exact Da.
      * intros Hq. apply Hsub. right; right; right; right. exact Hq.
      * exact Hni.
    + intros q Hq Hqd. cbn [transfer_moves] in Hq. fold sub te to in Hq.
      cbn [touched flat_map fst snd app] in Hq.
      fold (touched (transfer_moves es os)) in Hq.
      cbn [transfer_dirs map] in Hqd. fold sub in Hqd. fold (transfer_dirs es) in Hqd.
      rewrite Ho'.
      * apply Hstep; intros E; subst q; first [apply Hqd; now left | apply Hq; cbn; tauto].
      * intros Hq'. apply Hq. cbn. tauto.
      * intros Hq'. apply Hqd. now right.
Qed.

Lemma transfer_moves_at evens odds i e o :
  nth_error evens i = Some e -> nth_error odds i = Some o ->
  In (e, joinpath (joinpath (parent_of e) "halfsets") (name_of e))
     (transfer_moves evens odds) /\
  In (o, joinpath (joinpath (parent_of e) "halfsets") (name_of o))
     (transfer_moves evens odds) /\
  In (joinpath (parent_of e) "halfsets") (transfer_dirs evens).
Proof.
  revert odds i. induction evens as [|x evens IH]; intros odds i He Ho.
  - destruct i; discriminate.
  - destruct odds as [|y odds]; [destruct i; discriminate|].
    destruct i as [|i]; cbn [nth_error] in He, Ho.
    + injection He as ->. injection Ho as ->. cbn. auto.
    + destruct (IH odds i He Ho) as [H1 [H2 H3]].
      cbn [transfer_moves transfer_dirs map]. repeat split.
      * right. right. exact H1.
      * right. right. exact H2.
      * right. exact H3.
Qed.

(** X11. When its moves do not get in each other's way, [subtransfer]
    returns normally, runs no command, and pairs the files by position
    in the two listings, not by name or directory: the i-th even file
    and the i-th odd file both end up in the [halfsets] directory next
    to the i-th EVEN file, with the content they had, and are gone from
    where they were; every path that is neither moved, nor a target,
    nor one of those directories keeps its content. *)
Theorem subtransfer_pairs_by_position :
  forall (p : path) (w : World),
    let evens := filter (fun x => negb (Py.contains "full" (name_of x)))
                        (rglob p "*_rec_evens.mrc" (fs w)) in
    let odds := filter (fun x => negb (Py.contains "full" (name_of x)))
                       (rglob p "*_rec_odds.mrc" (fs w)) in
    transferable (fs w) evens odds ->
    exists w' : World,
      subtransfer p w = (Ok tt, w') /\
      commands (trace w') = commands (trace w) /\
      (forall i e o,
          nth_error evens i = Some e -> nth_error odds i = Some o ->
          let subdir := joinpath (parent_of e) "halfsets" in
          lookup subdir (fs w') = Some Directory /\
          lookup (joinpath subdir (name_of e)) (fs w') = lookup e (fs w) /\
          lookup (joinpath subdir (name_of o)) (fs w') = lookup o (fs w) /\
          lookup e (fs w') = None /\
          lookup o (fs w') = None) /\
      (forall q, ~ In q (touched (transfer_moves evens odds)) ->
                 ~ In q (transfer_dirs evens) ->
                 lookup q (fs w') = lookup q (fs w)).
Proof.
  intros p w evens odds T.
  unfold subtransfer. run_step. run_step. fold evens odds.
  match goal with
  | |- context [bind (for_enumerate ?body 0 evens) ?k ?w0] =>
      destruct (subtransfer_loop_moves odds evens 0 odds w0 eq_refl T)
        as [w1 [E [Ht [Hm [Hd Ho]]]]]
  end.
  rewrite (bind_ok _ _ _ _ _ E). rewrite log_run.
  cbn [fs trace] in Ht, Hm, Ho.
  eexists. split; [reflexivity|]. cbn [fs trace with_events].
  split; [rewrite Ht, !commands_app; cbn; now rewrite !app_nil_r|].
  split.
  - intros i e o He Hoi. cbv zeta.
    destruct (transfer_moves_at evens odds i e o He Hoi) as [H1 [H2 H3]].
    destruct (Hm _ _ H1) as [A1 A2]. destruct (Hm _ _ H2) as [B1 B2].
    split; [now apply Hd|]. repeat split; assumption.
  - exact Ho.
Qed.

Lemma halves_transferable :
  transferable halves_fs
    ["/out/ds1/a_rec_evens.mrc"; "/out/ds2/b_rec_evens.mrc"]
    ["/out/ds1/a_rec_odds.mrc"; "/out/ds2/b_rec_odds.mrc"].
Proof.
  constructor.
  - cbn. lia.
  - vm_compute. repeat (constructor; [cbn; intuition discriminate|]). constructor.
  - intros s t H. vm_compute in H.
    repeat (destruct H as [H|H]; [injection H as <- <-; vm_compute; discriminate|]).
    contradiction.
  - intros s t H. vm_compute in H.
    repeat (destruct H as [H|H]; [injection H as <- <-; vm_compute; discriminate|]).
    contradiction.
  - intros d H. vm_compute in H.
    repeat (destruct H as [H|H]; [subst d; vm_compute; intuition discriminate|]).
    contradiction.
  - intros d H. vm_compute in H.
    repeat (destruct H as [H|H]; [subst d; vm_compute; now left|]).
    contradiction.
Qed.

Lemma subtransfer_pairs_by_position_witness :
  let evens := filter (fun x => negb (Py.contains "full" (name_of x)))
                      (rglob "/out" "*_rec_evens.mrc" (fs halves_world)) in
  let odds := filter (fun x => negb (Py.contains "full" (name_of x)))
                     (rglob "/out" "*_rec_odds.mrc" (fs halves_world)) in
  exists w' : World,
    subtransfer "/out" halves_world = (Ok tt, w') /\
    commands (trace w') = commands (trace halves_world) /\
    (forall i e o,
        nth_error evens i = Some e -> nth_error odds i = Some o ->
        let subdir := joinpath (parent_of e) "halfsets" in
        lookup subdir (fs w') = Some Directory /\
        lookup (joinpath subdir (name_of e)) (fs w') = lookup e (fs halves_world) /\
        lookup (joinpath subdir (name_of o)) (fs w') = lookup o (fs halves_world) /\
        lookup e (fs w') = None /\
        lookup o (fs w') = None) /\
    (forall q, ~ In q (touched (transfer_moves evens odds)) ->
               ~ In q (transfer_dirs evens) ->
               lookup q (fs w') = lookup q (fs halves_world)).
Proof.
  apply (subtransfer_pairs_by_position "/out" halves_world).
  exact halves_transferable.
Defined.

(** ** A whole batch *)

Lemma process_dataset_files d w name fx fy fz rx ry rz :
  renderable d (fs w) name fx fy fz rx ry rz ->
  tilt_source_ok d (fs w) rx ->
  let prog := state_of (present d (name ++ ".xf") (fs w))
                       (present d (name ++ "_ali.mrc") (fs w))
                       (present d (name ++ ".tlt") (fs w))
                       (present d (name ++ ".xtilt") (fs w)) in
  prog <> 0%Z ->
  exists msg w2 te to evs,
    rendering d name prog (with_events w [Log INFO msg]) w2 te to /\
    process_dataset d w = (Ok tt, with_events w2 evs).
Proof.
  intros Hr Hs prog Hprog.
  destruct (check_metadata_run d w name (has_name _ _ _ _ _ _ _ _ _ Hr)) as [msg E1].
  fold prog in E1.
  set (w1 := with_events w [Log INFO msg]) in *.
  destruct (rendering_exists d prog w1 name fx fy fz rx ry rz Hr Hs)
    as [w2 [te [to [Hc R]]]].
  assert (Hn2 : find_name d (fs w2) = Some name).
  { rewrite (find_name_rendering _ _ _ _ _ _ _ R). apply (has_name _ _ _ _ _ _ _ _ _ Hr). }
  assert (H : exists evs, process_dataset d w = (Ok tt, with_events w2 evs)).
  { unfold process_dataset.
    rewrite (bind_ok _ _ _ _ _ E1).
    apply Z.eqb_neq in Hprog. rewrite Hprog.
    rewrite (bind_ok _ _ _ _ _ Hc).
    destruct (Z.eqb prog 2) eqn:E2.
    - rewrite bind_assoc.
      destruct (newstack_run d w2 name Hn2) as [b [o [e E3]]].
      rewrite (bind_ok _ _ _ _ _ E3).
      destruct (succeeded (stdout_of w2 d "subm newst.com")) eqn:Hok; cbn [negb].
      + run_step.
        match goal with
        | |- context [bind (tilt d) ?k ?w3] =>
            destruct (reconstruct_and_rotate_run d w3 name Hn2) as [evs3 [E4 _]]
        end.
        rewrite E4, with_events_app. eexists. reflexivity.
      + rewrite bind_assoc. run_step. run_step. unfold ret.
        exists (call_events d b "subm newst.com" (stdout_of w2 d "subm newst.com") o e
                ++ [Log ERROR (name_of d ++ " -- Error in newstack. Terminating this dataset...")])%list.
        unfold with_events. cbn [fs stdout_of trace]. now rewrite <- app_assoc.
    - run_step.
      destruct (reconstruct_and_rotate_run d w2 name Hn2) as [evs3 [E4 _]].
      rewrite E4. eexists. reflexivity. }
  destruct H as [evs H]. exists msg, w2, te, to, evs. split; assumption.
Qed.

Lemma string_length_app (a b : string) :
  String.length (a ++ b) = String.length a + String.length b.
Proof. induction a as [|x a IH]; cbn; [reflexivity | now rewrite IH]. Qed.

(** Two texts that end a common text and have the same length are equal. *)
Lemma append_suffix_eq (a b s t : string) :
  String.length s = String.length t -> a ++ s = b ++ t -> s = t.
Proof.
  intros Hl H.
  assert (La : String.length a = String.length b).
  { apply (f_equal String.length) in H. rewrite !string_length_app in H. lia. }
  clear Hl. revert b La H.
  induction a as [|x a IH]; intros [|y b] La H; cbn in *; try discriminate.
  - exact H.
  - injection H as _ H. apply (IH b); [lia | exact H].
Qed.

(** No dataset's job file is the [tilt.com] of a dataset. *)
Lemma template_is_no_job_file d d' : job_file d (joinpath d' "tilt.com") = false.
Proof.
  unfold job_file, joinpath.
  repeat (apply orb_false_iff; split); apply String.eqb_neq; intros H.
  - replace (d ++ "/" ++ "newst.com") with ((d ++ "/") ++ "newst.com") in H
      by (now rewrite append_assoc).
    apply (append_suffix_eq d' (d ++ "/") "/tilt.com" "newst.com") in H;
      [discriminate | reflexivity].
  - replace (d ++ "/" ++ "tilt_evens.com") with ((d ++ "/tilt_") ++ "evens.com") in H
      by (now rewrite append_assoc).
    apply (append_suffix_eq d' (d ++ "/tilt_") "/tilt.com" "evens.com") in H;
      [discriminate | reflexivity].
  - replace (d ++ "/" ++ "tilt_odds.com") with ((d ++ "/tilt") ++ "_odds.com") in H
      by (now rewrite append_assoc).
    apply (append_suffix_eq d' (d ++ "/tilt") "/tilt.com" "_odds.com") in H;
      [discriminate | reflexivity].
Qed.

Lemma job_file_last_char d q : job_file d q = true -> last_char q = Some "m"%char.
Proof.
  intros H. destruct (job_file_cases d q H) as [E|[E|E]]; subst q;
    unfold joinpath; rewrite last_char_app by discriminate; reflexivity.
Qed.

Lemma no_job_file_by_last_char d q c :
  last_char q = Some c -> c <> "m"%char -> job_file d q = false.
Proof.
  intros Hl Hc. destruct (job_file d q) eqn:E; [|reflexivity].
  apply job_file_last_char in E. congruence.
Qed.

Lemma child_name_last_char d q n : child_name d q = Some n -> last_char q = last_char n.
Proof.
  unfold child_name, below. intros H.
  destruct (strip_prefix (d ++ "/") q) as [r|] eqn:E; [|discriminate].
  apply strip_prefix_inv in E. subst q.
  destruct r as [|a r]; [discriminate|].
  destruct (Py.contains "/" (String a r)); [discriminate|].
  injection H as <-. apply last_char_app. discriminate.
Qed.

Lemma last_char_split s c :
  last_char s = Some c -> exists pre, s = pre ++ String c EmptyString.
Proof.
  induction s as [|a s IH]; [discriminate|].
  destruct s as [|b s].
  - cbn. intros H. injection H as ->. now exists EmptyString.
  - intros H. destruct (IH H) as [pre E]. exists (String a pre). cbn. now rewrite <- E.
Qed.

Lemma changed_only_refl ds f : changed_only ds f f.
Proof. split; reflexivity. Qed.

Lemma changed_only_rendering ds f d name status w w' te to :
  In d ds -> changed_only ds f (fs w) -> rendering d name status w w' te to ->
  changed_only ds f (fs w').
Proof.
  intros Hd [Ha Hb] R. split.
  - intros q Hq. rewrite (r_other _ _ _ _ _ _ _ R) by (now apply Hq). now apply Ha.
  - intros P HP. rewrite (r_listing _ _ _ _ _ _ _ R) by (intros q; now apply HP).
    now apply Hb.
Qed.

(** A listing by a pattern that ends in a literal character other than
    [m] does not see the job files. *)
Lemma glob_changed_only ds f f' d pat c :
  changed_only ds f f' ->
  last_char pat = Some c -> c <> "m"%char -> c <> "*"%char -> c <> "?"%char ->
  glob d pat f' = glob d pat f.
Proof.
  intros [_ Hb] Hl Hm Hs Hq. rewrite !glob_listing. apply Hb.
  intros d0 q _ Hj. destruct (child_name d q) as [n|] eqn:E; [|reflexivity].
  destruct (Py.fnmatch pat n) eqn:F; [|reflexivity].
  destruct (last_char_split _ _ Hl) as [pre ->].
  apply fnmatch_last_char in F; [|assumption|assumption].
  apply child_name_last_char in E. apply job_file_last_char in Hj. congruence.
Qed.

Lemma lookup_changed_only ds f f' q c :
  changed_only ds f f' -> last_char q = Some c -> c <> "m"%char ->
  lookup q f' = lookup q f.
Proof.
  intros [Ha _] Hl Hc. apply Ha. intros d _.
  now apply (no_job_file_by_last_char d q c).
Qed.

Lemma find_name_changed_only ds f f' d :
  changed_only ds f f' -> find_name d f' = find_name d f.
Proof.
  intros H. unfold find_name, rec_volumes.
  now rewrite (glob_changed_only ds f f' d "*_rec.mrc" "c"%char H).
Qed.

Lemma present_changed_only ds f f' d name suffix c :
  changed_only ds f f' -> suffix <> EmptyString -> last_char suffix = Some c ->
  c <> "m"%char -> c <> "*"%char -> c <> "?"%char ->
  present d (name ++ suffix) f' = present d (name ++ suffix) f.
Proof.
  intros H Hne Hl Hm Hs Hq. unfold present.
  rewrite (glob_changed_only ds f f' d (name ++ suffix) c H); try assumption.
  - reflexivity.
  - now apply last_char_suffix.
Qed.

Lemma state_in_changed_only ds f f' d :
  changed_only ds f f' -> state_in d f' = state_in d f.
Proof.
  intros H. unfold state_in, name_in. rewrite (find_name_changed_only ds f f' d H).
  rewrite (present_changed_only ds f f' d _ ".xf" "f"%char H),
          (present_changed_only ds f f' d _ "_ali.mrc" "c"%char H),
          (present_changed_only ds f f' d _ ".tlt" "t"%char H),
          (present_changed_only ds f f' d _ ".xtilt" "t"%char H);
    (reflexivity || discriminate).
Qed.

Lemma child_path_last_char d x c :
  x <> EmptyString -> last_char x = Some c -> last_char (joinpath d x) = Some c.
Proof.
  intros Hx Hl. unfold joinpath.
  replace (d ++ "/" ++ x) with ((d ++ "/") ++ x) by apply append_assoc.
  now rewrite last_char_app.
Qed.

Lemma ready_changed_only ds f f' d :
  changed_only ds f f' -> ready d f -> ready d f'.
Proof.
  intros H [fx [fy [fz [rx [ry [rz [[Hn Hm Hraw Hrec] [Hs Hst]]]]]]]].
  exists fx, fy, fz, rx, ry, rz.
  assert (En : name_in d f' = name_in d f).
  { unfold name_in. now rewrite (find_name_changed_only ds f f' d H). }
  rewrite En. split; [constructor|split].
  - now rewrite (find_name_changed_only ds f f' d H).
  - rewrite (glob_changed_only ds f f' d _ "c"%char H); try discriminate; [exact Hm|].
    apply last_char_suffix; [discriminate | reflexivity].
  - rewrite (lookup_changed_only ds f f' _ "c"%char H); [exact Hraw | | discriminate].
    apply child_path_last_char.
    + destruct (name_in d f); discriminate.
    + apply last_char_suffix; [discriminate | reflexivity].
  - rewrite (lookup_changed_only ds f f' _ "c"%char H); [exact Hrec | | discriminate].
    apply child_path_last_char.
    + destruct (name_in d f); discriminate.
    + apply last_char_suffix; [discriminate | reflexivity].
  - unfold tilt_source_ok in *. destruct H as [Ha _].
    rewrite Ha; [exact Hs|]. intros d0 _. apply template_is_no_job_file.
  - now rewrite (state_in_changed_only ds f f' d (conj (proj1 H) (proj2 H))).
Qed.

Lemma is_text_rendering d name status w w' te to q :
  rendering d name status w w' te to ->
  is_text q (fs w) = true -> is_text q (fs w') = true.
Proof.
  intros R. unfold is_text. destruct (job_file d q) eqn:Hq.
  - destruct (job_file_cases d q Hq) as [E|[E|E]]; subst q.
    + rewrite (r_newst _ _ _ _ _ _ _ R). destruct (Z.eqb status 2); [reflexivity | tauto].
    + now rewrite (r_evens _ _ _ _ _ _ _ R).
    + now rewrite (r_odds _ _ _ _ _ _ _ R).
  - now rewrite (r_other _ _ _ _ _ _ _ R q Hq).
Qed.

Lemma in_errors_last pre msg : In msg (errors (pre ++ [Log ERROR msg])%list).
Proof. rewrite errors_app. apply in_or_app. right. now left. Qed.

(** The loop over datasets that are ready in the world [w0] the batch
    started from, run from a later world [w] of the same batch. *)
Lemma batch_run (all : list path) (w0 : World) :
  forall ds w,
    incl ds all ->
    changed_only all (fs w0) (fs w) ->
    stdout_of w = stdout_of w0 ->
    (forall d, In d ds -> ready d (fs w0)) ->
    exists w' evs,
      for_each process_dataset ds w = (Ok tt, w') /\
      trace w' = (trace w ++ evs)%list /\
      changed_only all (fs w0) (fs w') /\
      (forall q, is_text q (fs w) = true -> is_text q (fs w') = true) /\
      (forall d, In d ds ->
                 is_text (joinpath d "tilt_evens.com") (fs w') = true /\
                 is_text (joinpath d "tilt_odds.com") (fs w') = true) /\
      commands evs = flat_map (dataset_commands w0) ds /\
      ((forall d, In d ds -> dataset_failure w0 d = None) -> errors evs = []) /\
      (forall d m, In d ds -> dataset_failure w0 d = Some m ->
                   In (name_of d ++ m) (errors evs)).
Proof.
  induction ds as [|d ds IH]; intros w Hi Hc Hso Hr.
  - exists w, []. cbn [for_each flat_map]. unfold ret.
    split; [reflexivity|]. split; [now rewrite app_nil_r|].
    split; [exact Hc|]. split; [tauto|]. split; [intros d []|].
    split; [reflexivity|]. split; [reflexivity|]. intros d m [].
  - assert (Hd : In d all) by (apply Hi; now left).
    assert (Hrd : ready d (fs w)).
    { apply (ready_changed_only all (fs w0)); [exact Hc | apply Hr; now left]. }
    assert (En : name_in d (fs w) = name_in d (fs w0)).
    { unfold name_in. now rewrite (find_name_changed_only all (fs w0) (fs w) d Hc). }
    pose proof (state_in_changed_only all (fs w0) (fs w) d Hc) as Est.
    destruct Hrd as [fx [fy [fz [rx [ry [rz [Hren [Hs Hst]]]]]]]].
    destruct (process_dataset_run d w _ fx fy fz rx ry rz Hren Hs Hst)
      as [w1 [evs1 [E [Ht [Hso1 [Hc1 He1]]]]]].
    destruct (process_dataset_files d w _ fx fy fz rx ry rz Hren Hs Hst)
      as [msg [w2 [te [to [evs' [R E']]]]]].
    assert (Ew : fs w1 = fs w2).
    { rewrite E in E'. injection E' as ->. reflexivity. }
    assert (Hc' : changed_only all (fs w0) (fs w1)).
    { rewrite Ew.
      exact (changed_only_rendering all (fs w0) d _ _ (with_events w [Log INFO msg])
               w2 te to Hd Hc R). }
    assert (Hso' : stdout_of w1 = stdout_of w0) by congruence.
    destruct (IH w1 (fun x Hx => Hi x (or_intror Hx)) Hc' Hso'
                (fun x Hx => Hr x (or_intror Hx)))
      as [w' [evs [Ef [Htf [Hcf [Htx [Hjf [Hcm [Hok Hfail]]]]]]]]].
    assert (Htx1 : forall q, is_text q (fs w) = true -> is_text q (fs w1) = true).
    { intros q Hq. rewrite Ew.
      exact (is_text_rendering d _ _ (with_events w [Log INFO msg]) w2 te to q R Hq). }
    fold (state_in d (fs w)) in Hc1, He1.
    rewrite Hso, En, Est in Hc1, He1.
    fold (dataset_commands w0 d) in Hc1. fold (dataset_failure w0 d) in He1.
    exists w', (evs1 ++ evs)%list.
    split; [cbn [for_each]; now rewrite (bind_ok _ _ _ _ _ E)|].
    split; [now rewrite Htf, Ht, app_assoc|].
    split; [exact Hcf|].
    split; [intros q Hq; apply Htx, Htx1, Hq|].
    split.
    { intros x [<-|Hx]; [|now apply Hjf].
      split; apply Htx; rewrite Ew; unfold is_text.
      - now rewrite (r_evens _ _ _ _ _ _ _ R).
      - now rewrite (r_odds _ _ _ _ _ _ _ R). }
    split; [cbn [flat_map]; now rewrite commands_app, Hc1, Hcm|].
    split.
    + intros Hnone. rewrite errors_app, Hok by (intros x Hx; apply Hnone; now right).
      rewrite (Hnone d (or_introl eq_refl)) in He1. now rewrite He1.
    + intros x m [<-|Hx] Hm; rewrite errors_app; apply in_or_app.
      * left. rewrite Hm in He1. destruct He1 as [pre ->]. apply in_errors_last.
      * right. now apply (Hfail x m).
Qed.

(** X12. When every dataset that [get_datasets] lists is ready (the
    renderer finds what it reads and the state is 1 or 2),
    [generate_halfsets] returns normally, whatever the external
    commands report.  It runs, dataset after dataset in listing order,
    the commands of that dataset up to its first failed step; it logs no
    error when no step fails and the "Terminating this dataset" error of
    each dataset that has a failed step.  The code itself changes no
    path other than the job files of the listed datasets, and afterwards
    every listed dataset has both half-set job files. *)
Theorem ready_batch_is_processed_in_order :
  forall (p : path) (w : World),
    (forall d, In d (datasets_of p (fs w)) -> ready d (fs w)) ->
    let ds := datasets_of p (fs w) in
    exists (w' : World) (evs : list event),
      generate_halfsets p w = (Ok tt, w') /\
      trace w' = (trace w ++ evs)%list /\
      commands evs = flat_map (dataset_commands w) ds /\
      ((forall d, In d ds -> dataset_failure w d = None) -> errors evs = []) /\
      (forall d m, In d ds -> dataset_failure w d = Some m ->
                   In (name_of d ++ m) (errors evs)) /\
      (forall q, (forall d, In d ds -> job_file d q = false) ->
                 lookup q (fs w') = lookup q (fs w)) /\
      (forall d, In d ds ->
                 is_text (joinpath d "tilt_evens.com") (fs w') = true /\
                 is_text (joinpath d "tilt_odds.com") (fs w') = true).
Proof.
  intros p w Hr ds.
  destruct (batch_run ds w ds w (fun x Hx => Hx) (changed_only_refl ds (fs w))
              eq_refl Hr)
    as [w' [evs [Ef [Htf [[Ha _] [_ [Hjf [Hcm [Hok Hfail]]]]]]]]].
  exists w', evs.
  split.
  { unfold generate_halfsets. now rewrite (bind_ok _ _ _ _ _ (get_datasets_run p w)). }
  split; [exact Htf|]. split; [exact Hcm|]. split; [exact Hok|].
  split; [exact Hfail|]. split; [exact Ha | exact Hjf].
Qed.

Lemma ready_batch_is_processed_in_order_witness :
  let p := "/data" in
  let w := example_world in
  let ds := datasets_of p (fs w) in
  exists (w' : World) (evs : list event),
    generate_halfsets p w = (Ok tt, w') /\
    trace w' = (trace w ++ evs)%list /\
    commands evs = flat_map (dataset_commands w) ds /\
    ((forall d, In d ds -> dataset_failure w d = None) -> errors evs = []) /\
    (forall d m, In d ds -> dataset_failure w d = Some m ->
                 In (name_of d ++ m) (errors evs)) /\
    (forall q, (forall d, In d ds -> job_file d q = false) ->
               lookup q (fs w') = lookup q (fs w)) /\
    (forall d, In d ds ->
               is_text (joinpath d "tilt_evens.com") (fs w') = true /\
               is_text (joinpath d "tilt_odds.com") (fs w') = true).
Proof.
  apply (ready_batch_is_processed_in_order "/data" example_world).
  intros d Hd. vm_compute in Hd. destruct Hd as [<-|[<-|[]]].
  - exists 4096%Z, 4096%Z, 10%Z, 1024%Z, 1024%Z, 512%Z.
    split; [|split].
    + constructor; vm_compute; [reflexivity | discriminate | reflexivity | reflexivity].
    + vm_compute. discriminate.
    + vm_compute. discriminate.
  - exists 5760%Z, 4092%Z, 41%Z, 960%Z, 928%Z, 300%Z.
    split; [|split].
    + constructor; vm_compute; [reflexivity | discriminate | reflexivity | reflexivity].
    + vm_compute. exact I.
    + vm_compute. discriminate.
Defined.

(** ** The script *)


